(** * Assessment agent backend: a shallow embedding of [server.py]

    The four request handlers of the Flask service ([generate_assessment],
    [evaluate_answer], [check_plagiarism], [recommend_tests]) are embedded as
    functions over an explicit world (the calls made to the completion
    service and the temporary files on disk), with Python exceptions as an
    error result.  Python values, strings, truthiness, [str.strip], the
    regular expressions of the reply parser and the float arithmetic of the
    question-count allocation are modelled as the interpreter defines them. *)

From Stdlib Require Import ZArith Lia String Ascii List Bool.
From stdpp Require Import base decidable numbers option list strings gmap.

#[local] Set Warnings "-register-all".
Local Open Scope Z_scope.

(** ** Python strings

    A [str] is a sequence of Unicode code points. *)

Abbreviation pystr := (list N).

(** An ASCII literal as a Python string. *)
Definition py (s : string) : pystr :=
  map N_of_ascii (list_ascii_of_string s).

(** [str.isspace] on one code point; [str.strip] and the [\s] class of [re]
    on [str] patterns both use it. *)
Definition is_space (c : N) : bool :=
  ((9 <=? c) && (c <=? 13) || (28 <=? c) && (c <=? 32)
   || (c =? 133) || (c =? 160) || (c =? 5760)
   || (8192 <=? c) && (c <=? 8202)
   || (c =? 8232) || (c =? 8233) || (c =? 8239) || (c =? 8287)
   || (c =? 12288))%N.

Fixpoint lstrip (s : pystr) : pystr :=
  match s with
  | c :: s' => if is_space c then lstrip s' else s
  | [] => []
  end.

Definition rstrip (s : pystr) : pystr := rev (lstrip (rev s)).

(** [s.strip()] *)
Definition strip (s : pystr) : pystr := rstrip (lstrip s).

Definition str_eqb (s t : pystr) : bool := bool_decide (s = t).

Fixpoint starts_with (p s : pystr) : bool :=
  match p, s with
  | [], _ => true
  | a :: p', b :: s' => (a =? b)%N && starts_with p' s'
  | _ :: _, [] => false
  end.

(** [p in s] for two strings: [p] occurs in [s] at some offset. *)
Fixpoint occurs (p s : pystr) : bool :=
  starts_with p s ||
  match s with
  | [] => false
  | _ :: s' => occurs p s'
  end.

(** ** Exceptions and results *)

Inductive exn :=
| AttributeError
| TypeError
| ValueError
| OverflowError
| ZeroDivisionError
| OSError
| RecursionError
| ModelError (detail : pystr).

Inductive result (A : Type) :=
| Ok (a : A)
| Raise (e : exn).
Arguments Ok {A} a.
Arguments Raise {A} e.

(** ** Floats and the rounding of the question-count allocation *)

Module PyFloat.

Definition DBL_MANT_DIG : Z := 53.
Definition DBL_MAX_EXP : Z := 1024.
Definition DBL_MIN_EXP : Z := -1021.

(** A binary64 value; [Finite m e] is [m * 2 ^ e]. *)
Inductive float :=
| Finite (m e : Z)
| Inf (negative : bool)
| NaN.

(** The integer nearest to [a / b], for [0 < b]; a tie goes to the even
    neighbour. *)
Definition div_half_even (a b : Z) : Z :=
  let q := a / b in
  match 2 * (a mod b) ?= b with
  | Lt => q
  | Gt => q + 1
  | Eq => if Z.even q then q else q + 1
  end.

(** Numerator and denominator of [a / b / 2 ^ e]. *)
Definition scaled_num (a e : Z) : Z := a * 2 ^ Z.max 0 (- e).
Definition scaled_den (b e : Z) : Z := b * 2 ^ Z.max 0 e.

(** The exponent of the binary64 nearest to [a / b], for [0 < a] and
    [0 < b]: the one that leaves a 53-bit significand, or the smallest
    subnormal exponent. *)
Definition quotient_exponent (a b : Z) : Z :=
  let e0 := Z.log2 a - Z.log2 b - DBL_MANT_DIG in
  let e1 :=
    if scaled_num a e0 / scaled_den b e0 <? 2 ^ DBL_MANT_DIG
    then e0 else e0 + 1 in
  Z.max e1 (DBL_MIN_EXP - DBL_MANT_DIG).

(** [a / b] on two positive [int]s: the correctly rounded quotient
    (round to nearest, ties to even), or [OverflowError] when that is
    beyond the largest float. *)
Definition pos_true_divide (a b : Z) : result (Z * Z) :=
  let e := quotient_exponent a b in
  let m := div_half_even (scaled_num a e) (scaled_den b e) in
  if (0 <=? e) && (2 ^ DBL_MAX_EXP <=? m * 2 ^ e)
  then Raise OverflowError
  else Ok (m, e).

(** [a / b] on two [int]s. *)
Definition int_true_divide (a b : Z) : result float :=
  if b =? 0 then Raise ZeroDivisionError
  else if a =? 0 then Ok (Finite 0 0)
  else
    match pos_true_divide (Z.abs a) (Z.abs b) with
    | Ok (m, e) => Ok (Finite (Z.sgn a * Z.sgn b * m) e)
    | Raise err => Raise err
    end.

(** [round(x)] with one argument: the nearest [int], ties to even. *)
Definition round (x : float) : result Z :=
  match x with
  | Finite m e =>
      Ok (if 0 <=? e then m * 2 ^ e else div_half_even m (2 ^ (- e)))
  | Inf _ => Raise OverflowError
  | NaN => Raise ValueError
  end.

End PyFloat.

(** ** Python values, as [json.loads] and [request.json] produce them *)

Inductive pyval :=
| PNone
| PBool (b : bool)
| PInt (n : Z)
| PFloat (x : PyFloat.float)
| PStr (s : pystr)
| PList (items : list pyval)
| PDict (items : list (pystr * pyval)).

(** [bool(v)] *)
Definition truthy (v : pyval) : bool :=
  match v with
  | PNone => false
  | PBool b => b
  | PInt n => negb (n =? 0)
  | PFloat (PyFloat.Finite m _) => negb (m =? 0)
  | PFloat _ => true
  | PStr s => negb (str_eqb s [])
  | PList l => match l with [] => false | _ => true end
  | PDict d => match d with [] => false | _ => true end
  end.

(** [v == s] for a string literal [s]. *)
Definition eq_str (v : pyval) (s : pystr) : bool :=
  match v with
  | PStr t => str_eqb t s
  | _ => false
  end.

(** [s in v] for a string [s]: membership in a list, key of a dict,
    substring of a string; other values are not containers. *)
Definition py_in (s : pystr) (v : pyval) : result bool :=
  match v with
  | PList l => Ok (existsb (fun x => eq_str x s) l)
  | PDict d => Ok (existsb (fun kv => str_eqb (fst kv) s) d)
  | PStr t => Ok (occurs s t)
  | _ => Raise TypeError
  end.

(** [v.strip()]: only strings have the method. *)
Definition py_strip (v : pyval) : result pystr :=
  match v with
  | PStr s => Ok (strip s)
  | _ => Raise AttributeError
  end.

(** [sep.join(v)]: [v] must be an iterable of strings. *)
Fixpoint join_strs (sep : pystr) (l : list pystr) : pystr :=
  match l with
  | [] => []
  | [s] => s
  | s :: l' => s ++ sep ++ join_strs sep l'
  end.

Fixpoint all_strs (l : list pyval) : option (list pystr) :=
  match l with
  | [] => Some []
  | PStr s :: l' => option_map (cons s) (all_strs l')
  | _ :: _ => None
  end.

Definition py_join (sep : pystr) (v : pyval) : result pystr :=
  match v with
  | PList l =>
      match all_strs l with
      | Some strs => Ok (join_strs sep strs)
      | None => Raise TypeError
      end
  | PStr s => Ok (join_strs sep (map (fun c => [c]) s))
  | PDict d => Ok (join_strs sep (map fst d))
  | _ => Raise TypeError
  end.

(** ** Regular expressions of the reply parser

    The fragment of [re] that the four patterns use, matched by
    backtracking in the order the [re] module tries alternatives.  There is
    one capture group. *)

Module Re.

Inductive cls :=
| Space          (* \s *)
| Dot            (* .  without DOTALL: anything but a newline *)
| DotAll.        (* .  with DOTALL *)

Definition in_cls (k : cls) (c : N) : bool :=
  match k with
  | Space => is_space c
  | Dot => negb (c =? 10)%N
  | DotAll => true
  end.

Inductive re :=
| Lit (s : pystr)
| Star (k : cls)        (* k*  *)
| LazyStar (k : cls)    (* k*? *)
| Group (r : re)        (* ( r ) *)
| Seq (r1 r2 : re)
| Alt (r1 r2 : re)      (* r1 | r2 *)
| Ahead (r : re)        (* (?= r ) *)
| Dollar.               (* $ without MULTILINE *)

(** A continuation receives the rest of the text and group 1. *)
Definition cont := pystr -> option pystr -> option (option pystr).

Fixpoint star (k : cls) (s : pystr) (g : option pystr) (kont : cont)
  : option (option pystr) :=
  match s with
  | c :: s' =>
      if in_cls k c then
        match star k s' g kont with
        | Some r => Some r
        | None => kont s g
        end
      else kont s g
  | [] => kont [] g
  end.

Fixpoint lazy_star (k : cls) (s : pystr) (g : option pystr) (kont : cont)
  : option (option pystr) :=
  match kont s g with
  | Some r => Some r
  | None =>
      match s with
      | c :: s' => if in_cls k c then lazy_star k s' g kont else None
      | [] => None
      end
  end.

(** [$] matches at the end and before a newline that ends the text. *)
Definition at_dollar (s : pystr) : bool :=
  match s with
  | [] => true
  | [c] => (c =? 10)%N
  | _ => false
  end.

Fixpoint run (r : re) (s : pystr) (g : option pystr) (kont : cont)
  : option (option pystr) :=
  match r with
  | Lit l => if starts_with l s then kont (drop (length l) s) g else None
  | Star k => star k s g kont
  | LazyStar k => lazy_star k s g kont
  | Group r1 =>
      run r1 s g
        (fun s' _ => kont s' (Some (take (length s - length s') s)))
  | Seq r1 r2 => run r1 s g (fun s' g' => run r2 s' g' kont)
  | Alt r1 r2 =>
      match run r1 s g kont with
      | Some x => Some x
      | None => run r2 s g kont
      end
  | Ahead r1 =>
      match run r1 s g (fun _ g' => Some g') with
      | Some g' => kont s g'
      | None => None
      end
  | Dollar => if at_dollar s then kont s g else None
  end.

(** A match anchored at the start of [s]; the result is group 1. *)
Definition match_here (r : re) (s : pystr) : option (option pystr) :=
  run r s None (fun _ g => Some g).

(** [re.search(r, s)]: the leftmost start at which [r] matches. *)
Fixpoint search (r : re) (s : pystr) : option (option pystr) :=
  match match_here r s with
  | Some g => Some g
  | None =>
      match s with
      | [] => None
      | _ :: s' => search r s'
      end
  end.

(** [m.group(1).strip()] when the search gives a match [m]; a group that
    took no part in the match is [None], which has no [strip]. *)
Definition group1_strip (m : option pystr) : result pystr :=
  match m with
  | Some g => Ok (strip g)
  | None => Raise AttributeError
  end.

End Re.

(** ** The world of a request

    A handler talks to the completion service and, for an uploaded
    syllabus, to the file system.  The world records the prompts sent so
    far and the temporary files that exist. *)

(** Where the generation prompts take their subject from (lines 83, 85). *)
Inductive instruction :=
| FromSyllabus
| ForTopic (topic : pystr).

(** The prompts of [server.py]: the template and the values that the
    f-string interpolates into it. *)
Inductive prompt :=
| McqPrompt (base : instruction) (num_mcqs : Z) (difficulty : pystr)
    (context : pystr)
| SubjectivePrompt (base : instruction) (num_subjective : Z)
    (difficulty : pystr) (context : pystr)
| ExplanationPrompt (question_text correct_answer : pyval)
| SolutionPrompt (question_text rubric : pyval)
| SubjectiveEvalPrompt (question_text user_answer rubric : pyval)
| PlagiarismPrompt (user_answer : pyval) (comparison_text : pystr)
| RecommendationPrompt (skill_gaps : pystr) (user_profile : pyval).

(** What [model.generate_content(p).text] gives: the text, or an exception
    with [detail] as its [str]. *)
Inductive reply :=
| Text (t : pystr)
| Failure (detail : pystr).

Record world := World {
  calls : list prompt;
  tmp_files : gset pystr
}.

Definition M (A : Type) : Type := world -> result A * world.

Definition ret {A} (a : A) : M A := fun w => (Ok a, w).

Definition bind {A B} (m : M A) (f : A -> M B) : M B :=
  fun w =>
    match m w with
    | (Ok a, w') => f a w'
    | (Raise e, w') => (Raise e, w')
    end.

Definition lift {A} (r : result A) : M A := fun w => (r, w).

(** [try: body except Exception as e: handler(e)] *)
Definition try_except {A} (body : M A) (handler : exn -> M A) : M A :=
  fun w =>
    match body w with
    | (Ok a, w') => (Ok a, w')
    | (Raise e, w') => handler e w'
    end.

Notation "x <~ m ;; k" := (bind m (fun x => k))
  (at level 100, m at next level, right associativity).
Notation "m ;;; k" := (bind m (fun _ => k))
  (at level 100, right associativity).

(** [str(e)]: the text of a failure of the completion service; the other
    exceptions stand for themselves. *)
Definition exn_str (e : exn) : pystr :=
  match e with
  | ModelError detail => detail
  | AttributeError => py "AttributeError"
  | TypeError => py "TypeError"
  | ValueError => py "ValueError"
  | OverflowError => py "OverflowError"
  | ZeroDivisionError => py "ZeroDivisionError"
  | OSError => py "OSError"
  | RecursionError => py "RecursionError"
  end.

(** A JSON response: [jsonify(body), status]. *)
Record response := Response {
  status : Z;
  body : gmap string pystr
}.

Definition jsonify (b : gmap string pystr) : response := Response 200 b.

Definition error_response (code : Z) (message : string) : response :=
  Response code {[ "error"%string := py message ]}.

(** [data.get(key)] and [data.get(key, dflt)] on the request's JSON object. *)
Definition get (data : gmap string pyval) (key : string) : pyval :=
  default PNone (data !! key).

Definition get_default (data : gmap string pyval) (key : string)
  (dflt : pyval) : pyval :=
  default dflt (data !! key).

(** A form field that the handler decodes ([int(...)], [json.loads(...)]):
    not sent; sent and rejected by the decoder with its own error
    ([ValueError] from [int], [json.JSONDecodeError] from [json.loads]);
    sent and making the decoder raise another exception ([json.loads] raises
    [RecursionError] on deeply nested text and a plain [ValueError] on an
    integer literal beyond the digit limit); or decoded. *)
Inductive form_value (A : Type) :=
| Missing
| Unparsable
| Fails (e : exn)
| Parsed (a : A).
Arguments Missing {A}.
Arguments Unparsable {A}.
Arguments Fails {A} e.
Arguments Parsed {A} a.

(** An uploaded file ([werkzeug]'s [FileStorage]); it is truthy when it has
    a file name. *)
Record upload := Upload {
  filename : pystr;
  content : pystr
}.

(** The multipart form of [/generate_assessment]. *)
Record generate_form := GenerateForm {
  topic : option pystr;
  total_questions : form_value Z;
  difficulty : option pystr;
  question_types : form_value pyval;
  syllabus_pdf : option upload
}.

(** ** Question counts (lines 95-118) *)

(** [round(total_questions * 2 / 3)] *)
Definition two_thirds (total_questions : Z) : result Z :=
  match PyFloat.int_true_divide (total_questions * 2) 3 with
  | Ok x => PyFloat.round x
  | Raise e => Raise e
  end.

(** Both types selected: the counts after the readjustment. *)
Definition split_both (total_questions : Z) : result (Z * Z) :=
  match two_thirds total_questions with
  | Raise e => Raise e
  | Ok num_mcqs =>
      let num_subjective := total_questions - num_mcqs in
      if 0 <? total_questions then
        let num_mcqs := if num_mcqs =? 0 then 1 else num_mcqs in
        let num_subjective :=
          if num_subjective =? 0 then 1 else num_subjective in
        if total_questions <? num_mcqs + num_subjective then
          if num_subjective <? num_mcqs
          then Ok (total_questions - num_subjective, num_subjective)
          else Ok (num_mcqs, total_questions - num_mcqs)
        else Ok (num_mcqs, num_subjective)
      else Ok (num_mcqs, num_subjective)
  end.

(** The counts [(num_mcqs, num_subjective)], or [None] when no valid
    question type is selected. *)
Definition question_counts (question_types : pyval) (total_questions : Z)
  : result (option (Z * Z)) :=
  match py_in (py "mcq") question_types,
        py_in (py "subjective") question_types with
  | Raise e, _ => Raise e
  | Ok true, Raise e => Raise e
  | Ok true, Ok true =>
      match split_both total_questions with
      | Ok c => Ok (Some c)
      | Raise e => Raise e
      end
  | Ok true, Ok false => Ok (Some (total_questions, 0))
  | Ok false, Ok true => Ok (Some (0, total_questions))
  | Ok false, Ok false => Ok None
  | Ok false, Raise e => Raise e
  end.

(** ** The handlers *)

Section Handlers.

(** The completion service: its reply to the [n]-th call of the request
    (counting from 0) with a given prompt. *)
Variable complete : nat -> prompt -> reply.

(** [str.upper] *)
Variable upper : pystr -> pystr.

(** The file system and the PDF reader, as this request meets them:
    the path [NamedTemporaryFile] creates (or its failure), the outcome of
    [FileStorage.save], and the text [PyPDF2] extracts from a path. *)
Variable new_tmp_file : result pystr.
Variable save_upload : upload -> pystr -> result unit.
Variable extract_text : pystr -> result pystr.

(** [model.generate_content(p).text] *)
Definition generate_content (p : prompt) : M pystr :=
  fun w =>
    let w' := World (calls w ++ [p]) (tmp_files w) in
    match complete (length (calls w)) p with
    | Text t => (Ok t, w')
    | Failure detail => (Raise (ModelError detail), w')
    end.

(** [tempfile.NamedTemporaryFile(delete=False, suffix=".pdf")] *)
Definition named_temporary_file : M pystr :=
  fun w =>
    match new_tmp_file with
    | Ok path => (Ok path, World (calls w) ({[ path ]} ∪ tmp_files w))
    | Raise e => (Raise e, w)
    end.

(** [os.unlink(path)] *)
Definition unlink (path : pystr) : M unit :=
  fun w => (Ok tt, World (calls w) (tmp_files w ∖ {[ path ]})).

(** [parse_pdf]: the extracted text, or [None] on any exception. *)
Definition parse_pdf (file_path : pystr) : option pystr :=
  match extract_text file_path with
  | Ok text => Some text
  | Raise _ => None
  end.

(** Lines 89-182: the counts, then the generation calls. *)
Definition generate_questions (base : instruction) (context : pystr)
  (question_types : pyval) (total_questions : Z) (difficulty : pystr)
  : M response :=
  counts <~ lift (question_counts question_types total_questions);;
  match counts with
  | None => ret (error_response 400 "No valid question type selected.")
  | Some (num_mcqs, num_subjective) =>
      try_except
        (mcqs_generated_text <~
           (if 0 <? num_mcqs
            then generate_content (McqPrompt base num_mcqs difficulty context)
            else ret []);;
         subjective_generated_text <~
           (if 0 <? num_subjective
            then generate_content
                   (SubjectivePrompt base num_subjective difficulty context)
            else ret []);;
         ret (jsonify
                (<[ "mcqs"%string := mcqs_generated_text ]>
                   {[ "subjective_questions"%string :=
                        subjective_generated_text ]})))
        (fun _ =>
           ret (error_response 500
                  "Failed to generate assessment. Please try again."))
  end.

(** [if syllabus_file:] holds for an upload that has a file name. *)
Definition usable_file (f : option upload) : option upload :=
  match f with
  | Some u => if str_eqb (filename u) [] then None else Some u
  | None => None
  end.

(** [if topic:] holds for a topic that is not empty. *)
Definition usable_topic (t : option pystr) : option pystr :=
  match t with
  | Some (c :: t') => Some (c :: t')
  | _ => None
  end.

(** Line 57 is outside any [try]: whatever [int] raises leaves the handler.
    Lines 61-64 catch [json.JSONDecodeError] only: [None] stands for the
    caught error, and any other exception of [json.loads] leaves the
    handler. *)
Definition generate_assessment (form : generate_form) : M response :=
  total <~ lift (match total_questions form with
                 | Missing => Ok 10
                 | Parsed n => Ok n
                 | Unparsable => Raise ValueError
                 | Fails e => Raise e
                 end);;
  let difficulty := default (py "medium") (difficulty form) in
  decoded <~ lift (match question_types form with
                   | Missing => Ok (Some (PList [PStr (py "both")]))
                   | Parsed v => Ok (Some v)
                   | Unparsable => Ok None
                   | Fails e => Raise e
                   end);;
  match decoded with
  | None => ret (error_response 400 "Invalid question_types parameter.")
  | Some question_types =>
      match usable_file (syllabus_pdf form) with
      | Some syllabus_file =>
          temp_file_path <~ named_temporary_file;;
          lift (save_upload syllabus_file temp_file_path);;;
          let context_content := parse_pdf temp_file_path in
          unlink temp_file_path;;;
          match context_content with
          | None | Some [] =>
              ret (error_response 500 "Failed to parse PDF syllabus.")
          | Some text =>
              generate_questions FromSyllabus text question_types total
                difficulty
          end
      | None =>
          match usable_topic (topic form) with
          | Some topic =>
              generate_questions (ForTopic topic) (py "N/A") question_types
                total difficulty
          | None =>
              ret (error_response 400
                     "Please provide a topic or upload a syllabus PDF.")
          end
      end
  end.

(** The initial [evaluation_result] (line 203). *)
Definition default_result : gmap string pystr :=
  <[ "score"%string := py "N/A" ]>
    (<[ "feedback"%string := py "No evaluation performed." ]>
       (<[ "skill_gap"%string := py "N/A" ]>
          {[ "solution_highlights"%string := py "N/A" ]})).

(** [user_answer.strip().upper() == correct_answer.strip().upper()] *)
Definition same_answer (user_answer correct_answer : pyval) : result bool :=
  match py_strip user_answer with
  | Raise e => Raise e
  | Ok u =>
      match py_strip correct_answer with
      | Raise e => Raise e
      | Ok c => Ok (str_eqb (upper u) (upper c))
      end
  end.

(** [rubric if rubric else "N/A"] *)
Definition rubric_or_na (rubric : pyval) : pyval :=
  if truthy rubric then rubric else PStr (py "N/A").

(** The four patterns of lines 274-292. *)
Definition score_re : Re.re :=
  Re.Seq (Re.Lit (py "Score:"))
    (Re.Seq (Re.Star Re.Space)
       (Re.Seq (Re.Group (Re.LazyStar Re.Dot)) (Re.Lit [10%N]))).

Definition feedback_re : Re.re :=
  Re.Seq (Re.Lit (py "Feedback:"))
    (Re.Seq (Re.Star Re.Space)
       (Re.Seq (Re.Group (Re.LazyStar Re.DotAll))
          (Re.Ahead
             (Re.Alt (Re.Lit (10%N :: py "Skill Gap:")) Re.Dollar)))).

Definition skill_gap_re : Re.re :=
  Re.Seq (Re.Lit (py "Skill Gap:"))
    (Re.Seq (Re.Star Re.Space)
       (Re.Seq (Re.Group (Re.LazyStar Re.DotAll))
          (Re.Ahead
             (Re.Alt
                (Re.Lit (10%N :: py "Correct Approach/Solution Highlights:"))
                Re.Dollar)))).

Definition solution_highlights_re : Re.re :=
  Re.Seq (Re.Lit (py "Correct Approach/Solution Highlights:"))
    (Re.Seq (Re.Star Re.Space) (Re.Group (Re.Star Re.DotAll))).

(** One field of lines 274-296: the stripped group of the match, or the
    fallback when there is no match. *)
Definition parse_field (r : Re.re) (fallback : string) (raw : pystr)
  : result pystr :=
  match Re.search r raw with
  | Some m => Re.group1_strip m
  | None => Ok (py fallback)
  end.

(** An assignment [evaluation_result[key] = ...] in a sequence of them: the
    dictionary so far and the exception that stopped the sequence, if any. *)
Definition assign_field (key : string) (r : Re.re) (fallback : string)
  (raw : pystr) (st : gmap string pystr * option exn)
  : gmap string pystr * option exn :=
  match st with
  | (d, Some e) => (d, Some e)
  | (d, None) =>
      match parse_field r fallback raw with
      | Ok v => (<[ key := v ]> d, None)
      | Raise e => (d, Some e)
      end
  end.

(** Lines 274-296, on the dictionary they update in place. *)
Definition parse_evaluation (raw_eval_text : pystr)
  (evaluation_result : gmap string pystr)
  : gmap string pystr * option exn :=
  assign_field "solution_highlights" solution_highlights_re
    "Could not parse solution highlights from AI." raw_eval_text
    (assign_field "skill_gap" skill_gap_re
       "Could not parse skill gap analysis from AI." raw_eval_text
       (assign_field "feedback" feedback_re
          "Could not parse detailed feedback from AI." raw_eval_text
          (assign_field "score" score_re "N/A" raw_eval_text
             (evaluation_result, None)))).

(** Lines 298-301: the handler of the primary subjective evaluation. *)
Definition evaluation_failed (e : exn)
  (evaluation_result : gmap string pystr) : gmap string pystr :=
  <[ "raw_gemini_response"%string := exn_str e ]>
    (<[ "feedback"%string :=
          py "Failed to evaluate subjective answer due to an AI error." ]>
       evaluation_result).

Definition evaluate_mcq (question_text user_answer correct_answer : pyval)
  (evaluation_result : gmap string pystr) : M (gmap string pystr) :=
  (* line 207 *)
  wrong <~ (if negb (truthy user_answer) then ret true
            else same <~ lift (same_answer user_answer correct_answer);;
                 ret (negb same));;
  evaluation_result <~
    (if (wrong : bool) then
       try_except
         (text <~ generate_content
                    (ExplanationPrompt question_text correct_answer);;
          ret (<[ "solution_highlights"%string := strip text ]>
                 evaluation_result))
         (fun _ =>
            ret (<[ "solution_highlights"%string :=
                      py "Could not generate solution explanation due to an AI error." ]>
                   evaluation_result))
     else ret evaluation_result);;
  (* line 220 *)
  if negb (truthy user_answer) then
    ret (<[ "skill_gap"%string := py "Incomplete Answer" ]>
           (<[ "feedback"%string := py "No answer provided." ]>
              (<[ "score"%string := py "Incorrect" ]> evaluation_result)))
  else
    same <~ lift (same_answer user_answer correct_answer);;
    if (same : bool) then
      ret (<[ "solution_highlights"%string := py "N/A" ]>
             (<[ "skill_gap"%string := py "N/A" ]>
                (<[ "feedback"%string := py "Your answer is correct!" ]>
                   (<[ "score"%string := py "Correct" ]>
                      evaluation_result))))
    else
      ret (<[ "skill_gap"%string := py "Conceptual Understanding" ]>
             (<[ "feedback"%string := py "Your answer is incorrect." ]>
                (<[ "score"%string := py "Incorrect" ]>
                   evaluation_result))).

Definition evaluate_subjective (question_text user_answer rubric : pyval)
  (evaluation_result : gmap string pystr) : M (gmap string pystr) :=
  (* line 236 *)
  blank <~ (if negb (truthy user_answer) then ret true
            else stripped <~ lift (py_strip user_answer);;
                 ret (str_eqb stripped []));;
  if (blank : bool) then
    let evaluation_result :=
      <[ "skill_gap"%string := py "No Answer Provided" ]>
        (<[ "feedback"%string :=
              py "No answer provided for this subjective question." ]>
           (<[ "score"%string := py "0/10" ]> evaluation_result)) in
    try_except
      (text <~ generate_content
                 (SolutionPrompt question_text (rubric_or_na rubric));;
       ret (<[ "solution_highlights"%string := strip text ]>
              evaluation_result))
      (fun _ =>
         ret (<[ "solution_highlights"%string :=
                   py "Could not generate solution highlights due to an AI error." ]>
                evaluation_result))
  else
    fun w =>
      match generate_content
              (SubjectiveEvalPrompt question_text user_answer
                 (rubric_or_na rubric)) w with
      | (Raise e, w') => (Ok (evaluation_failed e evaluation_result), w')
      | (Ok raw_eval_text, w') =>
          match parse_evaluation raw_eval_text evaluation_result with
          | (d, None) => (Ok d, w')
          | (d, Some e) => (Ok (evaluation_failed e d), w')
          end
      end.

Definition evaluate_answer (data : gmap string pyval) : M response :=
  let question_text := get data "question_text" in
  let user_answer := get data "user_answer" in
  let question_type := get data "question_type" in
  let correct_answer := get data "correct_answer" in
  let rubric := get data "rubric" in
  if negb (truthy question_text && truthy question_type) then
    ret (error_response 400
           "Missing essential question parameters for evaluation.")
  else if eq_str question_type (py "mcq") then
    evaluation_result <~
      evaluate_mcq question_text user_answer correct_answer default_result;;
    ret (jsonify evaluation_result)
  else if eq_str question_type (py "subjective") then
    evaluation_result <~
      evaluate_subjective question_text user_answer rubric default_result;;
    ret (jsonify evaluation_result)
  else if eq_str question_type (py "coding") then
    ret (jsonify
           (<[ "solution_highlights"%string := py "N/A" ]>
              (<[ "skill_gap"%string :=
                    py "Not applicable for placeholder coding evaluation." ]>
                 (<[ "feedback"%string :=
                       py "Coding test evaluation is a complex feature that requires a secure execution environment and test cases. This is a placeholder." ]>
                    (<[ "score"%string := py "N/A" ]> default_result)))))
  else ret (error_response 400 "Invalid question type.").

Definition check_plagiarism (data : gmap string pyval) : M response :=
  let user_answer := get data "user_answer" in
  let known_corpus := get_default data "known_corpus" (PList []) in
  if negb (truthy user_answer) then
    ret (error_response 400 "No answer provided for plagiarism check.")
  else if truthy known_corpus then
    comparison_text <~ lift (py_join [10%N] known_corpus);;
    try_except
      (text <~ generate_content
                 (PlagiarismPrompt user_answer comparison_text);;
       ret (jsonify {[ "plagiarism_report"%string := text ]}))
      (fun _ =>
         ret (error_response 500
                "Failed to check plagiarism due to AI error."))
  else
    ret (jsonify
           {[ "plagiarism_report"%string :=
                py "No corpus provided for comparison. Cannot perform a detailed plagiarism check." ]}).

Definition recommend_tests (data : gmap string pyval) : M response :=
  let skill_gaps := get_default data "skill_gaps" (PList []) in
  let user_profile := get_default data "user_profile" (PDict []) in
  if negb (truthy skill_gaps) then
    ret (jsonify
           {[ "recommendations"%string :=
                py "No specific skill gaps identified to recommend new tests." ]})
  else
    joined <~ lift (py_join (py ", ") skill_gaps);;
    try_except
      (text <~ generate_content (RecommendationPrompt joined user_profile);;
       ret (jsonify {[ "recommendations"%string := text ]}))
      (fun _ =>
         ret (error_response 500
                "Failed to generate recommendations due to AI error.")).

End Handlers.

(** A request starts with no call made; [tmp] is what the temporary
    directory holds at that time. *)
Definition start (tmp : gset pystr) : world := World [] tmp.

(** ** Vocabulary of the statements *)

(** The least [total_questions] whose two thirds lie beyond the largest
    float: [2 * total / 3] reaches [2^1024 - 2^970], which rounds to
    [2^1024]. *)
Definition first_overflow : Z := 3 * (2 ^ 1023 - 2 ^ 969).

(** The allocation in the words of the specification: two thirds (rounded)
    go to the MCQs and the rest to the subjective questions; for a positive
    total each count is raised to at least 1, and if the sum then exceeds
    the total the larger count is cut back so that the sum is the total
    again (on a tie, the subjective count). *)
Definition spec_allocation (total two_thirds : Z) : Z * Z :=
  let num_mcq := two_thirds in
  let num_subjective := total - num_mcq in
  if 0 <? total then
    let num_mcq := Z.max 1 num_mcq in
    let num_subjective := Z.max 1 num_subjective in
    if total <? num_mcq + num_subjective then
      if num_subjective <? num_mcq
      then (total - num_subjective, num_subjective)
      else (num_mcq, total - num_mcq)
    else (num_mcq, num_subjective)
  else (num_mcq, num_subjective).

(** What the explanation of an MCQ shows for a reply of the service. *)
Definition explanation_text (r : reply) : pystr :=
  match r with
  | Text t => strip t
  | Failure _ =>
      py "Could not generate solution explanation due to an AI error."
  end.

(** What a run shows of the status and the three non-explanation fields. *)
Definition verdict (out : result response * world)
  : result (Z * option pystr * option pystr * option pystr) :=
  match fst out with
  | Ok r =>
      Ok (status r, body r !! "score"%string, body r !! "feedback"%string,
          body r !! "skill_gap"%string)
  | Raise e => Raise e
  end.

(** A key of the request that is absent, [null] or an empty list. *)
Definition not_supplied (data : gmap string pyval) (key : string) : Prop :=
  data !! key = None \/ data !! key = Some PNone
  \/ data !! key = Some (PList []).

(** Some call of the run met a failure of the completion service. *)
Definition call_failed (complete : nat -> prompt -> reply) (w : world)
  : Prop :=
  exists (i : nat) p detail,
    calls w !! i = Some p /\ complete i p = Failure detail.

Definition no_file (f : option upload) : Prop :=
  f = None \/ exists u, f = Some u /\ filename u = [].

Definition no_topic (t : option pystr) : Prop := t = None \/ t = Some [].

(** The text that follows the first occurrence of [label]. *)
Fixpoint after_label (label s : pystr) : option pystr :=
  if starts_with label s then Some (drop (length label) s)
  else match s with
       | [] => None
       | _ :: s' => after_label label s'
       end.

(** [s] starts with [stop], or is at the end of the text (a final newline
    apart). *)
Definition stops_at (stop s : pystr) : bool :=
  starts_with stop s || Re.at_dollar s.

(** The text of [s] up to the next [stop] or the end of the text. *)
Fixpoint up_to (stop s : pystr) : pystr :=
  if stops_at stop s then []
  else match s with
       | [] => []
       | c :: s' => c :: up_to stop s'
       end.

(** What the patterns of lines 280-292 compute, in words: find the first
    occurrence of the label and skip the whitespace (newlines included)
    that follows it; the field is the text from there up to the next [stop]
    or, without one, to the end of the text, trimmed.  When the label is
    absent the field is the fallback. *)
Definition spec_field (label : pystr) (stop : option pystr)
  (fallback : string) (raw : pystr) : pystr :=
  match after_label label raw with
  | Some rest =>
      strip (match stop with
             | Some st => up_to st (lstrip rest)
             | None => lstrip rest
             end)
  | None => py fallback
  end.

(** The text of [s] before its first newline. *)
Fixpoint first_line (s : pystr) : pystr :=
  match s with
  | [] => []
  | c :: s' => if (c =? 10)%N then [] else c :: first_line s'
  end.

(** What the pattern of line 274 computes, in words: find the first
    occurrence of "Score:" and skip the whitespace (newlines included) that
    follows it; the score is the rest of that line, trimmed, when a newline
    ends it.  Without a newline there: the score is empty when the skipped
    whitespace held a newline, and "N/A" when no newline follows the label
    at all.  It is "N/A" too when the label is absent. *)
Definition spec_score (raw : pystr) : pystr :=
  match after_label (py "Score:") raw with
  | Some rest =>
      if occurs [10%N] (lstrip rest) then strip (first_line (lstrip rest))
      else if occurs [10%N] rest then []
      else py "N/A"
  | None => py "N/A"
  end.

(** The continuation that ends a match. *)
Definition final : Re.cont := fun _ g => Some g.

(** Group 1 is kept once it is set. *)
Definition keeps (kont : Re.cont) : Prop :=
  forall s g y, kont s (Some g) = Some y -> is_Some y.

(** ** Vocabulary of the further properties *)

(** A reply in the format that the evaluation prompt asks for (lines
    265-268): one line for each of the first three fields and the solution
    highlights at the end. *)
Definition formatted_reply (score feedback skill_gap solution : pystr)
  : pystr :=
  py "Score: " ++ score ++ 10%N :: py "Feedback: " ++ feedback
  ++ 10%N :: py "Skill Gap: " ++ skill_gap
  ++ 10%N :: py "Correct Approach/Solution Highlights: " ++ solution.

(** What follows each label in such a reply. *)
Definition rest_after_solution (solution : pystr) : pystr := 32%N :: solution.

Definition rest_after_skill_gap (skill_gap solution : pystr) : pystr :=
  32%N :: skill_gap
  ++ 10%N :: py "Correct Approach/Solution Highlights:"
  ++ rest_after_solution solution.

Definition rest_after_feedback (feedback skill_gap solution : pystr)
  : pystr :=
  32%N :: feedback
  ++ 10%N :: py "Skill Gap:" ++ rest_after_skill_gap skill_gap solution.

Definition rest_after_score (score feedback skill_gap solution : pystr)
  : pystr :=
  32%N :: score
  ++ 10%N :: py "Feedback:"
  ++ rest_after_feedback feedback skill_gap solution.

(** A field value that fits on one line of the format: not blank, without a
    newline and without one of the later labels. *)
Definition plain_line (s : pystr) : Prop :=
  lstrip s <> [] /\ (10%N ∉ s) /\
  occurs (py "Feedback:") s = false /\
  occurs (py "Skill Gap:") s = false /\
  occurs (py "Correct Approach/Solution Highlights:") s = false.

(** [isinstance(v, str)] *)
Definition is_str (v : pyval) : bool :=
  match v with PStr _ => true | _ => false end.

(** The keys of [evaluation_result] (line 203). *)
Definition result_keys : list string :=
  ["score"; "feedback"; "skill_gap"; "solution_highlights"]%string.

(** The decoded fields of a generation request (lines 57-62): [None] where
    the decoder raises. *)
Definition form_total (form : generate_form) : option Z :=
  match total_questions form with
  | Missing => Some 10
  | Parsed n => Some n
  | Unparsable | Fails _ => None
  end.

Definition form_types (form : generate_form) : option pyval :=
  match question_types form with
  | Missing => Some (PList [PStr (py "both")])
  | Parsed v => Some v
  | Unparsable | Fails _ => None
  end.

Definition form_difficulty (form : generate_form) : pystr :=
  default (py "medium") (difficulty form).

(** The request with another [topic] field. *)
Definition with_topic (form : generate_form) (t : option pystr)
  : generate_form :=
  GenerateForm t (total_questions form) (difficulty form)
    (question_types form) (syllabus_pdf form).

(** JSON values that [in] cannot search: [null], booleans and numbers. *)
Definition not_a_container (v : pyval) : Prop :=
  match v with
  | PNone | PBool _ | PInt _ | PFloat _ => True
  | _ => False
  end.

(** The body of [parse_pdf] (lines 37-42) on a document: opening it gives
    its pages or raises; each page's [extract_text()] gives a text, [None]
    or raises, and [text += page.extract_text() or ""] collects the texts in
    page order. *)
Fixpoint pages_text (pages : list (result (option pystr))) : result pystr :=
  match pages with
  | [] => Ok []
  | page :: rest =>
      match page with
      | Raise e => Raise e
      | Ok t =>
          match pages_text rest with
          | Ok text => Ok (default [] t ++ text)
          | Raise e => Raise e
          end
      end
  end.

Definition read_pdf (pdf : result (list (result (option pystr))))
  : pystr -> result pystr :=
  fun _ =>
    match pdf with
    | Ok pages => pages_text pages
    | Raise e => Raise e
    end.

(** A page without text, and a document that gives no text: it cannot be
    opened, one of its pages cannot be read, or all its pages are blank. *)
Definition blank_page (page : result (option pystr)) : Prop :=
  page = Ok None \/ page = Ok (Some []).

Definition unreadable (pdf : result (list (result (option pystr)))) : Prop :=
  match pdf with
  | Raise _ => True
  | Ok pages =>
      Forall blank_page pages \/
      Exists (fun page => exists e, page = Raise e) pages
  end.

(** ** Sample requests and services *)

(** [str.upper] on ASCII text. *)
Definition ascii_upper (s : pystr) : pystr :=
  map (fun c => if (97 <=? c) && (c <=? 122) then c - 32 else c)%N s.

Definition sample_question : pystr :=
  py "Q1. What is the capital of France?".

Definition sample_mcq : gmap string pyval :=
  <[ "question_text"%string := PStr sample_question ]>
    (<[ "question_type"%string := PStr (py "mcq") ]>
       (<[ "user_answer"%string := PStr (py "c") ]>
          {[ "correct_answer"%string := PStr (py "C") ]})).

Definition sample_unanswered_mcq : gmap string pyval :=
  <[ "question_text"%string := PStr sample_question ]>
    (<[ "question_type"%string := PStr (py "mcq") ]>
       {[ "correct_answer"%string := PStr (py "B") ]}).

Definition sample_mcq_no_key : gmap string pyval :=
  <[ "question_text"%string := PStr sample_question ]>
    (<[ "question_type"%string := PStr (py "mcq") ]>
       {[ "user_answer"%string := PStr (py "C") ]}).

Definition sample_subjective : gmap string pyval :=
  <[ "question_text"%string :=
       PStr (py "Q1. Explain the concept of recursion in programming.") ]>
    (<[ "question_type"%string := PStr (py "subjective") ]>
       (<[ "user_answer"%string :=
             PStr (py "A function that calls itself.") ]>
          {[ "rubric"%string := PStr (py "Base case, Recursive step") ]})).

Definition sample_blank_subjective : gmap string pyval :=
  <[ "question_text"%string :=
       PStr (py "Q1. Explain the concept of recursion in programming.") ]>
    (<[ "question_type"%string := PStr (py "subjective") ]>
       {[ "user_answer"%string := PStr (py "   ") ]}).

(** The same request with a rubric. *)
Definition sample_blank_with_rubric : gmap string pyval :=
  <[ "rubric"%string := PStr (py "Base case, Recursive step") ]>
    sample_blank_subjective.

(** A completion service that answers the solution prompt with the rubric
    it was given, and nothing else. *)
Definition service_rubric_echo : nat -> prompt -> reply :=
  fun _ p =>
    match p with
    | SolutionPrompt _ (PStr rubric) =>
        Text (py " Cover: " ++ rubric ++ [10%N])
    | _ => Failure (py "unexpected prompt")
    end.

(** A reply to the subjective evaluation that lacks the "Skill Gap:"
    label, and one that lacks the "Score:" label. *)
Definition reply_without_skill_gap : pystr :=
  py "Score: 7/10" ++ [10%N] ++ py "Feedback: Good start." ++ [10%N]
  ++ py "Correct Approach/Solution Highlights: Name the base case.".

Definition reply_without_score : pystr :=
  py "Feedback: Good start." ++ [10%N] ++ py "Skill Gap: Base cases"
  ++ [10%N]
  ++ py "Correct Approach/Solution Highlights: Name the base case.".

(** A reply whose feedback line is blank. *)
Definition reply_with_blank_feedback : pystr :=
  py "Score: 7/10" ++ [10%N] ++ py "Feedback:" ++ [10%N]
  ++ py "Skill Gap: Base cases" ++ [10%N]
  ++ py "Correct Approach/Solution Highlights: Name the base case.".

Definition sample_plagiarism : gmap string pyval :=
  <[ "user_answer"%string := PStr (py "A function that calls itself.") ]>
    {[ "known_corpus"%string := PList [] ]}.

Definition sample_corpus : gmap string pyval :=
  <[ "user_answer"%string := PStr (py "A function that calls itself.") ]>
    {[ "known_corpus"%string :=
         PList [PStr (py "Recursion is self reference.")] ]}.

Definition sample_empty_form : generate_form :=
  GenerateForm None Missing None Missing None.

Definition sample_both_types : pyval :=
  PList [PStr (py "mcq"); PStr (py "subjective")].

(** A request for [first_overflow] questions of both types on a topic. *)
Definition sample_overflow_form : generate_form :=
  GenerateForm (Some (py "Recursion")) (Parsed first_overflow) None
    (Parsed sample_both_types) None.

Definition sample_upload : upload :=
  Upload (py "syllabus.pdf") (py "%PDF-1.4").

Definition sample_upload_form : generate_form :=
  GenerateForm None Missing None (Parsed (PList [PStr (py "mcq")]))
    (Some sample_upload).

Definition sample_path : pystr := py "/tmp/tmpk3v9.pdf".

(** A completion service that is down, and one that answers "N/A". *)
Definition service_down : nat -> prompt -> reply :=
  fun _ _ => Failure (py "503 quota exceeded").

Definition service_na : nat -> prompt -> reply :=
  fun _ _ => Text (py "N/A").

(** A request on a topic with the given [total_questions] and
    [question_types] fields. *)
Definition sample_topic_form (total : form_value Z)
  (types : form_value pyval) : generate_form :=
  GenerateForm (Some (py "Recursion")) total None types None.

(** A reply in the requested format, and one that ends after the score. *)
Definition sample_formatted_reply : pystr :=
  formatted_reply (py "7/10") (py "Good start.") (py "Base cases")
    (py "Name the base case.").

Definition reply_without_newline : pystr := py "Score: 7/10".

(** A completion service whose first call succeeds and whose later calls
    fail. *)
Definition service_down_after_first : nat -> prompt -> reply :=
  fun n _ =>
    match n with
    | O => Text (py "Q1. What is a base case?")
    | S _ => Failure (py "503 quota exceeded")
    end.

(** A scanned document: two pages without text. *)
Definition sample_scanned_pdf : result (list (result (option pystr))) :=
  Ok [Ok None; Ok (Some [])].

Definition sample_two_texts : gmap string pyval :=
  <[ "user_answer"%string := PStr (py "A function that calls itself.") ]>
    {[ "known_corpus"%string :=
         PList (map PStr [py "Recursion is self reference.";
                          py "Loops repeat."]) ]}.

Definition sample_gaps : gmap string pyval :=
  {[ "skill_gaps"%string := PList (map PStr [py "Base cases"; py "Big-O"]) ]}.

(** A list with an element that is not a string, as the corpus of a
    plagiarism request and as the skill gaps of a recommendation request. *)
Definition sample_mixed_list : list pyval :=
  [PStr (py "Base cases"); PInt 3].

Definition sample_mixed_corpus : gmap string pyval :=
  <[ "user_answer"%string := PStr (py "A function that calls itself.") ]>
    {[ "known_corpus"%string := PList sample_mixed_list ]}.

Definition sample_mixed_gaps : gmap string pyval :=
  {[ "skill_gaps"%string := PList sample_mixed_list ]}.

(** A request for three hard questions of both types from a syllabus, and
    the pages of the syllabus: the second page has no text. *)
Definition sample_syllabus_form : generate_form :=
  GenerateForm None (Parsed 3) (Some (py "hard")) (Parsed sample_both_types)
    (Some sample_upload).

Definition sample_pages : list (option pystr) :=
  [Some (py "Unit 1: Recursion."); None; Some (py " Unit 2: Sorting.")].

Arguments py : simpl never.
Arguments str_eqb : simpl never.
Arguments strip : simpl never.

(** * Properties *)

(** ** Strings *)

Lemma str_eqb_refl s : str_eqb s s = true.
Proof. unfold str_eqb. apply bool_decide_eq_true. reflexivity. Qed.

Lemma str_eqb_eq s t : str_eqb s t = true <-> s = t.
Proof. unfold str_eqb. apply bool_decide_eq_true. Qed.

Lemma str_eqb_neq s t : s <> t -> str_eqb s t = false.
Proof. intros H. apply not_true_is_false. rewrite str_eqb_eq. exact H. Qed.

(** Comparisons of string literals are evaluated. *)
Ltac eval_literals :=
  repeat match goal with
    | |- context [str_eqb (py ?a) ?b] =>
        let v := eval vm_compute in (str_eqb (py a) b) in
        lazymatch v with
        | true => change (str_eqb (py a) b) with true
        | false => change (str_eqb (py a) b) with false
        end
    end.

Ltac unfold_monad :=
  unfold bind, ret, lift, try_except, generate_content, start, jsonify.

(** ** Rounding to the nearest float and to the nearest integer *)

Section Rounding.

Import PyFloat.

Lemma div_half_even_near a b :
  0 < b -> - b <= 2 * (b * div_half_even a b - a) <= b.
Proof.
  intros Hb. unfold div_half_even.
  pose proof (Z.div_mod a b ltac:(lia)) as Hdm.
  pose proof (Z.mod_pos_bound a b Hb) as Hr.
  destruct (Z.compare_spec (2 * (a mod b)) b);
    [destruct (Z.even (a / b)) | | ]; nia.
Qed.

Lemma div_half_even_le a b k :
  0 < b -> 2 * a < (2 * k + 1) * b -> div_half_even a b <= k.
Proof.
  intros Hb H. unfold div_half_even.
  pose proof (Z.div_mod a b ltac:(lia)) as Hdm.
  pose proof (Z.mod_pos_bound a b Hb) as Hr.
  assert (a / b <= k) by nia.
  destruct (Z.compare_spec (2 * (a mod b)) b);
    [destruct (Z.even (a / b)) | | ]; nia.
Qed.

Lemma div_half_even_ge a b k :
  0 < b -> k * b <= a -> k <= div_half_even a b.
Proof.
  intros Hb H. unfold div_half_even.
  pose proof (Z.div_mod a b ltac:(lia)) as Hdm.
  pose proof (Z.mod_pos_bound a b Hb) as Hr.
  assert (k <= a / b) by nia.
  destruct (Z.compare_spec (2 * (a mod b)) b);
    [destruct (Z.even (a / b)) | | ]; lia.
Qed.

(** A quotient at or above the midpoint below an even [k] rounds to [k] or
    higher. *)
Lemma div_half_even_ge_tie a b k :
  0 < b -> Z.even k = true -> (2 * k - 1) * b <= 2 * a ->
  k <= div_half_even a b.
Proof.
  intros Hb Hk H. unfold div_half_even.
  pose proof (Z.div_mod a b ltac:(lia)) as Hdm.
  pose proof (Z.mod_pos_bound a b Hb) as Hr.
  assert (k - 1 <= a / b) by nia.
  destruct (Z.eq_dec (a / b) (k - 1)) as [Heq | Hne].
  - assert (Z.even (a / b) = false) as Hodd.
    { rewrite Heq. replace (k - 1) with (Z.pred k) by lia.
      rewrite Z.even_pred. rewrite <- Z.negb_even, Hk. reflexivity. }
    rewrite Hodd.
    destruct (Z.compare_spec (2 * (a mod b)) b); nia.
  - destruct (Z.compare_spec (2 * (a mod b)) b);
      [destruct (Z.even (a / b)) | | ]; lia.
Qed.

(** A comparison of [a / (b * 2^e)] with [k], with the powers of two moved
    to a common non-negative exponent. *)
Lemma scaled_lt_iff a b k e n :
  0 <= n -> 0 <= n + e ->
  scaled_num a e < k * scaled_den b e <-> a * 2 ^ n < k * b * 2 ^ (n + e).
Proof.
  intros Hn Hne. unfold scaled_num, scaled_den.
  destruct (Z.le_gt_cases 0 e) as [He | He].
  - rewrite Z.max_l, Z.max_r by lia. rewrite Z.pow_0_r, Z.pow_add_r by lia.
    assert (0 < 2 ^ n) by (apply Z.pow_pos_nonneg; lia).
    assert (0 < 2 ^ e) by (apply Z.pow_pos_nonneg; lia).
    nia.
  - rewrite Z.max_r, Z.max_l by lia. rewrite Z.pow_0_r.
    replace n with ((n + e) + - e) at 1 by lia.
    rewrite Z.pow_add_r by lia.
    assert (0 < 2 ^ (n + e)) by (apply Z.pow_pos_nonneg; lia).
    assert (0 < 2 ^ (- e)) by (apply Z.pow_pos_nonneg; lia).
    nia.
Qed.

Lemma scaled_le_iff a b k e n :
  0 <= n -> 0 <= n + e ->
  k * scaled_den b e <= scaled_num a e <-> k * b * 2 ^ (n + e) <= a * 2 ^ n.
Proof.
  intros Hn Hne. pose proof (scaled_lt_iff a b k e n Hn Hne). lia.
Qed.

Lemma scaled_den_pos b e : 0 < b -> 0 < scaled_den b e.
Proof.
  intros. unfold scaled_den.
  assert (0 < 2 ^ Z.max 0 e) by (apply Z.pow_pos_nonneg; lia). nia.
Qed.

Lemma div_lt_inv a b k : 0 < b -> a / b < k -> a < k * b.
Proof.
  intros Hb H. pose proof (Z.div_mod a b ltac:(lia)).
  pose proof (Z.mod_pos_bound a b Hb). nia.
Qed.

Lemma div_ge_inv a b k : 0 < b -> k <= a / b -> k * b <= a.
Proof.
  intros Hb H. pose proof (Z.div_mod a b ltac:(lia)).
  pose proof (Z.mod_pos_bound a b Hb). nia.
Qed.

Lemma quotient_exponent_le a b :
  quotient_exponent a b <= Z.max (Z.log2 a - Z.log2 b - 52) (-1074).
Proof.
  unfold quotient_exponent, DBL_MANT_DIG, DBL_MIN_EXP.
  destruct (_ <? _); lia.
Qed.

Lemma quotient_exponent_ge a b :
  Z.log2 a - Z.log2 b - 53 <= quotient_exponent a b.
Proof.
  unfold quotient_exponent, DBL_MANT_DIG, DBL_MIN_EXP.
  destruct (_ <? _); lia.
Qed.

(** The significand has at most 53 bits before rounding. *)
Lemma quotient_exponent_upper a b :
  0 < a -> 0 < b ->
  scaled_num a (quotient_exponent a b)
  < 2 ^ 53 * scaled_den b (quotient_exponent a b).
Proof.
  intros Ha Hb.
  pose proof (Z.log2_spec a Ha) as [_ Hua].
  pose proof (Z.log2_spec b Hb) as [Hlb _].
  pose proof (Z.log2_nonneg a) as Hla0. pose proof (Z.log2_nonneg b) as Hlb0.
  set (la := Z.log2 a) in *. set (lb := Z.log2 b) in *.
  assert (Hmono : forall e e', e <= e' ->
            scaled_num a e < 2 ^ 53 * scaled_den b e ->
            scaled_num a e' < 2 ^ 53 * scaled_den b e').
  { intros e e' Hee H.
    set (n := Z.abs e + Z.abs e').
    apply (scaled_lt_iff a b (2 ^ 53) e' n); [lia | lia |].
    apply (scaled_lt_iff a b (2 ^ 53) e n) in H; [| lia | lia].
    assert (2 ^ (n + e) <= 2 ^ (n + e')) by (apply Z.pow_le_mono_r; lia).
    assert (0 < 2 ^ 53) by lia. nia. }
  unfold quotient_exponent, DBL_MANT_DIG, DBL_MIN_EXP.
  fold la lb. set (e0 := la - lb - 53).
  destruct (Z.ltb_spec (scaled_num a e0 / scaled_den b e0) (2 ^ 53))
    as [Hlt | Hge].
  - apply (Hmono e0); [lia |].
    apply div_lt_inv; [apply scaled_den_pos; lia | exact Hlt].
  - apply (Hmono (e0 + 1)); [lia |].
    set (n := Z.abs (e0 + 1)).
    apply (scaled_lt_iff a b (2 ^ 53) (e0 + 1) n); [lia | lia |].
    assert (0 < 2 ^ n) by (apply Z.pow_pos_nonneg; lia).
    assert (0 < 2 ^ (n + (e0 + 1))) by (apply Z.pow_pos_nonneg; lia).
    assert (2 ^ (la + 1) * 2 ^ n = 2 ^ 53 * 2 ^ lb * 2 ^ (n + (e0 + 1)))
      as Heq.
    { rewrite <- !Z.pow_add_r by lia. f_equal. lia. }
    nia.
Qed.

(** A float with a non-negative exponent is normal: its significand has 53
    bits. *)
Lemma quotient_exponent_lower a b :
  0 < a -> 0 < b -> 0 <= quotient_exponent a b ->
  2 ^ 52 * scaled_den b (quotient_exponent a b)
  <= scaled_num a (quotient_exponent a b).
Proof.
  intros Ha Hb.
  pose proof (Z.log2_spec a Ha) as [Hla _].
  pose proof (Z.log2_spec b Hb) as [_ Hub].
  pose proof (Z.log2_nonneg a) as Hla0. pose proof (Z.log2_nonneg b) as Hlb0.
  set (la := Z.log2 a) in *. set (lb := Z.log2 b) in *.
  unfold quotient_exponent, DBL_MANT_DIG, DBL_MIN_EXP.
  fold la lb. set (e0 := la - lb - 53).
  destruct (Z.ltb_spec (scaled_num a e0 / scaled_den b e0) (2 ^ 53))
    as [Hlt | Hge]; intros He.
  - rewrite Z.max_l by lia.
    set (n := Z.abs e0).
    apply (scaled_le_iff a b (2 ^ 52) e0 n); [lia | lia |].
    assert (0 < 2 ^ n) by (apply Z.pow_pos_nonneg; lia).
    assert (0 < 2 ^ (n + e0)) by (apply Z.pow_pos_nonneg; lia).
    assert (2 ^ 52 * 2 ^ (lb + 1) * 2 ^ (n + e0) = 2 ^ la * 2 ^ n) as Heq.
    { rewrite <- !Z.pow_add_r by lia. f_equal. lia. }
    nia.
  - rewrite Z.max_l by lia.
    apply div_ge_inv in Hge; [| apply scaled_den_pos; lia].
    set (n := Z.abs e0 + 1).
    apply (scaled_le_iff a b (2 ^ 52) (e0 + 1) n); [lia | lia |].
    apply (scaled_le_iff a b (2 ^ 53) e0 n) in Hge; [| lia | lia].
    replace (n + (e0 + 1)) with (n + e0 + 1) by lia.
    rewrite (Z.pow_add_r 2 (n + e0) 1) by lia.
    assert (0 < 2 ^ (n + e0)) by (apply Z.pow_pos_nonneg; lia).
    lia.
Qed.

End Rounding.

(** ** Two thirds of the total (line 97) *)

Section TwoThirds.

Import PyFloat.

(** The quotient [2n / 3] as a float, for [n] below the overflow point. *)
Lemma pos_true_divide_two_thirds n :
  1 <= n -> n < first_overflow ->
  exists m e,
    pos_true_divide (n * 2) 3 = Ok (m, e) /\
    (0 <= e ->
     2 ^ 52 * 2 ^ e <= n /\
     - (3 * 2 ^ e) <= 2 * (3 * 2 ^ e * m - 2 * n) <= 3 * 2 ^ e) /\
    (e < 0 ->
     e <= Z.max (Z.log2 n - 52) (-1074) /\
     - 3 <= 2 * (3 * m - 2 * n * 2 ^ (- e)) <= 3).
Proof.
  intros Hn Hlim. unfold pos_true_divide.
  pose proof (quotient_exponent_le (n * 2) 3) as Hle.
  pose proof (quotient_exponent_upper (n * 2) 3 ltac:(lia) ltac:(lia)) as Hup.
  pose proof (quotient_exponent_lower (n * 2) 3 ltac:(lia) ltac:(lia)) as Hlow.
  set (e := quotient_exponent (n * 2) 3) in *.
  pose proof (div_half_even_near (scaled_num (n * 2) e) (scaled_den 3 e)
                (scaled_den_pos 3 e ltac:(lia))) as Hnear.
  pose proof (fun k => div_half_even_le (scaled_num (n * 2) e) (scaled_den 3 e) k
                (scaled_den_pos 3 e ltac:(lia))) as Hround.
  set (m := div_half_even (scaled_num (n * 2) e) (scaled_den 3 e)) in *.
  change (Z.log2 3) with 1 in Hle.
  replace (n * 2) with (2 * n) in Hle by lia.
  rewrite Z.log2_double in Hle by lia.
  pose proof (Z.log2_spec n ltac:(lia)) as [Hlog _].
  unfold scaled_num, scaled_den in *.
  destruct (Z.leb_spec 0 e) as [He | He].
  - (* the quotient is a multiple of 2^e *)
    rewrite (Z.max_l 0 (- e)) in Hup, Hlow, Hnear, Hround by lia.
    rewrite (Z.max_r 0 e) in Hup, Hlow, Hnear, Hround by lia.
    rewrite Z.pow_0_r in *. specialize (Hlow He).
    assert (0 < 2 ^ e) as Hpe by (apply Z.pow_pos_nonneg; lia).
    assert (2 ^ 52 * 2 ^ e <= n) as Hbig.
    { rewrite <- Z.pow_add_r by lia.
      etransitivity; [| exact Hlog]. apply Z.pow_le_mono_r; lia. }
    assert (2 ^ 1024 = 2 ^ 55 * 2 ^ 969) as HT by reflexivity.
    assert (first_overflow = 3 * (2 ^ 54 - 1) * 2 ^ 969) as HF by reflexivity.
    assert (2 ^ 971 = 4 * 2 ^ 969) as H971 by reflexivity.
    assert (2 ^ 970 = 2 * 2 ^ 969) as H970 by reflexivity.
    assert (0 < 2 ^ 969) as HU by reflexivity.
    assert (e <= 971) as He971.
    { destruct (Z.le_gt_cases e 971) as [|Hgt]; [assumption |].
      assert (2 ^ 972 <= 2 ^ e) by (apply Z.pow_le_mono_r; lia).
      assert (2 ^ 972 = 8 * 2 ^ 969) as H972 by reflexivity.
      generalize dependent (2 ^ 969). intros. lia. }
    assert (m * 2 ^ e < 2 ^ 1024) as Hno.
    { destruct (Z.eq_dec e 971) as [-> | Hne].
      - specialize (Hround (2 ^ 53 - 1)).
        rewrite H971 in *. rewrite HT.
        generalize dependent (2 ^ 969). intros. nia.
      - assert (2 ^ e <= 2 ^ 970) by (apply Z.pow_le_mono_r; lia).
        specialize (Hround (2 ^ 53)). rewrite HT.
        generalize dependent (2 ^ 969). intros. nia. }
    replace (2 ^ DBL_MAX_EXP <=? m * 2 ^ e) with false
      by (symmetry; apply Z.leb_gt; exact Hno).
    simpl. exists m, e. split; [reflexivity |]. split; [| lia].
    intros _. split; [exact Hbig | lia].
  - simpl. exists m, e. split; [reflexivity |]. split; [lia |].
    intros _.
    rewrite (Z.max_r 0 (- e)) in Hnear by lia.
    rewrite (Z.max_l 0 e) in Hnear by lia.
    rewrite Z.pow_0_r in Hnear. lia.
Qed.

(** At and beyond the overflow point the division raises. *)
Lemma pos_true_divide_overflow n :
  first_overflow <= n -> pos_true_divide (n * 2) 3 = Raise OverflowError.
Proof.
  intros Hlim. unfold pos_true_divide.
  assert (first_overflow = 3 * (2 ^ 54 - 1) * 2 ^ 969) as HF by reflexivity.
  assert (0 < 2 ^ 969) as HU by reflexivity.
  assert (2 ^ 1025 <= n * 2) as Hbig.
  { assert (2 ^ 1025 = 2 ^ 56 * 2 ^ 969) as H1025 by reflexivity.
    rewrite H1025. generalize dependent (2 ^ 969). intros. lia. }
  assert (1025 <= Z.log2 (n * 2)) as Hlog.
  { apply Z.log2_le_pow2; lia. }
  pose proof (quotient_exponent_ge (n * 2) 3) as Hge.
  change (Z.log2 3) with 1 in Hge.
  pose proof (quotient_exponent_lower (n * 2) 3 ltac:(lia) ltac:(lia)) as Hlow.
  set (e := quotient_exponent (n * 2) 3) in *.
  pose proof (fun k => div_half_even_ge (scaled_num (n * 2) e) (scaled_den 3 e) k
                (scaled_den_pos 3 e ltac:(lia))) as Hround.
  pose proof (fun k => div_half_even_ge_tie (scaled_num (n * 2) e) (scaled_den 3 e) k
                (scaled_den_pos 3 e ltac:(lia))) as Htie.
  set (m := div_half_even (scaled_num (n * 2) e) (scaled_den 3 e)) in *.
  unfold scaled_num, scaled_den in *.
  rewrite (Z.max_l 0 (- e)) in Hlow, Hround, Htie by lia.
  rewrite (Z.max_r 0 e) in Hlow, Hround, Htie by lia.
  rewrite Z.pow_0_r in *. specialize (Hlow ltac:(lia)).
  assert (2 ^ DBL_MAX_EXP <= m * 2 ^ e) as Hover.
  { change (2 ^ DBL_MAX_EXP) with (2 ^ 1024).
    destruct (Z.eq_dec e 971) as [He | He].
    - rewrite He in *.
      specialize (Htie (2 ^ 53) eq_refl).
      assert (2 ^ 971 = 4 * 2 ^ 969) as H971 by reflexivity.
      assert (2 ^ 1024 = 2 ^ 55 * 2 ^ 969) as HT by reflexivity.
      rewrite H971 in *. rewrite HT.
      generalize dependent (2 ^ 969). intros. nia.
    - specialize (Hround (2 ^ 52) ltac:(lia)).
      assert (2 ^ 972 <= 2 ^ e) by (apply Z.pow_le_mono_r; lia).
      assert (2 ^ 1024 = 2 ^ 52 * 2 ^ 972) as HT by reflexivity.
      rewrite HT. generalize dependent (2 ^ 972). intros. nia. }
  replace (0 <=? e) with true by (symmetry; apply Z.leb_le; lia).
  replace (2 ^ DBL_MAX_EXP <=? m * 2 ^ e) with true
    by (symmetry; apply Z.leb_le; exact Hover).
  reflexivity.
Qed.

Lemma two_thirds_of_quotient n m e :
  0 < n -> pos_true_divide (n * 2) 3 = Ok (m, e) ->
  two_thirds n
  = Ok (if 0 <=? e then m * 2 ^ e else div_half_even m (2 ^ (- e))).
Proof.
  intros Hn H. unfold two_thirds, int_true_divide.
  replace (3 =? 0) with false by reflexivity.
  replace (n * 2 =? 0) with false by (symmetry; apply Z.eqb_neq; lia).
  rewrite (Z.abs_eq (n * 2)) by lia. change (Z.abs 3) with 3.
  rewrite (Z.sgn_pos (n * 2)) by lia. change (Z.sgn 3) with 1.
  rewrite H. cbn [round]. rewrite !Z.mul_1_l. reflexivity.
Qed.

Lemma two_thirds_bounds n :
  5 <= n -> n < first_overflow ->
  exists r, two_thirds n = Ok r /\ 1 <= r <= n - 1.
Proof.
  intros Hn Hlim.
  destruct (pos_true_divide_two_thirds n ltac:(lia) Hlim)
    as (m & e & Hq & Hpos & Hneg).
  rewrite (two_thirds_of_quotient n m e ltac:(lia) Hq).
  eexists. split; [reflexivity |].
  destruct (Z.leb_spec 0 e) as [He | He].
  - destruct (Hpos He) as [Hbig Hnear].
    assert (0 < 2 ^ e) by (apply Z.pow_pos_nonneg; lia).
    generalize dependent (2 ^ e). intros. nia.
  - destruct (Hneg He) as [_ Hnear].
    assert (2 <= 2 ^ (- e)) as Hk.
    { change 2 with (2 ^ 1) at 1. apply Z.pow_le_mono_r; lia. }
    pose proof (div_half_even_near m (2 ^ (- e)) ltac:(lia)) as Hnear2.
    set (r := div_half_even m (2 ^ (- e))) in *.
    set (y := 2 ^ (- e)) in *.
    assert (5 * y <= n * y) by nia.
    split.
    + destruct (Z.le_gt_cases 1 r) as [| Hr]; [assumption |].
      assert (y * r <= 0) by nia. lia.
    + destruct (Z.le_gt_cases r (n - 1)) as [| Hr]; [assumption |].
      assert (n * y <= y * r) by nia. lia.
Qed.

(** Below 2^51 the float rounding agrees with the exact one. *)
Lemma two_thirds_exact n :
  0 <= n < 2 ^ 51 -> two_thirds n = Ok ((2 * n + 1) / 3).
Proof.
  intros [Hn Hlim].
  destruct (Z.eq_dec n 0) as [-> | Hn0]; [reflexivity |].
  assert (n < first_overflow) as Hov.
  { unfold first_overflow. 
    assert (2 ^ 51 <= 3 * (2 ^ 1023 - 2 ^ 969)) by (vm_compute; discriminate).
    lia. }
  destruct (pos_true_divide_two_thirds n ltac:(lia) Hov)
    as (m & e & Hq & Hpos & Hneg).
  rewrite (two_thirds_of_quotient n m e ltac:(lia) Hq).
  assert (Z.log2 n < 51) as Hlog by (apply Z.log2_lt_pow2; lia).
  destruct (Z.leb_spec 0 e) as [He | He].
  - destruct (Hpos He) as [Hbig _].
    assert (0 < 2 ^ e) by (apply Z.pow_pos_nonneg; lia). nia.
  - destruct (Hneg He) as [Hle Hnear].
    assert (4 <= 2 ^ (- e)) as Hk.
    { change 4 with (2 ^ 2). apply Z.pow_le_mono_r; lia. }
    pose proof (div_half_even_near m (2 ^ (- e)) ltac:(lia)) as Hnear2.
    set (r := div_half_even m (2 ^ (- e))) in *.
    set (y := 2 ^ (- e)) in *.
    f_equal.
    assert (-1 <= 3 * r - 2 * n <= 1) as Hr.
    { split.
      - destruct (Z.le_gt_cases (-1) (3 * r - 2 * n)) as [| Hlt]; [assumption |].
        assert ((3 * r - 2 * n) * y <= -2 * y) by nia. lia.
      - destruct (Z.le_gt_cases (3 * r - 2 * n) 1) as [| Hgt]; [assumption |].
        assert (2 * y <= (3 * r - 2 * n) * y) by nia. lia. }
    apply Z.div_unique with (r := 2 * n + 1 - 3 * r); lia.
Qed.

Lemma two_thirds_defined n :
  Z.abs n < first_overflow -> exists r, two_thirds n = Ok r.
Proof.
  intros Hlim.
  destruct (Z.eq_dec n 0) as [-> | Hn0]; [exists 0; reflexivity |].
  destruct (pos_true_divide_two_thirds (Z.abs n) ltac:(lia) Hlim)
    as (m & e & Hq & _).
  unfold two_thirds, int_true_divide.
  replace (3 =? 0) with false by reflexivity.
  replace (n * 2 =? 0) with false by (symmetry; apply Z.eqb_neq; lia).
  replace (Z.abs (n * 2)) with (Z.abs n * 2) by lia. change (Z.abs 3) with 3.
  rewrite Hq. cbn [round]. eauto.
Qed.

Lemma two_thirds_overflow n :
  first_overflow <= Z.abs n -> two_thirds n = Raise OverflowError.
Proof.
  intros Hlim.
  assert (0 < first_overflow) by reflexivity.
  unfold two_thirds, int_true_divide.
  replace (3 =? 0) with false by reflexivity.
  replace (n * 2 =? 0) with false by (symmetry; apply Z.eqb_neq; lia).
  replace (Z.abs (n * 2)) with (Z.abs n * 2) by lia. change (Z.abs 3) with 3.
  rewrite (pos_true_divide_overflow _ Hlim). reflexivity.
Qed.

Lemma split_both_plain n r :
  two_thirds n = Ok r -> (n <= 0 \/ n = 1 /\ r = 1 \/ 1 <= r <= n - 1) ->
  split_both n = Ok (r, n - r) /\ spec_allocation n r = (r, n - r).
Proof.
  intros Hr Hcases. unfold split_both, spec_allocation. rewrite Hr.
  destruct Hcases as [Hn | [[-> ->] | Hb]].
  - replace (0 <? n) with false by (symmetry; apply Z.ltb_ge; lia).
    split; reflexivity.
  - split; reflexivity.
  - replace (0 <? n) with true by (symmetry; apply Z.ltb_lt; lia).
    replace (r =? 0) with false by (symmetry; apply Z.eqb_neq; lia).
    replace (n - r =? 0) with false by (symmetry; apply Z.eqb_neq; lia).
    rewrite !Z.max_r by lia.
    replace (n <? r + (n - r)) with false by (symmetry; apply Z.ltb_ge; lia).
    split; reflexivity.
Qed.

Lemma two_thirds_cases n :
  Z.abs n < first_overflow ->
  exists r, two_thirds n = Ok r /\
            (n <= 0 \/ n = 1 /\ r = 1 \/ 1 <= r <= n - 1).
Proof.
  intros Hlim.
  destruct (Z.le_gt_cases n 0) as [Hn | Hn].
  { destruct (two_thirds_defined n Hlim) as [r Hr]. eauto. }
  destruct (Z.le_gt_cases 5 n) as [H5 | H5].
  { destruct (two_thirds_bounds n H5 ltac:(lia)) as (r & Hr & Hb). eauto. }
  assert (n = 1 \/ n = 2 \/ n = 3 \/ n = 4) as [-> | [-> | [-> | ->]]] by lia;
    [exists 1 | exists 1 | exists 2 | exists 3];
    (split; [vm_compute; reflexivity | lia]).
Qed.

End TwoThirds.

(** ** Question counts *)

(** C1, as amended: with both types selected and [total_questions] below
    the point where [total_questions * 2 / 3] overflows a float, the counts
    are [round(total_questions * 2 / 3)] and the rest, put through the
    forcing and readjusting steps; they sum to [total_questions], both are
    at least 1 when [total_questions > 1], and 10 gives 7 and 3.  From the
    overflow point on the division raises [OverflowError]. *)
Theorem question_counts_both (question_types : pyval) (total : Z) :
  py_in (py "mcq") question_types = Ok true ->
  py_in (py "subjective") question_types = Ok true ->
  (Z.abs total < first_overflow ->
   exists r,
     two_thirds total = Ok r /\
     question_counts question_types total
     = Ok (Some (spec_allocation total r)) /\
     let (num_mcq, num_subjective) := spec_allocation total r in
     num_mcq + num_subjective = total /\
     (1 < total -> 1 <= num_mcq /\ 1 <= num_subjective) /\
     (total = 10 -> num_mcq = 7 /\ num_subjective = 3)) /\
  (first_overflow <= Z.abs total ->
   question_counts question_types total = Raise OverflowError).
Proof.
  intros Hm Hs. split.
  - intros Hlim.
    destruct (two_thirds_cases total Hlim) as (r & Hr & Hcases).
    destruct (split_both_plain total r Hr Hcases) as [Hsplit Hspec].
    exists r. split; [exact Hr |]. split.
    + unfold question_counts. rewrite Hm, Hs, Hsplit, Hspec. reflexivity.
    + rewrite Hspec. split; [lia |]. split; [lia |].
      intros ->. assert (r = 7) by (vm_compute in Hr; congruence). lia.
  - intros Hlim. unfold question_counts, split_both.
    rewrite Hm, Hs, (two_thirds_overflow total Hlim). reflexivity.
Qed.

Lemma question_counts_both_witness :
  py_in (py "mcq") sample_both_types = Ok true /\
  py_in (py "subjective") sample_both_types = Ok true /\
  Z.abs 10 < first_overflow /\
  exists r,
    two_thirds 10 = Ok r /\
    question_counts sample_both_types 10
    = Ok (Some (spec_allocation 10 r)) /\
    let (num_mcq, num_subjective) := spec_allocation 10 r in
    num_mcq + num_subjective = 10 /\
    (1 < 10 -> 1 <= num_mcq /\ 1 <= num_subjective) /\
    (10 = 10 -> num_mcq = 7 /\ num_subjective = 3).
Proof.
  split; [reflexivity |]. split; [reflexivity |]. split; [reflexivity |].
  apply (question_counts_both sample_both_types 10); reflexivity.
Defined.

(** C1, as stated, fails at the first total whose two thirds overflow a
    float: the division raises, no counts are allocated and the request
    ends with the uncaught [OverflowError]. *)
Lemma question_counts_overflow :
  py_in (py "mcq") sample_both_types = Ok true /\
  py_in (py "subjective") sample_both_types = Ok true /\
  1 < first_overflow /\
  question_counts sample_both_types first_overflow = Raise OverflowError /\
  ~ (exists num_mcq num_subjective,
       question_counts sample_both_types first_overflow
       = Ok (Some (num_mcq, num_subjective)) /\
       1 <= num_mcq /\ 1 <= num_subjective /\
       num_mcq + num_subjective = first_overflow) /\
  generate_assessment service_na (Ok sample_path) (fun _ _ => Ok tt)
    (fun _ => Ok []) sample_overflow_form (start ∅)
  = (Raise OverflowError, start ∅).
Proof.
  assert (question_counts sample_both_types first_overflow
          = Raise OverflowError) as H
    by (vm_compute; reflexivity).
  split; [reflexivity |]. split; [reflexivity |]. split; [reflexivity |].
  split; [exact H |]. split.
  - intros (m & s & Hc & _). rewrite H in Hc. discriminate.
  - vm_compute. reflexivity.
Qed.

(** Between 2^51 and the overflow point the float is not always the exact
    nearest integer: two thirds of 3377699720527873 are
    2251799813685248.67, and Python rounds them to 2251799813685248. *)
Example two_thirds_inexact :
  two_thirds 3377699720527873 = Ok 2251799813685248 /\
  (2 * 3377699720527873 + 1) / 3 = 2251799813685249.
Proof. split; vm_compute; reflexivity. Qed.

(** The counts are the ones the two generation prompts ask for. *)
Lemma generate_questions_prompts complete base context qt total diff tmp
  num_mcqs num_subjective mcqs subjective :
  question_counts qt total = Ok (Some (num_mcqs, num_subjective)) ->
  0 < num_mcqs -> 0 < num_subjective ->
  complete 0%nat (McqPrompt base num_mcqs diff context) = Text mcqs ->
  complete 1%nat (SubjectivePrompt base num_subjective diff context)
  = Text subjective ->
  generate_questions complete base context qt total diff (World [] tmp)
  = (Ok (Response 200
           (<[ "mcqs"%string := mcqs ]>
              {[ "subjective_questions"%string := subjective ]})),
     World [McqPrompt base num_mcqs diff context;
            SubjectivePrompt base num_subjective diff context] tmp).
Proof.
  intros Hc Hm Hs H1 H2. unfold generate_questions. rewrite Hc.
  unfold_monad. cbn.
  replace (0 <? num_mcqs) with true by (symmetry; apply Z.ltb_lt; lia).
  replace (0 <? num_subjective) with true by (symmetry; apply Z.ltb_lt; lia).
  cbn. rewrite H1. cbn. rewrite H2. reflexivity.
Qed.

(** ** The reply parser *)

Section Matcher.

Import Re.

(** A match is always the answer of the continuation: what holds of every
    answer of the continuation holds of the match. *)
Section FromContinuation.

Variable P : option pystr -> Prop.

Lemma star_from_kont k s g kont x :
  (forall s' y, kont s' g = Some y -> P y) ->
  star k s g kont = Some x -> P x.
Proof.
  intros Hk. induction s as [| c s IH]; cbn.
  - apply Hk.
  - destruct (in_cls k c); [| apply Hk].
    destruct (star k s g kont) eqn:E; [intros [= <-]; auto | apply Hk].
Qed.

Lemma lazy_star_from_kont k s g kont x :
  (forall s' y, kont s' g = Some y -> P y) ->
  lazy_star k s g kont = Some x -> P x.
Proof.
  intros Hk. induction s as [| c s IH]; cbn.
  - destruct (kont [] g) eqn:E; [intros [= <-]; eauto | discriminate].
  - destruct (kont (c :: s) g) eqn:E; [intros [= <-]; eauto |].
    destruct (in_cls k c); [exact IH | discriminate].
Qed.

Lemma run_from_kont r : forall s g kont x,
  (forall s' g' y, kont s' g' = Some y -> P y) ->
  run r s g kont = Some x -> P x.
Proof.
  induction r as [l | k | k | r IH | r1 IH1 r2 IH2 | r1 IH1 r2 IH2 | r IH |];
    intros s g kont x Hk; cbn.
  - destruct (starts_with l s); [apply Hk | discriminate].
  - apply star_from_kont. intros s' y. apply Hk.
  - apply lazy_star_from_kont. intros s' y. apply Hk.
  - apply IH. intros s' g' y. apply Hk.
  - apply IH1. intros s' g' y. apply IH2, Hk.
  - destruct (run r1 s g kont) eqn:E; [intros [= <-]; eapply IH1; eauto |].
    apply IH2, Hk.
  - destruct (run r s g (fun _ g' => Some g')); [apply Hk | discriminate].
  - destruct (at_dollar s); [apply Hk | discriminate].
Qed.

End FromContinuation.

(** No construct unsets group 1. *)
Lemma run_keeps r : forall kont, keeps kont -> keeps (fun s g => run r s g kont).
Proof.
  induction r as [l | k | k | r IH | r1 IH1 r2 IH2 | r1 IH1 r2 IH2 | r IH |];
    intros kont Hk s g y; cbn.
  - destruct (starts_with l s); [apply Hk | discriminate].
  - apply (star_from_kont is_Some). intros s' z. apply Hk.
  - apply (lazy_star_from_kont is_Some). intros s' z. apply Hk.
  - apply (run_from_kont is_Some). intros s' g' z. apply Hk.
  - apply (IH1 (fun s' g' => run r2 s' g' kont)). apply IH2, Hk.
  - destruct (run r1 s (Some g) kont) eqn:E;
      [intros [= <-]; eapply IH1; eauto | apply IH2, Hk].
  - destruct (run r s (Some g) (fun _ g' => Some g')) as [g' |] eqn:E;
      [| discriminate].
    assert (is_Some g') as [g'' ->].
    { eapply (IH (fun _ g' => Some g')); [| exact E].
      intros ? ? ? [= <-]. eauto. }
    apply Hk.
  - destruct (at_dollar s); [apply Hk | discriminate].
Qed.

(** Every pattern of the parser has the shape [label \s* ( group ) tail]:
    whenever it matches, group 1 is set. *)
Lemma labelled_group_set l c r tail s x :
  match_here (Seq (Lit l) (Seq (Star c) (Seq (Group r) tail))) s = Some x ->
  is_Some x.
Proof.
  unfold match_here. cbn [run].
  destruct (starts_with l s); [| discriminate].
  apply (star_from_kont is_Some). intros s' y.
  apply (run_from_kont is_Some). intros s'' _ z.
  apply (run_keeps tail (fun _ g => Some g)).
  intros ? ? ? [= <-]. eauto.
Qed.

Lemma labelled_group_set_end l c r s x :
  match_here (Seq (Lit l) (Seq (Star c) (Group r))) s = Some x ->
  is_Some x.
Proof.
  unfold match_here. cbn [run].
  destruct (starts_with l s); [| discriminate].
  apply (star_from_kont is_Some). intros s' y.
  apply (run_from_kont is_Some). intros s'' _ z [= <-]. eauto.
Qed.

(** A search answers with the match at some start. *)
Lemma search_from_match (P : option pystr -> Prop) r s x :
  (forall s' y, match_here r s' = Some y -> P y) ->
  search r s = Some x -> P x.
Proof.
  intros Hm. induction s as [| c s IH]; cbn.
  - destruct (match_here r []) eqn:E; [intros [= <-]; eauto | discriminate].
  - destruct (match_here r (c :: s)) eqn:E; [intros [= <-]; eauto | exact IH].
Qed.

(** A pattern that begins with a literal matches nowhere in a text that
    lacks the literal. *)
Lemma search_absent l r s :
  occurs l s = false -> search (Seq (Lit l) r) s = None.
Proof.
  induction s as [| c s IH]; cbn; intros H.
  - apply orb_false_elim in H as [-> _]. reflexivity.
  - apply orb_false_elim in H as [H1 H2].
    unfold match_here. cbn [run]. rewrite H1. apply IH, H2.
Qed.


(** [\s*] first tries all the leading whitespace. *)
Lemma star_space_max s g kont x :
  kont (lstrip s) g = Some x -> star Space s g kont = Some x.
Proof.
  induction s as [| c s IH]; cbn; [auto |].
  destruct (is_space c); [| auto].
  intros H. rewrite (IH H). reflexivity.
Qed.

(** [.*] with DOTALL first tries the whole rest of the text. *)
Lemma star_dotall_all s g kont x :
  kont [] g = Some x -> star DotAll s g kont = Some x.
Proof.
  intros H. induction s as [| c s IH]; cbn; [exact H |].
  rewrite IH. reflexivity.
Qed.

(** The lookahead [(?=stop|$)]. *)
Lemma ahead_stop stop s g :
  run (Ahead (Alt (Lit stop) Dollar)) s g final
  = if stops_at stop s then Some g else None.
Proof.
  unfold stops_at, final. cbn.
  destruct (starts_with stop s); [reflexivity |].
  destruct (at_dollar s); reflexivity.
Qed.

Lemma up_to_prefix stop s : take (length (up_to stop s)) s = up_to stop s.
Proof.
  induction s as [| c s IH]; cbn.
  - destruct (stops_at stop []); reflexivity.
  - destruct (stops_at stop (c :: s)); cbn; [reflexivity |].
    rewrite IH. reflexivity.
Qed.

Lemma up_to_length stop s : (length (up_to stop s) <= length s)%nat.
Proof.
  induction s as [| c s IH]; cbn.
  - destruct (stops_at stop []); cbn; lia.
  - destruct (stops_at stop (c :: s)); cbn; lia.
Qed.

(** [.*?] with DOTALL before the lookahead stops at the first position
    where the lookahead holds; the end of the text is such a position. *)
Lemma lazy_dotall_stop stop (F : pystr -> pystr) s g kont :
  (forall s', kont s' g
              = if stops_at stop s' then Some (Some (F s')) else None) ->
  lazy_star DotAll s g kont
  = Some (Some (F (drop (length (up_to stop s)) s))).
Proof.
  intros Hk. induction s as [| c s IH]; cbn; rewrite Hk.
  - replace (stops_at stop []) with true
      by (unfold stops_at; cbn; rewrite orb_true_r; reflexivity).
    reflexivity.
  - destruct (stops_at stop (c :: s)); [reflexivity |].
    rewrite IH. reflexivity.
Qed.

(** [.*?] before a newline takes the rest of the line. *)
Lemma lazy_dot_line (F : pystr -> pystr) line post g kont :
  (forall s', kont s' g
              = if starts_with [10%N] s' then Some (Some (F s')) else None) ->
  10%N ∉ line ->
  lazy_star Dot (line ++ 10%N :: post) g kont
  = Some (Some (F (10%N :: post))).
Proof.
  intros Hk. induction line as [| c line IH]; intros Hnl.
  - cbn. rewrite Hk. reflexivity.
  - assert (c <> 10%N) as Hc by (intros ->; apply Hnl; left).
    assert (10%N ∉ line) as Hl by (intros Hin; apply Hnl; right; exact Hin).
    cbn [app lazy_star in_cls]. rewrite Hk. cbn [starts_with].
    replace (10 =? c)%N with false by (symmetry; apply N.eqb_neq; congruence).
    replace (c =? 10)%N with false by (symmetry; apply N.eqb_neq; congruence).
    cbn. apply IH, Hl.
Qed.

Lemma take_to_suffix (w : pystr) n :
  (n <= length w)%nat -> take (length w - length (drop n w)) w = take n w.
Proof. intros H. rewrite length_drop. f_equal. lia. Qed.

(** Group 1 of the feedback and skill-gap patterns, matched after the
    label. *)
Lemma stop_tail_match stop rest :
  run (Seq (Star Space)
         (Seq (Group (LazyStar DotAll)) (Ahead (Alt (Lit stop) Dollar))))
    rest None final
  = Some (Some (up_to stop (lstrip rest))).
Proof.
  cbn [run]. apply star_space_max.
  set (w := lstrip rest).
  rewrite (lazy_dotall_stop stop (fun s' => take (length w - length s') w)).
  - rewrite take_to_suffix by apply up_to_length.
    rewrite up_to_prefix. reflexivity.
  - intros s'. fold (run (Ahead (Alt (Lit stop) Dollar)) s'
                       (Some (take (length w - length s') w)) final).
    apply ahead_stop.
Qed.

(** Group 1 of the solution-highlights pattern. *)
Lemma end_tail_match rest :
  run (Seq (Star Space) (Group (Star DotAll))) rest None final
  = Some (Some (lstrip rest)).
Proof.
  cbn [run]. apply star_space_max. apply star_dotall_all.
  unfold final. cbn [length]. rewrite Nat.sub_0_r, firstn_all. reflexivity.
Qed.

(** Group 1 of the score pattern when a line follows the label. *)
Lemma line_tail_match rest line post :
  lstrip rest = line ++ 10%N :: post -> 10%N ∉ line ->
  run (Seq (Star Space) (Seq (Group (LazyStar Dot)) (Lit [10%N])))
    rest None final
  = Some (Some line).
Proof.
  intros Hw Hnl. cbn [run]. apply star_space_max. rewrite Hw.
  set (w := line ++ 10%N :: post).
  rewrite (lazy_dot_line (fun s' => take (length w - length s') w) line post);
    [| intros s'; reflexivity | exact Hnl].
  subst w. do 3 f_equal.
  rewrite length_app. cbn [length].
  replace (length line + S (length post) - S (length post))%nat
    with (length line) by lia.
  apply take_app_length.
Qed.

(** The search stops at the first occurrence of the label after which the
    rest of the pattern matches. *)
Lemma search_first l r raw rest x :
  after_label l raw = Some rest ->
  run r rest None final = Some x ->
  search (Seq (Lit l) r) raw = Some x.
Proof.
  induction raw as [| c raw IH]; cbn [after_label search];
    unfold match_here; cbn [run]; fold final.
  - destruct (starts_with l []); [| discriminate].
    intros [= <-] ->. reflexivity.
  - destruct (starts_with l (c :: raw)).
    + intros [= <-] ->. reflexivity.
    + exact IH.
Qed.

Lemma after_label_absent l raw :
  occurs l raw = false -> after_label l raw = None.
Proof.
  induction raw as [| c raw IH]; cbn; intros H;
    apply orb_false_elim in H as [-> H2]; auto.
Qed.

Lemma after_label_none l raw :
  after_label l raw = None -> occurs l raw = false.
Proof.
  induction raw as [| c raw IH]; cbn;
    destruct (starts_with l _); try discriminate; auto.
Qed.

(** The feedback and skill-gap patterns compute [spec_field] with a stop
    label, the solution-highlights pattern computes it without one. *)
Lemma parse_field_stop label stop fallback raw :
  parse_field
    (Seq (Lit label)
       (Seq (Star Space)
          (Seq (Group (LazyStar DotAll)) (Ahead (Alt (Lit stop) Dollar)))))
    fallback raw
  = Ok (spec_field label (Some stop) fallback raw).
Proof.
  unfold parse_field, spec_field.
  destruct (after_label label raw) as [rest |] eqn:E.
  - rewrite (search_first _ _ _ _ _ E (stop_tail_match stop rest)).
    reflexivity.
  - rewrite search_absent by (apply after_label_none, E). reflexivity.
Qed.

Lemma parse_field_end label fallback raw :
  parse_field (Seq (Lit label) (Seq (Star Space) (Group (Star DotAll))))
    fallback raw
  = Ok (spec_field label None fallback raw).
Proof.
  unfold parse_field, spec_field.
  destruct (after_label label raw) as [rest |] eqn:E.
  - rewrite (search_first _ _ _ _ _ E (end_tail_match rest)). reflexivity.
  - rewrite search_absent by (apply after_label_none, E). reflexivity.
Qed.

(** The score pattern never fails to give a string. *)
Lemma parse_score_ok raw : exists v, parse_field score_re "N/A" raw = Ok v.
Proof.
  unfold parse_field.
  destruct (search score_re raw) as [m |] eqn:E; [| eauto].
  apply (search_from_match is_Some) in E as [g ->]; [cbn; eauto |].
  intros s' y. apply labelled_group_set.
Qed.

Lemma parse_score_absent raw :
  occurs (py "Score:") raw = false ->
  parse_field score_re "N/A" raw = Ok (py "N/A").
Proof.
  intros H. unfold parse_field, score_re. rewrite search_absent by exact H.
  reflexivity.
Qed.

Lemma parse_score_line raw rest line post :
  after_label (py "Score:") raw = Some rest ->
  lstrip rest = line ++ 10%N :: post -> 10%N ∉ line ->
  parse_field score_re "N/A" raw = Ok (strip line).
Proof.
  intros E Hw Hnl. unfold parse_field, score_re.
  rewrite (search_first _ _ _ _ _ E (line_tail_match rest line post Hw Hnl)).
  reflexivity.
Qed.

(** The score pattern needs a newline behind the label: a text without
    one has no match. *)
Lemma star_no_newline k s g (kont : cont) :
  (forall s' g', 10%N ∉ s' -> kont s' g' = None) ->
  10%N ∉ s -> star k s g kont = None.
Proof.
  intros Hk. induction s as [| c s IH]; cbn; intros Hs.
  - apply Hk, Hs.
  - rewrite IH by (intros Hin; apply Hs; right; exact Hin).
    rewrite (Hk _ _ Hs). destruct (in_cls k c); reflexivity.
Qed.

Lemma lazy_star_no_newline k s g (kont : cont) :
  (forall s' g', 10%N ∉ s' -> kont s' g' = None) ->
  10%N ∉ s -> lazy_star k s g kont = None.
Proof.
  intros Hk. induction s as [| c s IH]; cbn; intros Hs.
  - rewrite (Hk _ _ Hs). reflexivity.
  - rewrite (Hk _ _ Hs).
    rewrite IH by (intros Hin; apply Hs; right; exact Hin).
    destruct (in_cls k c); reflexivity.
Qed.

Lemma score_re_no_newline s : 10%N ∉ s -> search score_re s = None.
Proof.
  induction s as [| c s IH]; intros Hs.
  - reflexivity.
  - cbn [search]. rewrite IH by (intros Hin; apply Hs; right; exact Hin).
    assert (match_here score_re (c :: s) = None) as ->; [| reflexivity].
    unfold match_here, score_re. cbn [run].
    destruct (starts_with _ _); [| reflexivity].
    apply star_no_newline.
    + intros s' g' Hs'. apply lazy_star_no_newline; [| exact Hs'].
      intros s'' g'' Hs''. destruct s'' as [| d s'']; [reflexivity |].
      cbn [run starts_with].
      destruct (N.eqb_spec 10 d) as [<- | ?]; [| reflexivity].
      exfalso. apply Hs''. left.
    + intros Hin. apply Hs. eapply subseteq_drop, Hin.
Qed.

(** Newlines in a text. *)
Lemma starts_with_newline c s : starts_with [10%N] (c :: s) = (10 =? c)%N.
Proof. cbn [starts_with]. apply andb_true_r. Qed.

Lemma no_newline s : occurs [10%N] s = false -> 10%N ∉ s.
Proof.
  induction s as [| c s IH]; cbn [occurs]; intros H Hin.
  - inversion Hin.
  - rewrite starts_with_newline in H.
    apply orb_false_elim in H as [H1 H2]. apply N.eqb_neq in H1.
    apply elem_of_cons in Hin as [Heq | Hin]; [congruence | exact (IH H2 Hin)].
Qed.

Lemma first_line_split s :
  occurs [10%N] s = true ->
  exists post, s = first_line s ++ 10%N :: post /\ 10%N ∉ first_line s.
Proof.
  induction s as [| c s IH]; cbn [occurs first_line]; intros H.
  - discriminate.
  - rewrite starts_with_newline in H.
    destruct (N.eqb_spec c 10) as [-> | Hc].
    + exists s. split; [reflexivity | apply not_elem_of_nil].
    + replace (10 =? c)%N with false in H
        by (symmetry; apply N.eqb_neq; congruence).
      destruct (IH H) as (post & Hs & Hn). exists post. split.
      * cbn. f_equal. exact Hs.
      * intros Hin. apply elem_of_cons in Hin as [Heq | Hin];
          [congruence | exact (Hn Hin)].
Qed.

(** When the only newlines behind the label are in the whitespace that
    follows it, [\s*] gives the last of them back and the group is empty. *)
Lemma blank_tail_match rest :
  occurs [10%N] rest = true -> occurs [10%N] (lstrip rest) = false ->
  run (Seq (Star Space) (Seq (Group (LazyStar Dot)) (Lit [10%N])))
    rest None final
  = Some (Some []).
Proof.
  cbn [run]. induction rest as [| c rest IH]; intros Hnl Hstrip.
  - discriminate.
  - cbn [lstrip] in Hstrip. cbn [star in_cls].
    destruct (is_space c) eqn:Hc; [| congruence].
    destruct (occurs [10%N] rest) eqn:Hrest.
    + rewrite (IH eq_refl Hstrip). reflexivity.
    + rewrite star_no_newline.
      * cbn [occurs] in Hnl.
        rewrite starts_with_newline, Hrest, orb_false_r in Hnl.
        apply N.eqb_eq in Hnl. subst c.
        cbn [lazy_star starts_with N.eqb Pos.eqb andb length drop].
        cbn. replace (length rest - length rest)%nat with 0%nat by lia.
        reflexivity.
      * intros s' g' Hs'. apply lazy_star_no_newline; [| exact Hs'].
        intros s'' g'' Hs''. destruct s'' as [| d s'']; [reflexivity |].
        cbn [run starts_with].
        destruct (N.eqb_spec 10 d) as [<- | ?]; [| reflexivity].
        exfalso. apply Hs''. left.
      * apply no_newline, Hrest.
Qed.

Lemma starts_with_take l s :
  starts_with l s = true -> take (length l) s = l.
Proof.
  revert s. induction l as [| a l IH]; intros s; [reflexivity |].
  destruct s as [| b s]; cbn; [discriminate |].
  intros H. apply andb_prop in H as [Hab H]. apply N.eqb_eq in Hab.
  rewrite (IH s H). congruence.
Qed.

(** A label that no newline follows gives no match, there or later. *)
Lemma search_no_line raw rest :
  after_label (py "Score:") raw = Some rest -> occurs [10%N] rest = false ->
  search score_re raw = None.
Proof.
  intros Ha Hrest. apply no_newline in Hrest.
  induction raw as [| c raw IH].
  - cbn in Ha. discriminate.
  - cbn [after_label] in Ha.
    destruct (starts_with (py "Score:") (c :: raw)) eqn:Hst.
    + injection Ha as <-. apply score_re_no_newline.
      rewrite <- (take_drop (length (py "Score:")) (c :: raw)).
      rewrite (starts_with_take _ _ Hst).
      intros Hin. apply elem_of_app in Hin as [Hin | Hin];
        [| exact (Hrest Hin)].
      apply list_elem_of_In in Hin. vm_compute in Hin.
      intuition discriminate.
    + cbn [search]. unfold match_here, score_re. cbn [run]. rewrite Hst.
      apply IH, Ha.
Qed.

(** The score pattern computes [spec_score], for every reply. *)
Lemma parse_score_spec raw :
  parse_field score_re "N/A" raw = Ok (spec_score raw).
Proof.
  unfold spec_score.
  destruct (after_label (py "Score:") raw) as [rest |] eqn:Ha.
  - destruct (occurs [10%N] (lstrip rest)) eqn:H1.
    + destruct (first_line_split _ H1) as (post & Hs & Hn).
      apply (parse_score_line raw rest _ post Ha Hs Hn).
    + destruct (occurs [10%N] rest) eqn:H2.
      * unfold parse_field, score_re.
        rewrite (search_first _ _ _ _ _ Ha (blank_tail_match rest H2 H1)).
        reflexivity.
      * unfold parse_field. rewrite (search_no_line raw rest Ha H2).
        reflexivity.
  - apply parse_score_absent, after_label_none, Ha.
Qed.

(** Lines 274-296 raise nothing and assign all four fields. *)
Lemma parse_evaluation_fields raw d :
  exists score,
    parse_field score_re "N/A" raw = Ok score /\
    parse_evaluation raw d
    = (<[ "solution_highlights"%string :=
            spec_field (py "Correct Approach/Solution Highlights:") None
              "Could not parse solution highlights from AI." raw ]>
         (<[ "skill_gap"%string :=
               spec_field (py "Skill Gap:")
                 (Some (10%N :: py "Correct Approach/Solution Highlights:"))
                 "Could not parse skill gap analysis from AI." raw ]>
            (<[ "feedback"%string :=
                  spec_field (py "Feedback:") (Some (10%N :: py "Skill Gap:"))
                    "Could not parse detailed feedback from AI." raw ]>
               (<[ "score"%string := score ]> d))),
       None).
Proof.
  destruct (parse_score_ok raw) as [score Hs]. exists score. split; [exact Hs |].
  unfold parse_evaluation, assign_field.
  rewrite Hs.
  unfold feedback_re, skill_gap_re, solution_highlights_re.
  rewrite !parse_field_stop, parse_field_end. reflexivity.
Qed.

End Matcher.

Lemma spec_field_absent label stop fallback raw :
  occurs label raw = false -> spec_field label stop fallback raw = py fallback.
Proof.
  intros H. unfold spec_field. rewrite (after_label_absent _ _ H).
  reflexivity.
Qed.

(** ** Evaluation of an answer *)

Section Evaluation.

Variable complete : nat -> prompt -> reply.
Variable upper : pystr -> pystr.
Variable data : gmap string pyval.
Variable tmp : gset pystr.

(** The three non-explanation fields of an MCQ do not depend on the
    completion service. *)
Lemma mcq_verdict_independent complete' tmp' :
  get data "question_type" = PStr (py "mcq") ->
  verdict (evaluate_answer complete upper data (start tmp))
  = verdict (evaluate_answer complete' upper data (start tmp')).
Proof.
  intros Hty. unfold evaluate_answer, evaluate_mcq.
  rewrite Hty. cbn [truthy eq_str negb andb].
  rewrite str_eqb_refl. eval_literals. cbn [negb]. rewrite andb_true_r.
  destruct (truthy (get data "question_text")); [| reflexivity].
  cbn [negb].
  destruct (truthy (get data "user_answer")); cbn [negb].
  - destruct (same_answer upper (get data "user_answer")
                (get data "correct_answer")) as [[|] | e];
      unfold_monad; cbn; [reflexivity | | reflexivity].
    destruct (complete _ _), (complete' _ _); reflexivity.
  - unfold_monad; cbn.
    destruct (complete _ _), (complete' _ _); reflexivity.
Qed.

(** With an answer given and no string as the correct answer, line 207
    raises before any call is made. *)
Lemma mcq_needs_correct_answer u :
  get data "question_type" = PStr (py "mcq") ->
  truthy (get data "question_text") = true ->
  get data "user_answer" = PStr u -> u <> [] ->
  get data "correct_answer" = PNone ->
  evaluate_answer complete upper data (start tmp)
  = (Raise AttributeError, start tmp).
Proof.
  intros Hty Hq Hu Hne Hc. unfold evaluate_answer, evaluate_mcq, same_answer.
  rewrite Hty, Hq, Hc, Hu. cbn [truthy eq_str negb andb py_strip].
  rewrite str_eqb_refl. eval_literals. cbn [negb].
  rewrite (str_eqb_neq _ _ Hne). reflexivity.
Qed.

(** C2, as amended: for an MCQ with a correct answer, an absent or empty
    answer gives "Incorrect" / "No answer provided." / "Incomplete Answer";
    an answer equal to the correct one after trimming and upper-casing
    gives "Correct" / "Your answer is correct!" / "N/A" / "N/A", with no
    call made; any other answer gives "Incorrect" / "Your answer is
    incorrect." / "Conceptual Understanding".  In the two incorrect rows
    the solution highlights are the trimmed reply of the completion
    service, or the fixed string when the call fails. *)
Theorem mcq_rows (user_answer : option pystr) (correct_answer : pystr) :
  get data "question_type" = PStr (py "mcq") ->
  truthy (get data "question_text") = true ->
  get data "correct_answer" = PStr correct_answer ->
  get data "user_answer" = from_option PStr PNone user_answer ->
  let p :=
    ExplanationPrompt (get data "question_text") (PStr correct_answer) in
  exists body w,
    evaluate_answer complete upper data (start tmp)
    = (Ok (Response 200 body), w) /\
    match user_answer with
    | None | Some [] =>
        body !! "score"%string = Some (py "Incorrect") /\
        body !! "feedback"%string = Some (py "No answer provided.") /\
        body !! "skill_gap"%string = Some (py "Incomplete Answer") /\
        body !! "solution_highlights"%string
        = Some (explanation_text (complete 0%nat p)) /\
        calls w = [p]
    | Some u =>
        if str_eqb (upper (strip u)) (upper (strip correct_answer)) then
          body !! "score"%string = Some (py "Correct") /\
          body !! "feedback"%string = Some (py "Your answer is correct!") /\
          body !! "skill_gap"%string = Some (py "N/A") /\
          body !! "solution_highlights"%string = Some (py "N/A") /\
          calls w = []
        else
          body !! "score"%string = Some (py "Incorrect") /\
          body !! "feedback"%string = Some (py "Your answer is incorrect.") /\
          body !! "skill_gap"%string = Some (py "Conceptual Understanding") /\
          body !! "solution_highlights"%string
          = Some (explanation_text (complete 0%nat p)) /\
          calls w = [p]
    end.
Proof.
  intros Hty Hq Hc Hu p. unfold evaluate_answer, evaluate_mcq, same_answer.
  rewrite Hty, Hq, Hc, Hu. cbn [truthy eq_str negb andb].
  rewrite str_eqb_refl. eval_literals. cbn [negb].
  destruct user_answer as [[| c u] |]; cbn [from_option truthy py_strip negb].
  - change (str_eqb [] []) with true. unfold_monad. cbn. fold p.
    destruct (complete 0%nat p); cbn; do 2 eexists; (split; [reflexivity |]);
      repeat split; reflexivity.
  - change (str_eqb (c :: u) []) with false. unfold_monad. cbn. fold p.
    destruct (str_eqb (upper (strip (c :: u))) (upper (strip correct_answer)));
      cbn.
    + do 2 eexists; (split; [reflexivity |]); repeat split; reflexivity.
    + destruct (complete 0%nat p); cbn; do 2 eexists; (split; [reflexivity |]);
        repeat split; reflexivity.
  - unfold_monad. cbn. fold p.
    destruct (complete 0%nat p); cbn; do 2 eexists; (split; [reflexivity |]);
      repeat split; reflexivity.
Qed.


(** C6: a subjective question with an absent or blank answer gets "0/10",
    "No answer provided for this subjective question." and "No Answer
    Provided".  One call is made: the solution prompt with the question
    and the rubric of the request ("N/A" when the request has none).  The
    solution highlights are the trimmed reply to that call, or the fixed
    string when the call fails; the response is a 200 in both cases. *)
Theorem subjective_blank (user_answer : option pystr) :
  get data "question_type" = PStr (py "subjective") ->
  truthy (get data "question_text") = true ->
  get data "user_answer" = from_option PStr PNone user_answer ->
  from_option strip [] user_answer = [] ->
  let rubric := get data "rubric" in
  let p := SolutionPrompt (get data "question_text")
             (if truthy rubric then rubric else PStr (py "N/A")) in
  exists body,
    evaluate_answer complete upper data (start tmp)
    = (Ok (Response 200 body), World [p] tmp) /\
    body !! "score"%string = Some (py "0/10") /\
    body !! "feedback"%string
    = Some (py "No answer provided for this subjective question.") /\
    body !! "skill_gap"%string = Some (py "No Answer Provided") /\
    (forall summary,
       complete 0%nat p = Text summary ->
       body !! "solution_highlights"%string = Some (strip summary)) /\
    (forall detail,
       complete 0%nat p = Failure detail ->
       body !! "solution_highlights"%string
       = Some (py "Could not generate solution highlights due to an AI error.")).
Proof.
  intros Hty Hq Hu Hblank rubric p.
  unfold evaluate_answer, evaluate_subjective.
  rewrite Hty, Hq, Hu. cbn [truthy eq_str negb andb].
  eval_literals. cbn [negb].
  assert (forall w,
    (if negb (truthy (from_option PStr PNone user_answer)) then ret true
     else stripped <~ lift (py_strip (from_option PStr PNone user_answer));;
          ret (str_eqb stripped [])) w = (Ok true, w)) as Hb.
  { intros w. destruct user_answer as [u |]; cbn [from_option truthy negb] in *.
    - destruct (str_eqb u []); cbn [negb]; [reflexivity |].
      unfold_monad. cbn [py_strip]. rewrite Hblank. reflexivity.
    - reflexivity. }
  unfold bind at 2. unfold bind at 1. rewrite Hb.
  unfold_monad. unfold rubric_or_na. cbn. fold rubric. fold p.
  destruct (complete 0%nat p); cbn; eexists; (split; [reflexivity |]);
    repeat split; try reflexivity; intros ? [=]; subst; reflexivity.
Qed.

(** C3, as amended: in the subjective branch with an answer, a reply of
    the completion service always gives a 200 with the four fields, each
    read by its own rule.  For feedback and skill gap: find the first
    occurrence of the label, skip the whitespace (newlines included) that
    follows it, and take the text from there up to the next label of the
    template on a new line or, without one, to the end of the reply,
    trimmed.  For the solution highlights: everything behind the label,
    trimmed.  For the score: [spec_score], the trimmed rest of the line
    behind the label and the skipped whitespace, empty when that whitespace
    held the only newline, "N/A" when no newline follows the label.  A reply
    without a label leaves "N/A" as the score and a fixed "Could not parse
    ..." string in each of the other three. *)
Theorem subjective_reply_parsed u raw :
  get data "question_type" = PStr (py "subjective") ->
  truthy (get data "question_text") = true ->
  get data "user_answer" = PStr u -> strip u <> [] ->
  let p := SubjectiveEvalPrompt (get data "question_text") (PStr u)
             (rubric_or_na (get data "rubric")) in
  complete 0%nat p = Text raw ->
  exists body,
    evaluate_answer complete upper data (start tmp)
    = (Ok (Response 200 body), World [p] tmp) /\
    body !! "score"%string = Some (spec_score raw) /\
    body !! "feedback"%string
    = Some (spec_field (py "Feedback:") (Some (10%N :: py "Skill Gap:"))
              "Could not parse detailed feedback from AI." raw) /\
    body !! "skill_gap"%string
    = Some (spec_field (py "Skill Gap:")
              (Some (10%N :: py "Correct Approach/Solution Highlights:"))
              "Could not parse skill gap analysis from AI." raw) /\
    body !! "solution_highlights"%string
    = Some (spec_field (py "Correct Approach/Solution Highlights:") None
              "Could not parse solution highlights from AI." raw) /\
    (occurs (py "Score:") raw = false ->
     body !! "score"%string = Some (py "N/A")) /\
    (occurs (py "Feedback:") raw = false ->
     body !! "feedback"%string
     = Some (py "Could not parse detailed feedback from AI.")) /\
    (occurs (py "Skill Gap:") raw = false ->
     body !! "skill_gap"%string
     = Some (py "Could not parse skill gap analysis from AI.")) /\
    (occurs (py "Correct Approach/Solution Highlights:") raw = false ->
     body !! "solution_highlights"%string
     = Some (py "Could not parse solution highlights from AI.")).
Proof.
  intros Hty Hq Hu Hne p Hreply.
  assert (u <> []) as Hu0 by (intros ->; apply Hne; reflexivity).
  destruct (parse_evaluation_fields raw default_result)
    as (score & Hscore & Hparse).
  rewrite parse_score_spec in Hscore. injection Hscore as <-.
  unfold evaluate_answer, evaluate_subjective.
  rewrite Hty, Hq, Hu. cbn [truthy eq_str negb andb py_strip].
  eval_literals. cbn [negb].
  rewrite (str_eqb_neq _ _ Hu0). cbn [negb].
  unfold_monad. cbn. rewrite (str_eqb_neq _ _ Hne). fold p.
  cbn [length calls tmp_files app]. rewrite Hreply, Hparse.
  eexists. split; [reflexivity |].
  split; [reflexivity |].
  split; [reflexivity |]. split; [reflexivity |]. split; [reflexivity |].
  split.
  { intros H. unfold spec_score. rewrite (after_label_absent _ _ H).
    reflexivity. }
  split; [| split]; intros H; rewrite (spec_field_absent _ _ _ _ H);
    reflexivity.
Qed.

End Evaluation.

Lemma mcq_rows_witness :
  get sample_mcq "question_type" = PStr (py "mcq") /\
  truthy (get sample_mcq "question_text") = true /\
  get sample_mcq "correct_answer" = PStr (py "C") /\
  get sample_mcq "user_answer" = from_option PStr PNone (Some (py "c")) /\
  exists body w,
    evaluate_answer service_down ascii_upper sample_mcq (start ∅)
    = (Ok (Response 200 body), w) /\
    body !! "score"%string = Some (py "Correct") /\
    body !! "feedback"%string = Some (py "Your answer is correct!") /\
    body !! "skill_gap"%string = Some (py "N/A") /\
    body !! "solution_highlights"%string = Some (py "N/A") /\
    calls w = [].
Proof.
  split; [reflexivity |]. split; [reflexivity |]. split; [reflexivity |].
  split; [reflexivity |].
  destruct (mcq_rows service_down ascii_upper sample_mcq ∅
              (Some (py "c")) (py "C") eq_refl eq_refl eq_refl eq_refl)
    as (body & w & Hrun & Hrow).
  exists body, w. split; [exact Hrun | exact Hrow].
Defined.

(** C2, as stated, fails on the solution highlights of an unanswered MCQ:
    they are whatever the completion service replies, and a reply "N/A"
    leaves them at "N/A". *)
Lemma mcq_explanation_may_be_na :
  get sample_unanswered_mcq "question_type" = PStr (py "mcq") /\
  get sample_unanswered_mcq "user_answer" = PNone /\
  get sample_unanswered_mcq "correct_answer" = PStr (py "B") /\
  exists body w,
    evaluate_answer service_na ascii_upper sample_unanswered_mcq (start ∅)
    = (Ok (Response 200 body), w) /\
    body !! "score"%string = Some (py "Incorrect") /\
    body !! "feedback"%string = Some (py "No answer provided.") /\
    body !! "skill_gap"%string = Some (py "Incomplete Answer") /\
    body !! "solution_highlights"%string = Some (py "N/A").
Proof.
  split; [reflexivity |]. split; [reflexivity |]. split; [reflexivity |].
  do 2 eexists. split; [vm_compute; reflexivity |].
  repeat split; vm_compute; reflexivity.
Qed.


(** C10: there is an MCQ request with a question text and an answer but no
    correct answer on which the evaluation raises [AttributeError] (the
    [strip] of [None]) and returns no response, whatever the completion
    service and [str.upper] are. *)
Theorem mcq_uncaught :
  exists data : gmap string pyval,
    get data "question_type" = PStr (py "mcq") /\
    truthy (get data "question_text") = true /\
    truthy (get data "user_answer") = true /\
    data !! "correct_answer"%string = None /\
    forall complete upper tmp,
      evaluate_answer complete upper data (start tmp)
      = (Raise AttributeError, start tmp).
Proof.
  exists sample_mcq_no_key.
  split; [reflexivity |]. split; [reflexivity |]. split; [reflexivity |].
  split; [reflexivity |].
  intros. apply (mcq_needs_correct_answer _ _ _ _ (py "C"));
    try reflexivity.
  discriminate.
Qed.

Lemma subjective_blank_witness :
  get sample_blank_with_rubric "question_type" = PStr (py "subjective") /\
  truthy (get sample_blank_with_rubric "question_text") = true /\
  get sample_blank_with_rubric "user_answer"
  = from_option PStr PNone (Some (py "   ")) /\
  from_option strip [] (Some (py "   ")) = [] /\
  get sample_blank_with_rubric "rubric"
  = PStr (py "Base case, Recursive step") /\
  exists body,
    evaluate_answer service_rubric_echo id sample_blank_with_rubric (start ∅)
    = (Ok (Response 200 body),
       World [SolutionPrompt
                (PStr (py "Q1. Explain the concept of recursion in programming."))
                (PStr (py "Base case, Recursive step"))] ∅) /\
    body !! "score"%string = Some (py "0/10") /\
    body !! "feedback"%string
    = Some (py "No answer provided for this subjective question.") /\
    body !! "skill_gap"%string = Some (py "No Answer Provided") /\
    body !! "solution_highlights"%string
    = Some (py "Cover: Base case, Recursive step").
Proof.
  split; [reflexivity |]. split; [reflexivity |]. split; [reflexivity |].
  split; [reflexivity |]. split; [reflexivity |].
  destruct (subjective_blank service_rubric_echo id sample_blank_with_rubric
              ∅ (Some (py "   ")) eq_refl eq_refl eq_refl eq_refl)
    as (body & Hrun & Hscore & Hfeedback & Hgap & Htext & _).
  exists body. split; [exact Hrun |].
  split; [exact Hscore |]. split; [exact Hfeedback |]. split; [exact Hgap |].
  rewrite (Htext _ eq_refl). reflexivity.
Defined.

Lemma subjective_reply_parsed_witness :
  get sample_subjective "question_type" = PStr (py "subjective") /\
  truthy (get sample_subjective "question_text") = true /\
  get sample_subjective "user_answer"
  = PStr (py "A function that calls itself.") /\
  strip (py "A function that calls itself.") <> [] /\
  occurs (py "Skill Gap:") reply_without_skill_gap = false /\
  exists body,
    fst (evaluate_answer (fun _ _ => Text reply_without_skill_gap) id
           sample_subjective (start ∅))
    = Ok (Response 200 body) /\
    body !! "score"%string = Some (py "7/10") /\
    body !! "feedback"%string
    = Some (py "Good start." ++ [10%N]
            ++ py "Correct Approach/Solution Highlights: Name the base case.")
    /\
    body !! "skill_gap"%string
    = Some (py "Could not parse skill gap analysis from AI.") /\
    body !! "solution_highlights"%string = Some (py "Name the base case.").
Proof.
  split; [reflexivity |]. split; [reflexivity |]. split; [reflexivity |].
  split; [discriminate |]. split; [reflexivity |].
  destruct (subjective_reply_parsed (fun _ _ => Text reply_without_skill_gap)
              id sample_subjective ∅ (py "A function that calls itself.")
              reply_without_skill_gap eq_refl eq_refl eq_refl
              ltac:(discriminate) eq_refl)
    as (body & Hrun & Hscore & Hf & _ & Hs & _ & _ & Hg & _).
  exists body. rewrite Hrun. split; [reflexivity |].
  split; [rewrite Hscore; reflexivity |].
  split; [rewrite Hf; reflexivity |].
  split; [apply Hg; reflexivity |].
  rewrite Hs. reflexivity.
Defined.

(** C3, as stated, fails on the score: a reply without the "Score:" label
    leaves the score at "N/A", which is no "could not parse" string. *)
Lemma missing_score_label_gives_na :
  occurs (py "Score:") reply_without_score = false /\
  starts_with (py "Could not parse") (py "N/A") = false /\
  exists body w,
    evaluate_answer (fun _ _ => Text reply_without_score) id
      sample_subjective (start ∅)
    = (Ok (Response 200 body), w) /\
    body !! "score"%string = Some (py "N/A").
Proof.
  split; [reflexivity |]. split; [reflexivity |].
  do 2 eexists. split; vm_compute; reflexivity.
Qed.

(** Nor does a field stop at the next label when only whitespace separates
    the two: the newline before "Skill Gap:" is skipped with the whitespace
    behind "Feedback:", and the feedback runs on to the end of the reply. *)
Lemma blank_feedback_runs_on :
  exists body w,
    evaluate_answer (fun _ _ => Text reply_with_blank_feedback) id
      sample_subjective (start ∅)
    = (Ok (Response 200 body), w) /\
    body !! "feedback"%string
    = Some (py "Skill Gap: Base cases" ++ [10%N]
            ++ py "Correct Approach/Solution Highlights: Name the base case.")
    /\
    body !! "skill_gap"%string = Some (py "Base cases").
Proof.
  do 2 eexists. split; [| split]; vm_compute; reflexivity.
Qed.

(** ** Failures of the completion service *)

Section Failures.

Variable complete : nat -> prompt -> reply.

Lemma no_call_failed tmp : ~ call_failed complete (World [] tmp).
Proof. intros (i & p & d & Hl & _). destruct i; discriminate. Qed.

Lemma call_failed_one p tmp :
  call_failed complete (World [p] tmp) ->
  exists detail, complete 0%nat p = Failure detail.
Proof.
  intros (i & q & d & Hl & Hc). destruct i as [| [| i]]; try discriminate.
  injection Hl as <-. eauto.
Qed.

Lemma call_failed_two p q tmp :
  call_failed complete (World [p; q] tmp) ->
  (exists detail, complete 0%nat p = Failure detail) \/
  (exists detail, complete 1%nat q = Failure detail).
Proof.
  intros (i & r & d & Hl & Hc). destruct i as [| [| [| i]]]; try discriminate;
    injection Hl as <-; eauto.
Qed.

End Failures.

(** A run whose calls all succeeded contradicts [call_failed]. *)
Ltac failed_call :=
  match goal with
  | H : call_failed _ (World [] _) |- _ => destruct (no_call_failed _ _ H)
  | H : call_failed _ (World [_] _) |- _ =>
      apply call_failed_one in H; destruct H as [? H]; congruence
  | H : call_failed _ (World [_; _] _) |- _ =>
      apply call_failed_two in H; destruct H as [[? H] | [? H]]; congruence
  end.

Ltac no_failure := intros [= <- <-] ?; failed_call.

Ltac case_reply :=
  match goal with
  | |- context [match ?c ?n ?p with Text _ => _ | Failure _ => _ end] =>
      destruct (c n p) eqn:?; cbn
  end.

Section FailureHandling.

Variable complete : nat -> prompt -> reply.
Variable upper : pystr -> pystr.
Variable new_tmp_file : result pystr.
Variable save_upload : upload -> pystr -> result unit.
Variable extract_text : pystr -> result pystr.
Variable tmp : gset pystr.

Lemma generate_questions_failure base context qt total diff files out w :
  generate_questions complete base context qt total diff (World [] files)
  = (out, w) ->
  call_failed complete w ->
  out = Ok (error_response 500
              "Failed to generate assessment. Please try again.").
Proof.
  unfold generate_questions. unfold_monad.
  destruct (question_counts qt total) as [[[m s] |] | e]; cbn;
    [| no_failure ..].
  destruct (0 <? m), (0 <? s); cbn; repeat case_reply;
    intros [= <- <-] Hf; try reflexivity; failed_call.
Qed.

Lemma generate_assessment_failure form out w :
  generate_assessment complete new_tmp_file save_upload extract_text form
    (start tmp) = (out, w) ->
  call_failed complete w ->
  out = Ok (error_response 500
              "Failed to generate assessment. Please try again.").
Proof.
  unfold generate_assessment, named_temporary_file, unlink, parse_pdf, start.
  unfold bind at 1. unfold lift at 1.
  destruct (total_questions form); cbn; try no_failure.
  all: destruct (question_types form); cbn; try no_failure.
  all: destruct (usable_file (syllabus_pdf form)) as [f |];
    [| destruct (usable_topic (topic form));
       [apply generate_questions_failure | no_failure]].
  all: unfold bind, lift; destruct new_tmp_file as [path | e]; cbn;
    try no_failure.
  all: destruct (save_upload f path) as [[] | e]; cbn; try no_failure.
  all: destruct (extract_text path) as [[| c t] | e]; cbn; try no_failure.
  all: apply generate_questions_failure.
Qed.

Lemma check_plagiarism_failure data out w :
  check_plagiarism complete data (start tmp) = (out, w) ->
  call_failed complete w ->
  out = Ok (error_response 500 "Failed to check plagiarism due to AI error.").
Proof.
  unfold check_plagiarism. unfold_monad.
  destruct (truthy (get data "user_answer")); cbn; [| no_failure].
  destruct (truthy (get_default data "known_corpus" (PList []))); cbn;
    [| no_failure].
  destruct (py_join _ _); cbn; [| no_failure].
  case_reply; intros [= <- <-] Hf; [failed_call | reflexivity].
Qed.

Lemma recommend_tests_failure data out w :
  recommend_tests complete data (start tmp) = (out, w) ->
  call_failed complete w ->
  out = Ok (error_response 500
              "Failed to generate recommendations due to AI error.").
Proof.
  unfold recommend_tests. unfold_monad.
  destruct (truthy (get_default data "skill_gaps" (PList []))); cbn;
    [| no_failure].
  destruct (py_join _ _); cbn; [| no_failure].
  case_reply; intros [= <- <-] Hf; [failed_call | reflexivity].
Qed.

Lemma eq_str_true v s : eq_str v s = true -> v = PStr s.
Proof.
  destruct v; cbn; try discriminate. intros H.
  apply str_eqb_eq in H. congruence.
Qed.

Lemma evaluate_answer_failure data out w :
  evaluate_answer complete upper data (start tmp) = (out, w) ->
  call_failed complete w ->
  exists body p detail,
    out = Ok (Response 200 body) /\ calls w = [p] /\
    complete 0%nat p = Failure detail /\
    match p with
    | ExplanationPrompt _ _ =>
        body !! "solution_highlights"%string
        = Some (py "Could not generate solution explanation due to an AI error.")
        /\ forall complete' tmp',
             verdict (evaluate_answer complete' upper data (start tmp'))
             = Ok (200, body !! "score"%string, body !! "feedback"%string,
                   body !! "skill_gap"%string)
    | SolutionPrompt _ _ =>
        body !! "solution_highlights"%string
        = Some (py "Could not generate solution highlights due to an AI error.")
        /\ body !! "score"%string = Some (py "0/10")
        /\ body !! "feedback"%string
           = Some (py "No answer provided for this subjective question.")
        /\ body !! "skill_gap"%string = Some (py "No Answer Provided")
    | SubjectiveEvalPrompt _ _ _ =>
        body !! "feedback"%string
        = Some (py "Failed to evaluate subjective answer due to an AI error.")
        /\ body !! "raw_gemini_response"%string = Some detail
        /\ body !! "score"%string = Some (py "N/A")
        /\ body !! "skill_gap"%string = Some (py "N/A")
        /\ body !! "solution_highlights"%string = Some (py "N/A")
    | _ => False
    end.
Proof.
  intros Hrun Hf.
  assert (forall body,
            out = Ok (Response 200 body) ->
            get data "question_type" = PStr (py "mcq") ->
            forall complete' tmp',
              verdict (evaluate_answer complete' upper data (start tmp'))
              = Ok (200, body !! "score"%string, body !! "feedback"%string,
                    body !! "skill_gap"%string)) as Hind.
  { intros body Hout Hty complete' tmp'.
    rewrite <- (mcq_verdict_independent complete upper data tmp complete' tmp'
                  Hty).
    rewrite Hrun, Hout. reflexivity. }
  revert Hrun Hf Hind.
  unfold evaluate_answer, evaluate_mcq, evaluate_subjective. unfold_monad.
  destruct (truthy (get data "question_text")
            && truthy (get data "question_type"));
    cbn [negb]; [| intros [= <- <-] Hf; failed_call].
  destruct (eq_str (get data "question_type") (py "mcq")) eqn:Hmcq.
  { apply eq_str_true in Hmcq.
    destruct (truthy (get data "user_answer")); cbn.
    - destruct (same_answer upper _ _) as [[|] | e]; cbn;
        try (intros [= <- <-] Hf; failed_call).
      destruct (complete _ _) eqn:Hc; cbn; intros [= <- <-] Hf Hind;
        [failed_call |].
      do 3 eexists. split; [reflexivity |]. split; [reflexivity |].
      split; [exact Hc |]. split; [reflexivity |].
      apply Hind; [reflexivity | exact Hmcq].
    - destruct (complete _ _) eqn:Hc; cbn; intros [= <- <-] Hf Hind;
        [failed_call |].
      do 3 eexists. split; [reflexivity |]. split; [reflexivity |].
      split; [exact Hc |]. split; [reflexivity |].
      apply Hind; [reflexivity | exact Hmcq]. }
  destruct (eq_str (get data "question_type") (py "subjective")).
  { destruct (truthy (get data "user_answer")); cbn.
    - destruct (py_strip (get data "user_answer")) as [s | e]; cbn;
        try (intros [= <- <-] Hf; failed_call).
      destruct (str_eqb s []); cbn.
      + destruct (complete _ _) eqn:Hc; cbn; intros [= <- <-] Hf _;
          [failed_call |].
        do 3 eexists. split; [reflexivity |]. split; [reflexivity |].
        split; [exact Hc |]. repeat split; reflexivity.
      + destruct (complete _ _) eqn:Hc; cbn.
        * destruct (parse_evaluation _ _) as [d [e |]]; cbn;
            intros [= <- <-] Hf; failed_call.
        * intros [= <- <-] Hf _.
          do 3 eexists. split; [reflexivity |]. split; [reflexivity |].
          split; [exact Hc |]. repeat split; reflexivity.
    - destruct (complete _ _) eqn:Hc; cbn; intros [= <- <-] Hf _;
        [failed_call |].
      do 3 eexists. split; [reflexivity |]. split; [reflexivity |].
      split; [exact Hc |]. repeat split; reflexivity. }
  destruct (eq_str (get data "question_type") (py "coding"));
    intros [= <- <-] Hf; failed_call.
Qed.

(** C4, as amended: when a call to the completion service fails, the
    generation, the plagiarism check and the recommendations answer with a
    500 and their generic message; the evaluation always answers with a
    200: a failed MCQ explanation or a failed solution summary only puts a
    fixed string into the solution highlights, and a failed primary
    subjective evaluation puts a fixed message into the feedback and the
    text of the error into [raw_gemini_response], the other fields staying
    "N/A". *)
Theorem completion_failures :
  (forall form out w,
     generate_assessment complete new_tmp_file save_upload extract_text form
       (start tmp) = (out, w) ->
     call_failed complete w ->
     out = Ok (error_response 500
                 "Failed to generate assessment. Please try again.")) /\
  (forall data out w,
     check_plagiarism complete data (start tmp) = (out, w) ->
     call_failed complete w ->
     out = Ok (error_response 500
                 "Failed to check plagiarism due to AI error.")) /\
  (forall data out w,
     recommend_tests complete data (start tmp) = (out, w) ->
     call_failed complete w ->
     out = Ok (error_response 500
                 "Failed to generate recommendations due to AI error.")) /\
  (forall data out w,
     evaluate_answer complete upper data (start tmp) = (out, w) ->
     call_failed complete w ->
     exists body p detail,
       out = Ok (Response 200 body) /\ calls w = [p] /\
       complete 0%nat p = Failure detail /\
       match p with
       | ExplanationPrompt _ _ =>
           body !! "solution_highlights"%string
           = Some (py "Could not generate solution explanation due to an AI error.")
           /\ forall complete' tmp',
                verdict (evaluate_answer complete' upper data (start tmp'))
                = Ok (200, body !! "score"%string, body !! "feedback"%string,
                      body !! "skill_gap"%string)
       | SolutionPrompt _ _ =>
           body !! "solution_highlights"%string
           = Some (py "Could not generate solution highlights due to an AI error.")
           /\ body !! "score"%string = Some (py "0/10")
           /\ body !! "feedback"%string
              = Some (py "No answer provided for this subjective question.")
           /\ body !! "skill_gap"%string = Some (py "No Answer Provided")
       | SubjectiveEvalPrompt _ _ _ =>
           body !! "feedback"%string
           = Some (py "Failed to evaluate subjective answer due to an AI error.")
           /\ body !! "raw_gemini_response"%string = Some detail
           /\ body !! "score"%string = Some (py "N/A")
           /\ body !! "skill_gap"%string = Some (py "N/A")
           /\ body !! "solution_highlights"%string = Some (py "N/A")
       | _ => False
       end).
Proof.
  split; [exact generate_assessment_failure |].
  split; [exact check_plagiarism_failure |].
  split; [exact recommend_tests_failure | exact evaluate_answer_failure].
Qed.

End FailureHandling.

Lemma completion_failures_witness :
  exists w,
    check_plagiarism service_down sample_corpus (start ∅)
    = (Ok (error_response 500 "Failed to check plagiarism due to AI error."),
       w) /\
    call_failed service_down w.
Proof.
  destruct (check_plagiarism service_down sample_corpus (start ∅))
    as [out w] eqn:Hrun.
  assert (call_failed service_down w) as Hf.
  { vm_compute in Hrun. injection Hrun as _ <-.
    exists 0%nat. do 2 eexists. split; reflexivity. }
  exists w. split; [| exact Hf].
  rewrite (proj1 (proj2 (completion_failures service_down id (Ok sample_path)
                           (fun _ _ => Ok tt) (fun _ => Ok []) ∅))
             sample_corpus out w Hrun Hf).
  reflexivity.
Defined.

(** C4, as stated, fails on the primary subjective evaluation: when that
    call fails the response is a 200 that carries the failure in its
    feedback, not a 5xx. *)
Lemma subjective_failure_is_200 :
  exists body w,
    evaluate_answer service_down id sample_subjective (start ∅)
    = (Ok (Response 200 body), w) /\
    calls w
    = [SubjectiveEvalPrompt (get sample_subjective "question_text")
         (get sample_subjective "user_answer")
         (get sample_subjective "rubric")] /\
    call_failed service_down w /\
    ~ 500 <= status (Response 200 body) /\
    body !! "feedback"%string
    = Some (py "Failed to evaluate subjective answer due to an AI error.").
Proof.
  do 2 eexists. split; [vm_compute; reflexivity |].
  split; [reflexivity |]. split.
  - exists 0%nat. do 2 eexists. split; reflexivity.
  - split; [cbn; lia | vm_compute; reflexivity].
Qed.

(** ** The temporary file of an uploaded syllabus *)

Section TemporaryFile.

Variable complete : nat -> prompt -> reply.
Variable new_tmp_file : result pystr.
Variable save_upload : upload -> pystr -> result unit.
Variable extract_text : pystr -> result pystr.
Variable form : generate_form.
Variable tmp : gset pystr.

Lemma generate_questions_tmp base context qt total diff w out w' :
  generate_questions complete base context qt total diff w = (out, w') ->
  tmp_files w' = tmp_files w.
Proof.
  unfold generate_questions. unfold_monad.
  destruct (question_counts qt total) as [[[m s] |] | e]; cbn;
    [| intros [= _ <-]; reflexivity ..].
  destruct (0 <? m), (0 <? s); cbn; repeat case_reply;
    intros [= _ <-]; reflexivity.
Qed.

(** Once the upload is saved, every path through the handler (a syllabus
    that cannot be parsed, a failing completion service, success) ends
    with the temporary file removed. *)
Lemma temp_file_removed f path out w :
  usable_file (syllabus_pdf form) = Some f ->
  new_tmp_file = Ok path -> path ∉ tmp ->
  save_upload f path = Ok tt ->
  generate_assessment complete new_tmp_file save_upload extract_text form
    (start tmp) = (out, w) ->
  tmp_files w = tmp.
Proof.
  intros Hf Hp Hfresh Hs.
  assert (({[path]} ∪ tmp) ∖ {[path]} = tmp) as Hset.
  { apply set_eq. intros x.
    rewrite elem_of_difference, elem_of_union, elem_of_singleton.
    split.
    - intros [[Heq | Hin] Hn]; [contradiction | exact Hin].
    - intros Hin. split; [right; exact Hin | intros ->; exact (Hfresh Hin)]. }
  unfold generate_assessment, named_temporary_file, unlink, parse_pdf, start.
  rewrite Hf, Hp.
  unfold bind at 1. unfold lift at 1.
  destruct (total_questions form); cbn; try (intros [= _ <-]; reflexivity).
  all: destruct (question_types form); cbn;
    try (intros [= _ <-]; reflexivity).
  all: unfold bind, lift; cbn; rewrite Hs; cbn; rewrite Hset.
  all: destruct (extract_text path) as [[| c t] | e]; cbn;
    try (intros [= _ Hw]; rewrite <- Hw; reflexivity).
  all: intros H; apply generate_questions_tmp in H; exact H.
Qed.

(** When saving the upload raises, the exception leaves the handler before
    [os.unlink] is reached. *)
Lemma temp_file_left f path e :
  usable_file (syllabus_pdf form) = Some f ->
  new_tmp_file = Ok path ->
  save_upload f path = Raise e ->
  is_Some (form_total form) -> is_Some (form_types form) ->
  generate_assessment complete new_tmp_file save_upload extract_text form
    (start tmp) = (Raise e, World [] ({[path]} ∪ tmp)).
Proof.
  intros Hf Hp Hs [n Ht] [qt Hq].
  unfold form_total, form_types in *.
  unfold generate_assessment, named_temporary_file, unlink, parse_pdf, start.
  rewrite Hf, Hp.
  unfold bind at 1. unfold lift at 1.
  destruct (total_questions form); cbn; try discriminate.
  all: destruct (question_types form); cbn; try discriminate.
  all: unfold bind, lift; cbn; rewrite Hs; reflexivity.
Qed.

End TemporaryFile.

(** C5 does not hold of the code: a request that uploads a syllabus and
    whose upload cannot be saved (here the save raises [OSError]) ends
    with an uncaught exception and the temporary file, created before the
    save, still on disk. *)
Theorem temp_file_leak :
  exists w,
    generate_assessment service_na (Ok sample_path)
      (fun _ _ => Raise OSError) (fun _ => Ok (py "Unit 1: Recursion"))
      sample_upload_form (start ∅)
    = (Raise OSError, w) /\
    (sample_path ∉ tmp_files (start ∅)) /\
    (sample_path ∈ tmp_files w).
Proof.
  eexists. split; [| split].
  - apply (temp_file_left _ _ _ _ _ _ sample_upload);
      [reflexivity | reflexivity | reflexivity | eexists; reflexivity ..].
  - cbn. set_solver.
  - cbn. set_solver.
Qed.

(** ** Requests that need no completion *)

Lemma not_supplied_falsy data key :
  not_supplied data key -> truthy (get_default data key (PList [])) = false.
Proof. unfold get_default. intros [-> | [-> | ->]]; reflexivity. Qed.

Lemma no_file_unusable f : no_file f -> usable_file f = None.
Proof.
  intros [-> | (u & -> & Hu)]; [reflexivity |]. cbn. rewrite Hu. reflexivity.
Qed.

Lemma no_topic_unusable t : no_topic t -> usable_topic t = None.
Proof. intros [-> | ->]; reflexivity. Qed.

(** C7: a plagiarism request whose known corpus is absent or empty and a
    recommendation request whose skill gaps are absent or empty make no
    call to the completion service; the recommendation request gets the
    fixed message in its normal response field, and so does the plagiarism
    request that carries its answer. *)
Theorem short_circuits complete (data1 data2 : gmap string pyval) tmp :
  not_supplied data1 "known_corpus" ->
  not_supplied data2 "skill_gaps" ->
  (exists out,
     check_plagiarism complete data1 (start tmp) = (out, World [] tmp) /\
     (truthy (get data1 "user_answer") = true ->
      out = Ok (Response 200
                  {[ "plagiarism_report"%string :=
                       py "No corpus provided for comparison. Cannot perform a detailed plagiarism check." ]})))
  /\
  recommend_tests complete data2 (start tmp)
  = (Ok (Response 200
           {[ "recommendations"%string :=
                py "No specific skill gaps identified to recommend new tests." ]}),
     World [] tmp).
Proof.
  intros Hk Hs. unfold check_plagiarism, recommend_tests.
  rewrite (not_supplied_falsy _ _ Hk), (not_supplied_falsy _ _ Hs).
  split; [| reflexivity].
  destruct (truthy (get data1 "user_answer")); cbn [negb];
    eexists; (split; [reflexivity |]); [reflexivity | discriminate].
Qed.

Lemma short_circuits_witness :
  not_supplied sample_plagiarism "known_corpus" /\
  not_supplied (∅ : gmap string pyval) "skill_gaps" /\
  check_plagiarism service_na sample_plagiarism (start ∅)
  = (Ok (Response 200
           {[ "plagiarism_report"%string :=
                py "No corpus provided for comparison. Cannot perform a detailed plagiarism check." ]}),
     World [] ∅) /\
  recommend_tests service_na ∅ (start ∅)
  = (Ok (Response 200
           {[ "recommendations"%string :=
                py "No specific skill gaps identified to recommend new tests." ]}),
     World [] ∅).
Proof.
  assert (not_supplied sample_plagiarism "known_corpus") as Hk
    by (right; right; reflexivity).
  assert (not_supplied (∅ : gmap string pyval) "skill_gaps") as Hs
    by (left; reflexivity).
  split; [exact Hk |]. split; [exact Hs |].
  destruct (short_circuits service_na sample_plagiarism ∅ ∅ Hk Hs)
    as [(out & Hrun & Hout) Hrec].
  split; [| exact Hrec].
  rewrite Hrun, (Hout eq_refl). reflexivity.
Defined.

(** C8: a generate request with neither a topic nor a syllabus document
    makes no call to the completion service and leaves the world as it
    was.  When [total_questions] is absent or an integer, the response is a
    400: "Please provide a topic or upload a syllabus PDF." when
    [question_types] is absent or decodes, "Invalid question_types
    parameter." when it is rejected as not JSON.  (A field that makes its
    decoder raise past the handler ends the request before the check.) *)
Theorem missing_subject complete new_tmp_file save_upload extract_text form
  tmp :
  no_topic (topic form) -> no_file (syllabus_pdf form) ->
  exists out,
    generate_assessment complete new_tmp_file save_upload extract_text form
      (start tmp) = (out, World [] tmp) /\
    (is_Some (form_total form) ->
     (is_Some (form_types form) ->
      out = Ok (error_response 400
                  "Please provide a topic or upload a syllabus PDF.")) /\
     (question_types form = Unparsable ->
      out = Ok (error_response 400 "Invalid question_types parameter."))).
Proof.
  intros Ht Hf. unfold generate_assessment, form_total, form_types.
  rewrite (no_file_unusable _ Hf), (no_topic_unusable _ Ht).
  destruct (total_questions form), (question_types form); unfold_monad; cbn;
    eexists; (split; [reflexivity |]); intros [n Hn];
    try discriminate; (split; [intros [qt Hqt] | intros Hqt]);
    try discriminate; reflexivity.
Qed.

Lemma missing_subject_witness :
  no_topic (topic sample_empty_form) /\
  no_file (syllabus_pdf sample_empty_form) /\
  generate_assessment service_na (Ok sample_path) (fun _ _ => Ok tt)
    (fun _ => Ok []) sample_empty_form (start ∅)
  = (Ok (error_response 400
           "Please provide a topic or upload a syllabus PDF."),
     World [] ∅).
Proof.
  assert (no_topic (topic sample_empty_form)) as Ht by (left; reflexivity).
  assert (no_file (syllabus_pdf sample_empty_form)) as Hf
    by (left; reflexivity).
  split; [exact Ht |]. split; [exact Hf |].
  destruct (missing_subject service_na (Ok sample_path) (fun _ _ => Ok tt)
              (fun _ => Ok []) sample_empty_form ∅ Ht Hf)
    as (out & Hrun & Hout).
  rewrite Hrun.
  rewrite (proj1 (Hout (ex_intro _ 10 eq_refl))
             (ex_intro _ (PList [PStr (py "both")]) eq_refl)).
  reflexivity.
Defined.

(** * Further properties of the handlers *)

(** ** Trimming *)

Section Strip.

Lemma lstrip_idem s : lstrip (lstrip s) = lstrip s.
Proof.
  induction s as [| c s IH]; cbn; [reflexivity |].
  destruct (is_space c) eqn:E; [exact IH |]. cbn. rewrite E. reflexivity.
Qed.

Lemma lstrip_suffix s : exists ws, s = ws ++ lstrip s.
Proof.
  induction s as [| c s [ws IH]]; cbn; [exists []; reflexivity |].
  destruct (is_space c).
  - exists (c :: ws). cbn. f_equal. exact IH.
  - exists []. reflexivity.
Qed.

Lemma lstrip_head c s : is_space c = false -> lstrip (c :: s) = c :: s.
Proof. intros H. cbn. rewrite H. reflexivity. Qed.

Lemma lstrip_nonempty_head s :
  lstrip s <> [] ->
  exists c t, lstrip s = c :: t /\ is_space c = false.
Proof.
  induction s as [| c s IH]; cbn; [congruence |].
  destruct (is_space c) eqn:E; [exact IH |]. eauto.
Qed.

Lemma lstrip_app s t : lstrip s <> [] -> lstrip (s ++ t) = lstrip s ++ t.
Proof.
  induction s as [| c s IH]; cbn; [congruence |].
  destruct (is_space c); [exact IH | reflexivity].
Qed.

Lemma rstrip_prefix s : exists ws, s = rstrip s ++ ws.
Proof.
  unfold rstrip. destruct (lstrip_suffix (rev s)) as [ws H].
  exists (rev ws). rewrite <- rev_app_distr, <- H, rev_involutive.
  reflexivity.
Qed.

Lemma rstrip_idem s : rstrip (rstrip s) = rstrip s.
Proof. unfold rstrip. rewrite rev_involutive, lstrip_idem. reflexivity. Qed.

Lemma lstrip_rstrip s : lstrip s = s -> lstrip (rstrip s) = rstrip s.
Proof.
  intros Hs. destruct (rstrip_prefix s) as [ws Hws].
  destruct (rstrip s) as [| c t] eqn:E; [reflexivity |].
  rewrite Hws in Hs. cbn in Hs.
  destruct (is_space c) eqn:Ec; [| apply lstrip_head, Ec].
  exfalso.
  destruct (lstrip_suffix (t ++ ws)) as [ws' Hs'].
  assert (length (lstrip (t ++ ws)) = S (length (t ++ ws))) as Hlen
    by (rewrite Hs; reflexivity).
  apply (f_equal length) in Hs'. rewrite (length_app ws') in Hs'. lia.
Qed.

(** [strip] gives a text that [strip] leaves alone. *)
Lemma strip_idem s : strip (strip s) = strip s.
Proof.
  unfold strip.
  rewrite (lstrip_rstrip (lstrip s) (lstrip_idem s)).
  apply rstrip_idem.
Qed.

Lemma strip_lstrip s : strip (lstrip s) = strip s.
Proof. unfold strip. rewrite lstrip_idem. reflexivity. Qed.

Lemma lstrip_keeps_out (c : N) s : c ∉ s -> c ∉ lstrip s.
Proof.
  intros H Hin. apply H. destruct (lstrip_suffix s) as [ws Hws].
  rewrite Hws. apply elem_of_app. right. exact Hin.
Qed.

End Strip.

(** ** Lines of a reply *)

Section Lines.

Lemma starts_with_occurs l s : starts_with l s = true -> occurs l s = true.
Proof. intros H. destruct s; cbn; rewrite H; reflexivity. Qed.

Lemma starts_with_app l r : starts_with l (l ++ r) = true.
Proof.
  induction l as [| c l IH]; cbn; [reflexivity |].
  rewrite N.eqb_refl. exact IH.
Qed.

(** A label without a newline that starts a text starts its first line. *)
Lemma starts_with_line l x r :
  10%N ∉ l -> starts_with l (x ++ 10%N :: r) = true -> starts_with l x = true.
Proof.
  revert x. induction l as [| a l IH]; intros x Hl; [reflexivity |].
  assert (a <> 10%N) as Ha by (intros ->; apply Hl; left).
  assert (10%N ∉ l) as Hl' by (intros H; apply Hl; right; exact H).
  destruct x as [| b x]; cbn.
  - replace (a =? 10)%N with false by (symmetry; apply N.eqb_neq; exact Ha).
    discriminate.
  - intros H. apply andb_true_iff in H as [-> H]. cbn. apply (IH x Hl' H).
Qed.

(** The search for a label without a newline skips a line that lacks it. *)
Lemma after_label_skip_line l x r :
  l <> [] -> 10%N ∉ l -> occurs l x = false ->
  after_label l (x ++ 10%N :: r) = after_label l r.
Proof.
  intros Hne Hl. induction x as [| c x IH]; intros Hx.
  - cbn [app after_label].
    destruct (starts_with l (10%N :: r)) eqn:E; [| reflexivity].
    apply (starts_with_line l [] r Hl) in E.
    destruct l; [congruence | discriminate].
  - cbn [occurs] in Hx. apply orb_false_elim in Hx as [H1 H2].
    cbn [app after_label].
    destruct (starts_with l (c :: x ++ 10%N :: r)) eqn:E.
    + apply (starts_with_line l (c :: x) r Hl) in E. congruence.
    + apply IH, H2.
Qed.

Lemma after_label_here l r : after_label l (l ++ r) = Some r.
Proof.
  destruct (l ++ r) eqn:E; cbn [after_label]; rewrite <- E;
    rewrite starts_with_app, drop_app_length; reflexivity.
Qed.

(** A line ends where the stop label begins on the next line. *)
Lemma up_to_line stop x r :
  10%N ∉ x -> up_to (10%N :: stop) (x ++ 10%N :: stop ++ r) = x.
Proof.
  induction x as [| c x IH]; intros Hx.
  - cbn [app up_to]. unfold stops_at. cbn [starts_with].
    rewrite N.eqb_refl, starts_with_app. reflexivity.
  - assert (c <> 10%N) as Hc by (intros ->; apply Hx; left).
    assert (10%N ∉ x) as Hx' by (intros H; apply Hx; right; exact H).
    cbn [app up_to]. unfold stops_at. cbn [starts_with].
    replace (10 =? c)%N with false by (symmetry; apply N.eqb_neq; congruence).
    cbn [andb orb].
    replace (Re.at_dollar (c :: x ++ 10%N :: stop ++ r)) with false.
    + rewrite (IH Hx'). reflexivity.
    + destruct x; reflexivity.
Qed.

End Lines.

(** String literals are evaluated to their code points. *)
Ltac concrete_literals :=
  repeat match goal with
    | |- context [py ?a] =>
        let v := eval vm_compute in (py a) in change (py a) with v
    end.

Ltac not_in_literal :=
  let H := fresh in
  intros H; apply list_elem_of_In in H; vm_compute in H; intuition discriminate.

Ltac literal_prefix H := concrete_literals; cbn; exact H.

(** ** A reply in the requested format *)

Section RoundTrip.

Variables s f g h : pystr.
Hypothesis Hs : plain_line s.
Hypothesis Hf : plain_line f.
Hypothesis Hg : plain_line g.

Lemma formatted_reply_lines :
  formatted_reply s f g h = py "Score:" ++ rest_after_score s f g h.
Proof. reflexivity. Qed.

Lemma after_score :
  after_label (py "Score:") (formatted_reply s f g h)
  = Some (rest_after_score s f g h).
Proof. rewrite formatted_reply_lines. apply after_label_here. Qed.

Lemma after_feedback :
  after_label (py "Feedback:") (formatted_reply s f g h)
  = Some (rest_after_feedback f g h).
Proof.
  destruct Hs as (_ & _ & H1 & _).
  change (formatted_reply s f g h)
    with ((py "Score:" ++ 32%N :: s) ++ 10%N ::
          py "Feedback:" ++ rest_after_feedback f g h).
  rewrite after_label_skip_line;
    [apply after_label_here | discriminate | not_in_literal |
     literal_prefix H1].
Qed.

Lemma after_skill_gap :
  after_label (py "Skill Gap:") (formatted_reply s f g h)
  = Some (rest_after_skill_gap g h).
Proof.
  destruct Hs as (_ & _ & _ & H1 & _). destruct Hf as (_ & _ & _ & H2 & _).
  change (formatted_reply s f g h)
    with ((py "Score:" ++ 32%N :: s) ++ 10%N ::
          (py "Feedback:" ++ 32%N :: f) ++ 10%N ::
          py "Skill Gap:" ++ rest_after_skill_gap g h).
  rewrite after_label_skip_line;
    [| discriminate | not_in_literal | literal_prefix H1].
  rewrite after_label_skip_line;
    [apply after_label_here | discriminate | not_in_literal |
     literal_prefix H2].
Qed.

Lemma after_solution :
  after_label (py "Correct Approach/Solution Highlights:")
    (formatted_reply s f g h) = Some (rest_after_solution h).
Proof.
  destruct Hs as (_ & _ & _ & _ & H1). destruct Hf as (_ & _ & _ & _ & H2).
  destruct Hg as (_ & _ & _ & _ & H3).
  change (formatted_reply s f g h)
    with ((py "Score:" ++ 32%N :: s) ++ 10%N ::
          (py "Feedback:" ++ 32%N :: f) ++ 10%N ::
          (py "Skill Gap:" ++ 32%N :: g) ++ 10%N ::
          py "Correct Approach/Solution Highlights:"
          ++ rest_after_solution h).
  rewrite after_label_skip_line;
    [| discriminate | not_in_literal | literal_prefix H1].
  rewrite after_label_skip_line;
    [| discriminate | not_in_literal | literal_prefix H2].
  rewrite after_label_skip_line;
    [apply after_label_here | discriminate | not_in_literal |
     literal_prefix H3].
Qed.

Lemma field_line label stop fallback raw x r :
  after_label label raw = Some (32%N :: x ++ 10%N :: stop ++ r) ->
  lstrip x <> [] -> 10%N ∉ x ->
  spec_field label (Some (10%N :: stop)) fallback raw = strip x.
Proof.
  intros Ha Hx Hn. unfold spec_field. rewrite Ha.
  change (lstrip (32%N :: x ++ 10%N :: stop ++ r))
    with (lstrip (x ++ 10%N :: stop ++ r)).
  rewrite (lstrip_app _ _ Hx), up_to_line by (apply lstrip_keeps_out, Hn).
  apply strip_lstrip.
Qed.

Lemma formatted_reply_parsed d :
  parse_evaluation (formatted_reply s f g h) d
  = (<[ "solution_highlights"%string := strip h ]>
       (<[ "skill_gap"%string := strip g ]>
          (<[ "feedback"%string := strip f ]>
             (<[ "score"%string := strip s ]> d))),
     None).
Proof.
  destruct (parse_evaluation_fields (formatted_reply s f g h) d)
    as (score & Hscore & ->).
  assert (score = strip s) as ->.
  { destruct Hs as (Hne & Hn & _).
    rewrite (parse_score_line _ (rest_after_score s f g h) (lstrip s)
               (py "Feedback:" ++ rest_after_feedback f g h))
      in Hscore.
    - rewrite strip_lstrip in Hscore. congruence.
    - apply after_score.
    - unfold rest_after_score.
      change (lstrip (32%N :: s ++ 10%N :: py "Feedback:"
                      ++ rest_after_feedback f g h))
        with (lstrip (s ++ 10%N :: py "Feedback:"
                      ++ rest_after_feedback f g h)).
      apply lstrip_app, Hne.
    - apply lstrip_keeps_out, Hn. }
  rewrite (field_line (py "Feedback:") (py "Skill Gap:") _ _ f
             (rest_after_skill_gap g h)
             after_feedback (proj1 Hf) (proj1 (proj2 Hf))).
  rewrite (field_line (py "Skill Gap:")
             (py "Correct Approach/Solution Highlights:") _ _ g
             (rest_after_solution h)
             after_skill_gap (proj1 Hg) (proj1 (proj2 Hg))).
  unfold spec_field at 1. rewrite after_solution. unfold rest_after_solution.
  change (lstrip (32%N :: h)) with (lstrip h). rewrite strip_lstrip.
  reflexivity.
Qed.

End RoundTrip.

(** ** Every evaluation request *)

Section EvaluationExtras.

Variable complete : nat -> prompt -> reply.
Variable upper : pystr -> pystr.
Variable data : gmap string pyval.
Variable tmp : gset pystr.

(** The run of the subjective branch on an answer that is not blank, when
    the completion service replies. *)
Lemma subjective_run u raw :
  get data "question_type" = PStr (py "subjective") ->
  truthy (get data "question_text") = true ->
  get data "user_answer" = PStr u -> strip u <> [] ->
  complete 0%nat
    (SubjectiveEvalPrompt (get data "question_text") (PStr u)
       (rubric_or_na (get data "rubric"))) = Text raw ->
  evaluate_answer complete upper data (start tmp)
  = (Ok (Response 200
           (match parse_evaluation raw default_result with
            | (d, None) => d
            | (d, Some e) => evaluation_failed e d
            end)),
     World [SubjectiveEvalPrompt (get data "question_text") (PStr u)
              (rubric_or_na (get data "rubric"))] tmp).
Proof.
  intros Hty Hq Hu Hne Hreply.
  assert (u <> []) as Hu0 by (intros ->; apply Hne; reflexivity).
  unfold evaluate_answer, evaluate_subjective.
  rewrite Hty, Hq, Hu. cbn [truthy eq_str negb andb py_strip].
  eval_literals. cbn [negb].
  rewrite (str_eqb_neq _ _ Hu0). cbn [negb].
  unfold_monad. cbn. rewrite (str_eqb_neq _ _ Hne).
  cbn [length calls tmp_files app]. rewrite Hreply.
  destruct (parse_evaluation raw default_result) as [d [e |]]; reflexivity.
Qed.

(** X1: when the completion service answers a subjective evaluation in the
    format that the prompt asks for (a score, a feedback and a skill gap of
    one line each, then the solution highlights), the response is 200 and
    its four fields are exactly the four values of the reply, trimmed. *)
Theorem template_reply_round_trip u s f g h :
  get data "question_type" = PStr (py "subjective") ->
  truthy (get data "question_text") = true ->
  get data "user_answer" = PStr u -> strip u <> [] ->
  plain_line s -> plain_line f -> plain_line g ->
  complete 0%nat
    (SubjectiveEvalPrompt (get data "question_text") (PStr u)
       (rubric_or_na (get data "rubric"))) = Text (formatted_reply s f g h) ->
  exists body,
    fst (evaluate_answer complete upper data (start tmp))
    = Ok (Response 200 body) /\
    body !! "score"%string = Some (strip s) /\
    body !! "feedback"%string = Some (strip f) /\
    body !! "skill_gap"%string = Some (strip g) /\
    body !! "solution_highlights"%string = Some (strip h).
Proof.
  intros Hty Hq Hu Hne Hs Hf Hg Hreply.
  rewrite (subjective_run u _ Hty Hq Hu Hne Hreply).
  rewrite (formatted_reply_parsed s f g h Hs Hf Hg).
  eexists. split; [reflexivity |]. repeat split; reflexivity.
Qed.

(** X5: the score is only read from a line that ends: when the reply has no
    newline at all, the score of the response is "N/A", even if the reply is
    [Score: 7/10]. *)
Theorem score_needs_newline u raw :
  get data "question_type" = PStr (py "subjective") ->
  truthy (get data "question_text") = true ->
  get data "user_answer" = PStr u -> strip u <> [] ->
  complete 0%nat
    (SubjectiveEvalPrompt (get data "question_text") (PStr u)
       (rubric_or_na (get data "rubric"))) = Text raw ->
  10%N ∉ raw ->
  exists body,
    fst (evaluate_answer complete upper data (start tmp))
    = Ok (Response 200 body) /\
    body !! "score"%string = Some (py "N/A").
Proof.
  intros Hty Hq Hu Hne Hreply Hnl.
  rewrite (subjective_run u _ Hty Hq Hu Hne Hreply).
  destruct (parse_evaluation_fields raw default_result)
    as (score & Hscore & ->).
  unfold parse_field in Hscore. rewrite (score_re_no_newline raw Hnl) in Hscore.
  injection Hscore as <-.
  eexists. split; reflexivity.
Qed.

Lemma spec_field_trimmed label stop fallback raw :
  strip (py fallback) = py fallback ->
  strip (spec_field label stop fallback raw)
  = spec_field label stop fallback raw.
Proof.
  intros H. unfold spec_field.
  destruct (after_label label raw); [apply strip_idem | exact H].
Qed.

Lemma parse_field_trimmed r fallback raw v :
  strip (py fallback) = py fallback ->
  parse_field r fallback raw = Ok v -> strip v = v.
Proof.
  intros H. unfold parse_field.
  destruct (Re.search r raw) as [[g |] |]; cbn; try discriminate;
    intros [= <-]; [apply strip_idem | exact H].
Qed.

Ltac trimmed :=
  first [ apply strip_idem
        | apply spec_field_trimmed; reflexivity
        | eapply parse_field_trimmed; [| eassumption]; reflexivity
        | vm_compute; reflexivity ].

Ltac four_fields :=
  right; split; [reflexivity |];
  repeat (constructor; [eexists; split; [reflexivity | trimmed] |]);
  constructor.

(** X2: whatever the request and the completion service, [evaluate_answer]
    ends in one of three ways: an uncaught [AttributeError] with no call
    made, a 400 response with an "error" message and no call made, or a 200
    response that has all four result keys, each with a trimmed value. *)
Theorem evaluate_response_shape :
  match evaluate_answer complete upper data (start tmp) with
  | (Raise e, w) => e = AttributeError /\ w = start tmp
  | (Ok r, w) =>
      (status r = 400 /\ is_Some (body r !! "error"%string)
       /\ w = start tmp) \/
      (status r = 200 /\
       Forall (fun key => exists v, body r !! key = Some v /\ strip v = v)
         result_keys)
  end.
Proof.
  unfold evaluate_answer, evaluate_mcq, evaluate_subjective. unfold_monad.
  destruct (truthy (get data "question_text")
            && truthy (get data "question_type"));
    cbn [negb]; [| left; repeat split; eexists; reflexivity].
  destruct (eq_str (get data "question_type") (py "mcq")).
  { destruct (truthy (get data "user_answer")); cbn.
    - destruct (same_answer _ _ _) as [[|] | e] eqn:Hsame; cbn.
      + four_fields.
      + case_reply; four_fields.
      + split; [| reflexivity].
        unfold same_answer in Hsame.
        destruct (get data "user_answer"), (get data "correct_answer");
          cbn in Hsame; congruence.
    - case_reply; four_fields. }
  destruct (eq_str (get data "question_type") (py "subjective")).
  { destruct (truthy (get data "user_answer")); cbn.
    - destruct (py_strip (get data "user_answer")) as [s | e] eqn:Hstrip; cbn.
      + destruct (str_eqb s []); cbn.
        * case_reply; four_fields.
        * case_reply.
          -- destruct (parse_evaluation_fields t default_result)
               as (score & Hscore & ->).
             cbn. four_fields.
          -- four_fields.
      + split; [| reflexivity].
        destruct (get data "user_answer"); cbn in Hstrip; congruence.
    - case_reply; four_fields. }
  destruct (eq_str (get data "question_type") (py "coding")).
  - four_fields.
  - left. repeat split. eexists. reflexivity.
Qed.

Lemma eq_str_false v s : eq_str v s = false -> v <> PStr s.
Proof. intros H ->. cbn in H. rewrite str_eqb_refl in H. discriminate. Qed.

(** X3: [evaluate_answer] raises exactly when the question text and the
    answer are truthy and either the type is "mcq" and the answer or the
    correct answer is not a string, or the type is "subjective" and the
    answer is not a string. *)
Theorem evaluate_raises_iff :
  (exists e, fst (evaluate_answer complete upper data (start tmp)) = Raise e)
  <->
  truthy (get data "question_text") = true /\
  truthy (get data "user_answer") = true /\
  (get data "question_type" = PStr (py "mcq") /\
   is_str (get data "user_answer") && is_str (get data "correct_answer")
   = false
   \/
   get data "question_type" = PStr (py "subjective") /\
   is_str (get data "user_answer") = false).
Proof.
  unfold evaluate_answer, evaluate_mcq, evaluate_subjective, same_answer.
  unfold_monad.
  destruct (truthy (get data "question_text")); cbn [andb negb];
    [| cbn; split; [intros [e H]; discriminate | intros [H _]; discriminate]].
  destruct (eq_str (get data "question_type") (py "mcq")) eqn:Hmcq.
  { apply eq_str_true in Hmcq. rewrite Hmcq. cbn [truthy].
    eval_literals. cbn [negb].
    destruct (truthy (get data "user_answer")); cbn.
    - destruct (get data "user_answer"), (get data "correct_answer"); cbn;
        try (split; [intros _; repeat split; left; split; reflexivity
                    | intros _; eexists; reflexivity]).
      destruct (str_eqb _ _); cbn; [| case_reply];
        (split; [intros [e H]; discriminate
                | intros (_ & _ & [[_ H] | [H _]]); discriminate]).
    - case_reply;
        (split; [intros [e H]; discriminate
                | intros (_ & H & _); discriminate]). }
  apply eq_str_false in Hmcq.
  destruct (eq_str (get data "question_type") (py "subjective")) eqn:Hsub.
  { apply eq_str_true in Hsub. rewrite Hsub. cbn [truthy].
    eval_literals. cbn [negb].
    destruct (truthy (get data "user_answer")); cbn.
    - destruct (get data "user_answer"); cbn;
        try (split; [intros _; repeat split; right; split; reflexivity
                    | intros _; eexists; reflexivity]).
      destruct (str_eqb (strip s) []); cbn; case_reply;
        try (destruct (parse_evaluation _ _) as [d [e |]]; cbn);
        (split; [intros [e' H]; discriminate
                | intros (_ & _ & [[H _] | [_ H]]); discriminate]).
    - case_reply;
        (split; [intros [e H]; discriminate
                | intros (_ & H & _); discriminate]). }
  apply eq_str_false in Hsub.
  destruct (truthy (get data "question_type")); cbn [negb];
    [destruct (eq_str (get data "question_type") (py "coding")) |]; cbn;
    (split; [intros [e H]; discriminate
            | intros (_ & _ & [[H _] | [H _]]); congruence]).
Qed.

(** X4: [evaluate_answer] answers 400 exactly when the question text or the
    question type is falsy, or the type is none of "mcq", "subjective" and
    "coding". *)
Theorem evaluate_rejects_iff :
  (exists r,
     fst (evaluate_answer complete upper data (start tmp)) = Ok r /\
     status r = 400)
  <->
  truthy (get data "question_text") && truthy (get data "question_type")
  = false
  \/
  eq_str (get data "question_type") (py "mcq")
  || eq_str (get data "question_type") (py "subjective")
  || eq_str (get data "question_type") (py "coding") = false.
Proof.
  unfold evaluate_answer, evaluate_mcq, evaluate_subjective. unfold_monad.
  destruct (truthy (get data "question_text")
            && truthy (get data "question_type"));
    cbn [negb];
    [| split; [intros _; left; reflexivity
              | intros _; eexists; split; reflexivity]].
  destruct (eq_str (get data "question_type") (py "mcq")); cbn [orb].
  { split; [| intros [H | H]; discriminate].
    intros (r & Hr & Hs). exfalso. revert Hr Hs.
    destruct (truthy (get data "user_answer")); cbn.
    - destruct (same_answer _ _ _) as [[|] | e]; cbn; try case_reply;
        intros [= <-]; discriminate.
    - case_reply; intros [= <-]; discriminate. }
  destruct (eq_str (get data "question_type") (py "subjective")); cbn [orb].
  { split; [| intros [H | H]; discriminate].
    intros (r & Hr & Hs). exfalso. revert Hr Hs.
    destruct (truthy (get data "user_answer")); cbn.
    - destruct (py_strip _) as [s | e]; cbn; [| discriminate].
      destruct (str_eqb s []); cbn; case_reply;
        try (destruct (parse_evaluation _ _) as [d [e |]]; cbn);
        intros [= <-]; discriminate.
    - case_reply; intros [= <-]; discriminate. }
  destruct (eq_str (get data "question_type") (py "coding")); cbn.
  - split; [intros (r & [= <-] & H); discriminate
           | intros [H | H]; discriminate].
  - split; [intros _; right; reflexivity
           | intros _; eexists; split; reflexivity].
Qed.

End EvaluationExtras.

(** A literal that fits on one line of the format. *)
Ltac plain_literal :=
  split; [vm_compute; discriminate |];
  split; [not_in_literal |]; repeat split; reflexivity.

Lemma template_reply_round_trip_witness :
  plain_line (py "7/10") /\ plain_line (py "Good start.") /\
  plain_line (py "Base cases") /\
  exists body,
    fst (evaluate_answer (fun _ _ => Text sample_formatted_reply) id
           sample_subjective (start ∅))
    = Ok (Response 200 body) /\
    body !! "score"%string = Some (py "7/10") /\
    body !! "feedback"%string = Some (py "Good start.") /\
    body !! "skill_gap"%string = Some (py "Base cases") /\
    body !! "solution_highlights"%string = Some (py "Name the base case.").
Proof.
  assert (plain_line (py "7/10")) as Hs by plain_literal.
  assert (plain_line (py "Good start.")) as Hf by plain_literal.
  assert (plain_line (py "Base cases")) as Hg by plain_literal.
  split; [exact Hs |]. split; [exact Hf |]. split; [exact Hg |].
  destruct (template_reply_round_trip (fun _ _ => Text sample_formatted_reply)
              id sample_subjective ∅ (py "A function that calls itself.")
              (py "7/10") (py "Good start.") (py "Base cases")
              (py "Name the base case.") eq_refl eq_refl eq_refl
              ltac:(discriminate) Hs Hf Hg eq_refl)
    as (body & Hrun & H1 & H2 & H3 & H4).
  exists body. split; [exact Hrun |].
  rewrite H1, H2, H3, H4. repeat split; reflexivity.
Defined.

Lemma score_needs_newline_witness :
  (10%N ∉ reply_without_newline) /\
  exists body,
    fst (evaluate_answer (fun _ _ => Text reply_without_newline) id
           sample_subjective (start ∅))
    = Ok (Response 200 body) /\
    body !! "score"%string = Some (py "N/A").
Proof.
  assert (10%N ∉ reply_without_newline) as Hnl by not_in_literal.
  split; [exact Hnl |].
  exact (score_needs_newline (fun _ _ => Text reply_without_newline) id
           sample_subjective ∅ (py "A function that calls itself.")
           reply_without_newline eq_refl eq_refl eq_refl ltac:(discriminate)
           eq_refl Hnl).
Defined.


(** ** Calls to the completion service *)

Section Budget.

Variable complete : nat -> prompt -> reply.
Variable upper : pystr -> pystr.
Variable new_tmp_file : result pystr.
Variable save_upload : upload -> pystr -> result unit.
Variable extract_text : pystr -> result pystr.
Variable tmp : gset pystr.

Lemma generate_questions_budget base context qt total diff files :
  (length (calls (snd (generate_questions complete base context qt total diff
                         (World [] files)))) <= 2)%nat.
Proof.
  unfold generate_questions. unfold_monad.
  destruct (question_counts qt total) as [[[m s] |] | e]; cbn; try lia.
  destruct (0 <? m), (0 <? s); cbn; repeat case_reply; lia.
Qed.

(** X6: a generation request makes at most two calls to the completion
    service; an evaluation, a plagiarism check and a recommendation make at
    most one. *)
Theorem call_budget :
  (forall form,
     (length (calls (snd (generate_assessment complete new_tmp_file
                            save_upload extract_text form (start tmp))))
      <= 2)%nat) /\
  (forall data,
     (length (calls (snd (evaluate_answer complete upper data (start tmp))))
      <= 1)%nat) /\
  (forall data,
     (length (calls (snd (check_plagiarism complete data (start tmp))))
      <= 1)%nat) /\
  (forall data,
     (length (calls (snd (recommend_tests complete data (start tmp))))
      <= 1)%nat).
Proof.
  split; [| split; [| split]].
  - intros form.
    unfold generate_assessment, named_temporary_file, unlink, parse_pdf, start.
    unfold bind at 1. unfold lift at 1.
    destruct (total_questions form); cbn -[generate_questions]; try lia.
    all: destruct (question_types form); cbn -[generate_questions]; try lia.
    all: destruct (usable_file (syllabus_pdf form)) as [f |];
      [| destruct (usable_topic (topic form));
         [apply generate_questions_budget | cbn -[generate_questions]; lia]].
    all: unfold bind, lift; destruct new_tmp_file as [path | e];
      cbn -[generate_questions]; try lia.
    all: destruct (save_upload f path) as [[] | e];
      cbn -[generate_questions]; try lia.
    all: destruct (extract_text path) as [[| c t] | e];
      cbn -[generate_questions]; try lia.
    all: apply generate_questions_budget.
  - intros data.
    unfold evaluate_answer, evaluate_mcq, evaluate_subjective. unfold_monad.
    destruct (truthy (get data "question_text")
              && truthy (get data "question_type")); cbn; [| lia].
    destruct (eq_str (get data "question_type") (py "mcq")).
    { destruct (truthy (get data "user_answer")); cbn.
      - destruct (same_answer _ _ _) as [[|] | e]; cbn; try case_reply; lia.
      - case_reply; lia. }
    destruct (eq_str (get data "question_type") (py "subjective")).
    { destruct (truthy (get data "user_answer")); cbn.
      - destruct (py_strip _) as [s | e]; cbn; [| lia].
        destruct (str_eqb s []); cbn; case_reply;
          try (destruct (parse_evaluation _ _) as [d [e |]]; cbn); lia.
      - case_reply; lia. }
    destruct (eq_str (get data "question_type") (py "coding")); cbn; lia.
  - intros data. unfold check_plagiarism. unfold_monad.
    destruct (truthy (get data "user_answer")); cbn; [| lia].
    destruct (truthy (get_default data "known_corpus" (PList []))); cbn;
      [| lia].
    destruct (py_join _ _); cbn; [case_reply |]; lia.
  - intros data. unfold recommend_tests. unfold_monad.
    destruct (truthy (get_default data "skill_gaps" (PList []))); cbn; [| lia].
    destruct (py_join _ _); cbn; [case_reply |]; lia.
Qed.

End Budget.

(** ** More on the allocation *)

Section MoreTwoThirds.

Import PyFloat.

(** Two thirds of a negative total lie between the total and 0. *)
Lemma two_thirds_negative n :
  n < 0 -> Z.abs n < first_overflow ->
  exists r, two_thirds n = Ok r /\ n <= r <= 0.
Proof.
  intros Hn Hlim.
  destruct (pos_true_divide_two_thirds (Z.abs n) ltac:(lia) Hlim)
    as (m & e & Hq & Hpos & Hneg).
  unfold two_thirds, int_true_divide.
  replace (3 =? 0) with false by reflexivity.
  replace (n * 2 =? 0) with false by (symmetry; apply Z.eqb_neq; lia).
  replace (Z.abs (n * 2)) with (Z.abs n * 2) by lia. change (Z.abs 3) with 3.
  rewrite Hq. rewrite (Z.sgn_neg (n * 2)) by lia. change (Z.sgn 3) with 1.
  cbn [round]. replace (-1 * 1 * m) with (- m) by lia.
  eexists. split; [reflexivity |].
  destruct (Z.leb_spec 0 e) as [He | He].
  - destruct (Hpos He) as [Hbig Hnear].
    assert (0 < 2 ^ e) by (apply Z.pow_pos_nonneg; lia).
    replace (- m * 2 ^ e) with (- (m * 2 ^ e)) by lia.
    generalize dependent (2 ^ e). intros. nia.
  - destruct (Hneg He) as [_ Hnear].
    assert (2 <= 2 ^ (- e)) as Hk.
    { change 2 with (2 ^ 1) at 1. apply Z.pow_le_mono_r; lia. }
    pose proof (div_half_even_near (- m) (2 ^ (- e)) ltac:(lia)) as Hnear2.
    set (r := div_half_even (- m) (2 ^ (- e))) in *.
    set (y := 2 ^ (- e)) in *.
    assert (y <= Z.abs n * y) by nia.
    split.
    + destruct (Z.le_gt_cases n r) as [| Hr]; [assumption |].
      assert (y * r <= y * n - y) by nia. nia.
    + destruct (Z.le_gt_cases r 0) as [| Hr]; [assumption |].
      assert (y <= y * r) by nia. lia.
Qed.

(** The MCQs get at least half of a positive total. *)
Lemma two_thirds_half n :
  1 <= n -> n < first_overflow ->
  exists r, two_thirds n = Ok r /\ n <= 2 * r.
Proof.
  intros Hn Hlim.
  destruct (Z.le_gt_cases 4 n) as [H4 | H4].
  2:{ assert (n = 1 \/ n = 2 \/ n = 3) as [-> | [-> | ->]] by lia;
        [exists 1 | exists 1 | exists 2];
        (split; [vm_compute; reflexivity | lia]). }
  destruct (pos_true_divide_two_thirds n ltac:(lia) Hlim)
    as (m & e & Hq & Hpos & Hneg).
  rewrite (two_thirds_of_quotient n m e ltac:(lia) Hq).
  eexists. split; [reflexivity |].
  destruct (Z.leb_spec 0 e) as [He | He].
  - destruct (Hpos He) as [Hbig Hnear].
    assert (0 < 2 ^ e) by (apply Z.pow_pos_nonneg; lia).
    generalize dependent (2 ^ e). intros. nia.
  - destruct (Hneg He) as [_ Hnear].
    assert (2 <= 2 ^ (- e)) as Hk.
    { change 2 with (2 ^ 1) at 1. apply Z.pow_le_mono_r; lia. }
    pose proof (div_half_even_near m (2 ^ (- e)) ltac:(lia)) as Hnear2.
    set (r := div_half_even m (2 ^ (- e))) in *.
    set (y := 2 ^ (- e)) in *.
    destruct (Z.le_gt_cases n (2 * r)) as [| Hr]; [assumption |].
    assert (4 * y <= n * y) by nia.
    assert (2 * (y * r) <= n * y - y) by nia. lia.
Qed.

End MoreTwoThirds.

(** Below 2^51 the counts for both types are the nearest integer to two
    thirds of the total and the rest. *)
Lemma split_both_exact n :
  0 <= n < 2 ^ 51 ->
  split_both n = Ok ((2 * n + 1) / 3, n - (2 * n + 1) / 3) /\
  (2 <= n -> 1 <= (2 * n + 1) / 3 <= n - 1).
Proof.
  intros Hrange.
  assert (two_thirds n = Ok ((2 * n + 1) / 3)) as Hr
    by (apply two_thirds_exact; lia).
  assert (2 <= n -> 1 <= (2 * n + 1) / 3 <= n - 1) as Hb.
  { intros H2. split.
    - apply Z.div_le_lower_bound; lia.
    - assert ((2 * n + 1) / 3 < n); [| lia].
      apply Z.div_lt_upper_bound; lia. }
  split; [| exact Hb].
  apply (split_both_plain n _ Hr).
  destruct (Z.eq_dec n 0) as [-> | ?]; [left; lia |].
  destruct (Z.eq_dec n 1) as [-> | ?]; [right; left; split; reflexivity |].
  right; right. apply Hb. lia.
Qed.

(** X7: with both types selected and a total from 0 to below 2^51, the
    MCQ count is the integer nearest to two thirds of the total and the
    subjective count is the rest; the floating-point computation and the
    readjustment of lines 100-107 change nothing there. *)
Theorem question_counts_nearest qt n :
  py_in (py "mcq") qt = Ok true -> py_in (py "subjective") qt = Ok true ->
  0 <= n < 2 ^ 51 ->
  exists m,
    question_counts qt n = Ok (Some (m, n - m)) /\
    3 * m - 1 <= 2 * n <= 3 * m + 1.
Proof.
  intros Hm Hs Hrange.
  destruct (split_both_exact n Hrange) as [Hsplit _].
  exists ((2 * n + 1) / 3). split.
  - unfold question_counts. rewrite Hm, Hs, Hsplit. reflexivity.
  - pose proof (Z.div_mod (2 * n + 1) 3 ltac:(lia)).
    pose proof (Z.mod_pos_bound (2 * n + 1) 3 ltac:(lia)). lia.
Qed.

(** X8: with both types selected and a positive total below the overflow
    bound, the counts add up to the total and there are at least as many
    MCQs as subjective questions. *)
Theorem mcq_majority qt n :
  py_in (py "mcq") qt = Ok true -> py_in (py "subjective") qt = Ok true ->
  0 < n < first_overflow ->
  exists m s,
    question_counts qt n = Ok (Some (m, s)) /\ m + s = n /\ s <= m.
Proof.
  intros Hm Hs [Hpos Hlim].
  destruct (two_thirds_cases n ltac:(lia)) as (r & Hr & Hcases).
  destruct (split_both_plain n r Hr Hcases) as [Hsplit _].
  destruct (two_thirds_half n ltac:(lia) Hlim) as (r' & Hr' & Hhalf).
  assert (r' = r) as -> by congruence.
  exists r, (n - r). split; [| lia].
  unfold question_counts. rewrite Hm, Hs, Hsplit. reflexivity.
Qed.

Lemma question_counts_nearest_witness :
  question_counts sample_both_types 10 = Ok (Some (7, 3)).
Proof.
  destruct (question_counts_nearest sample_both_types 10 eq_refl eq_refl
              ltac:(split; [lia | reflexivity]))
    as (m & Hc & Hb).
  assert (m = 7) as -> by lia. exact Hc.
Defined.

Lemma mcq_majority_witness :
  0 < 10 ^ 18 < first_overflow /\
  exists m s,
    question_counts sample_both_types (10 ^ 18) = Ok (Some (m, s)) /\
    m + s = 10 ^ 18 /\ s <= m.
Proof.
  assert (0 < 10 ^ 18 < first_overflow) as Hn by (split; reflexivity).
  split; [exact Hn |].
  exact (mcq_majority sample_both_types (10 ^ 18) eq_refl eq_refl Hn).
Defined.


(** ** Generation requests *)

(** Removing a fresh path from the directory it was added to gives the
    directory back. *)
Lemma fresh_path_removed (path : pystr) (tmp : gset pystr) :
  path ∉ tmp -> ({[path]} ∪ tmp) ∖ {[path]} = tmp.
Proof.
  intros Hfresh. apply set_eq. intros x.
  rewrite elem_of_difference, elem_of_union, elem_of_singleton.
  split.
  - intros [[Heq | Hin] Hne]; [contradiction | exact Hin].
  - intros Hin. split; [right; exact Hin | intros ->; exact (Hfresh Hin)].
Qed.

Section Generation.

Variable complete : nat -> prompt -> reply.
Variable new_tmp_file : result pystr.
Variable save_upload : upload -> pystr -> result unit.
Variable extract_text : pystr -> result pystr.
Variable form : generate_form.
Variable tmp : gset pystr.

#[local] Abbreviation run :=
  (generate_assessment complete new_tmp_file save_upload extract_text form).

(** A request on a topic, once its fields are decoded, is the generation
    for that topic. *)
Lemma topic_run n qt t w :
  form_total form = Some n -> form_types form = Some qt ->
  usable_file (syllabus_pdf form) = None ->
  usable_topic (topic form) = Some t ->
  run w
  = generate_questions complete (ForTopic t) (py "N/A") qt n
      (form_difficulty form) w.
Proof.
  unfold form_total, form_types, generate_assessment, form_difficulty.
  intros Hn Hqt Hf Ht. rewrite Hf, Ht.
  destruct (total_questions form); try discriminate;
    destruct (question_types form); try discriminate;
    injection Hn as <-; injection Hqt as <-; reflexivity.
Qed.


(** A request with a syllabus that is saved and read is the generation
    from its text, with the temporary file created and removed. *)
Lemma syllabus_run n qt f path text :
  form_total form = Some n -> form_types form = Some qt ->
  usable_file (syllabus_pdf form) = Some f ->
  new_tmp_file = Ok path -> save_upload f path = Ok tt ->
  extract_text path = Ok text -> text <> [] ->
  run (start tmp)
  = generate_questions complete FromSyllabus text qt n (form_difficulty form)
      (World [] (({[path]} ∪ tmp) ∖ {[path]})).
Proof.
  unfold form_total, form_types, generate_assessment, form_difficulty,
    named_temporary_file, unlink, parse_pdf, start.
  intros Hn Hqt Hf Hp Hs He Hne. rewrite Hf, Hp.
  destruct (total_questions form); try discriminate;
    destruct (question_types form); try discriminate;
    injection Hn as <-; injection Hqt as <-;
    unfold bind, lift; cbn -[generate_questions]; rewrite Hs, He;
    cbn -[generate_questions]; destruct text; congruence.
Qed.

(** Counts that are not positive ask for nothing. *)
Lemma generate_questions_nothing base context qt total diff w m s :
  question_counts qt total = Ok (Some (m, s)) -> m <= 0 -> s <= 0 ->
  generate_questions complete base context qt total diff w
  = (Ok (Response 200
           (<[ "mcqs"%string := [] ]>
              {[ "subjective_questions"%string := [] ]})), w).
Proof.
  intros Hc Hm Hs. unfold generate_questions. rewrite Hc. unfold_monad.
  cbn.
  replace (0 <? m) with false by (symmetry; apply Z.ltb_ge; lia).
  replace (0 <? s) with false by (symmetry; apply Z.ltb_ge; lia).
  destruct w. reflexivity.
Qed.

Lemma question_counts_nonpositive qt total bm bs :
  py_in (py "mcq") qt = Ok bm -> py_in (py "subjective") qt = Ok bs ->
  bm || bs = true -> total <= 0 -> Z.abs total < first_overflow ->
  exists m s,
    question_counts qt total = Ok (Some (m, s)) /\ m <= 0 /\ s <= 0.
Proof.
  intros Hm Hs Hb Ht Hlim. unfold question_counts. rewrite Hm, Hs.
  destruct bm, bs; try discriminate.
  - destruct (Z.eq_dec total 0) as [-> | Hne].
    { exists 0, 0. repeat split; lia. }
    destruct (two_thirds_negative total ltac:(lia) Hlim) as (r & Hr & Hb').
    destruct (split_both_plain total r Hr ltac:(lia)) as [-> _].
    exists r, (total - r). repeat split; lia.
  - exists total, 0. repeat split; lia.
  - exists 0, total. repeat split; lia.
Qed.

(** X9: a request on a topic for zero or fewer questions, with a valid
    type selected, is answered 200 with two empty texts and without a call
    to the completion service. *)
Theorem nonpositive_total_generates_nothing n qt t bm bs :
  form_total form = Some n -> form_types form = Some qt ->
  usable_file (syllabus_pdf form) = None ->
  usable_topic (topic form) = Some t ->
  py_in (py "mcq") qt = Ok bm -> py_in (py "subjective") qt = Ok bs ->
  bm || bs = true ->
  n <= 0 -> Z.abs n < first_overflow ->
  run (start tmp)
  = (Ok (Response 200
           (<[ "mcqs"%string := [] ]>
              {[ "subjective_questions"%string := [] ]})),
     start tmp).
Proof.
  intros Hn Hqt Hf Ht Hm Hs Hb Hle Hlim.
  rewrite (topic_run n qt t _ Hn Hqt Hf Ht).
  destruct (question_counts_nonpositive qt n bm bs Hm Hs Hb Hle Hlim)
    as (m & s & Hc & Hm0 & Hs0).
  apply (generate_questions_nothing _ _ _ _ _ _ m s Hc Hm0 Hs0).
Qed.

(** X10: a request on a topic whose [question_types] contain neither "mcq"
    nor "subjective" is answered 400 "No valid question type selected."
    without a call; so is a request that leaves [question_types] out, since
    the default is the list ["both"]. *)
Theorem unknown_types_rejected n t :
  form_total form = Some n ->
  usable_file (syllabus_pdf form) = None ->
  usable_topic (topic form) = Some t ->
  question_types form = Missing \/
  (exists qt,
     question_types form = Parsed qt /\
     py_in (py "mcq") qt = Ok false /\
     py_in (py "subjective") qt = Ok false) ->
  run (start tmp)
  = (Ok (error_response 400 "No valid question type selected."), start tmp).
Proof.
  intros Hn Hf Ht Hty.
  assert (exists qt,
            form_types form = Some qt /\
            py_in (py "mcq") qt = Ok false /\
            py_in (py "subjective") qt = Ok false)
    as (qt & Hqt & Hm & Hs).
  { unfold form_types. destruct Hty as [-> | (qt & -> & Hm & Hs)].
    - eexists. split; [reflexivity |]. split; reflexivity.
    - eauto. }
  rewrite (topic_run n qt t _ Hn Hqt Hf Ht).
  unfold generate_questions, question_counts. rewrite Hm, Hs. reflexivity.
Qed.

(** X11: a [question_types] field that decodes to [null], a boolean or a
    number makes the request end in an uncaught [TypeError], without a
    call. *)
Theorem scalar_types_raise n qt t :
  form_total form = Some n -> form_types form = Some qt ->
  usable_file (syllabus_pdf form) = None ->
  usable_topic (topic form) = Some t ->
  not_a_container qt ->
  run (start tmp) = (Raise TypeError, start tmp).
Proof.
  intros Hn Hqt Hf Ht Hc.
  rewrite (topic_run n qt t _ Hn Hqt Hf Ht).
  unfold generate_questions, question_counts.
  destruct qt; try contradiction; reflexivity.
Qed.

(** X12: with only one type selected and a positive total, one call asks
    for all the questions of that type; its reply is returned under that
    type's key and the other text is empty. *)
Theorem single_type_generation n qt t text :
  form_total form = Some n -> form_types form = Some qt ->
  usable_file (syllabus_pdf form) = None ->
  usable_topic (topic form) = Some t ->
  0 < n ->
  (py_in (py "mcq") qt = Ok true ->
   py_in (py "subjective") qt = Ok false ->
   complete 0%nat (McqPrompt (ForTopic t) n (form_difficulty form) (py "N/A"))
   = Text text ->
   run (start tmp)
   = (Ok (Response 200
            (<[ "mcqs"%string := text ]>
               {[ "subjective_questions"%string := [] ]})),
      World [McqPrompt (ForTopic t) n (form_difficulty form) (py "N/A")]
        tmp)) /\
  (py_in (py "mcq") qt = Ok false ->
   py_in (py "subjective") qt = Ok true ->
   complete 0%nat
     (SubjectivePrompt (ForTopic t) n (form_difficulty form) (py "N/A"))
   = Text text ->
   run (start tmp)
   = (Ok (Response 200
            (<[ "mcqs"%string := [] ]>
               {[ "subjective_questions"%string := text ]})),
      World [SubjectivePrompt (ForTopic t) n (form_difficulty form)
               (py "N/A")] tmp)).
Proof.
  intros Hn Hqt Hf Ht Hpos.
  rewrite (topic_run n qt t _ Hn Hqt Hf Ht).
  assert ((0 <? n) = true) as Hb by (apply Z.ltb_lt; lia).
  split; intros Hm Hs Hreply; unfold generate_questions, question_counts;
    rewrite Hm, Hs; unfold_monad; cbn; rewrite Hb; cbn; rewrite Hreply;
    reflexivity.
Qed.

(** X13: with both types selected and at least 2 questions, both counts
    that [question_counts] gives are positive, and a failure of either of
    the two generation calls gives the 500 response; when the second call
    fails, the MCQs that the first call produced are not returned. *)
Theorem generation_all_or_nothing n qt t :
  form_total form = Some n -> form_types form = Some qt ->
  usable_file (syllabus_pdf form) = None ->
  usable_topic (topic form) = Some t ->
  py_in (py "mcq") qt = Ok true -> py_in (py "subjective") qt = Ok true ->
  2 <= n -> n < first_overflow ->
  exists m s,
    question_counts qt n = Ok (Some (m, s)) /\ 0 < m /\ 0 < s /\
    let p1 := McqPrompt (ForTopic t) m (form_difficulty form) (py "N/A") in
    let p2 :=
      SubjectivePrompt (ForTopic t) s (form_difficulty form) (py "N/A") in
    (forall detail,
       complete 0%nat p1 = Failure detail ->
       run (start tmp)
       = (Ok (error_response 500
                "Failed to generate assessment. Please try again."),
          World [p1] tmp)) /\
    (forall text detail,
       complete 0%nat p1 = Text text ->
       complete 1%nat p2 = Failure detail ->
       run (start tmp)
       = (Ok (error_response 500
                "Failed to generate assessment. Please try again."),
          World [p1; p2] tmp)).
Proof.
  intros Hn Hqt Hf Ht Hm Hs H2 Hlim.
  rewrite (topic_run n qt t _ Hn Hqt Hf Ht).
  destruct (two_thirds_cases n ltac:(lia)) as (r & Hr & Hcases).
  destruct (split_both_plain n r Hr Hcases) as [Hsplit _].
  assert (1 <= r <= n - 1) as Hb by lia.
  assert (question_counts qt n = Ok (Some (r, n - r))) as Hcounts
    by (unfold question_counts; rewrite Hm, Hs, Hsplit; reflexivity).
  exists r, (n - r). cbv zeta.
  split; [exact Hcounts |]. split; [lia |]. split; [lia |].
  assert ((0 <? r) = true) as Hb1 by (apply Z.ltb_lt; lia).
  assert ((0 <? n - r) = true) as Hb2 by (apply Z.ltb_lt; lia).
  split; [intros detail H1 | intros text detail H1 H2'];
    unfold generate_questions; rewrite Hcounts; unfold_monad; cbn;
    rewrite Hb1; cbn; rewrite H1; cbn; [reflexivity |].
  rewrite Hb2. cbn. rewrite H2'. reflexivity.
Qed.

(** With both types selected and a total from 2 to below 2^51, the two
    calls ask for the nearest integer to two thirds of the total and for the
    rest, and their replies are returned. *)
Lemma both_types_run base context qt n diff mcqs subjective files :
  py_in (py "mcq") qt = Ok true -> py_in (py "subjective") qt = Ok true ->
  2 <= n < 2 ^ 51 ->
  let m := (2 * n + 1) / 3 in
  let p1 := McqPrompt base m diff context in
  let p2 := SubjectivePrompt base (n - m) diff context in
  complete 0%nat p1 = Text mcqs -> complete 1%nat p2 = Text subjective ->
  generate_questions complete base context qt n diff (World [] files)
  = (Ok (Response 200
           (<[ "mcqs"%string := mcqs ]>
              {[ "subjective_questions"%string := subjective ]})),
     World [p1; p2] files).
Proof.
  intros Hm Hs Hrange m p1 p2 H1 H2.
  destruct (split_both_exact n ltac:(lia)) as [Hsplit Hb].
  specialize (Hb ltac:(lia)). fold m in Hsplit, Hb.
  apply generate_questions_prompts; try lia; try assumption.
  unfold question_counts. rewrite Hm, Hs, Hsplit. reflexivity.
Qed.

(** X14: a request on a topic for both types and a total from 2 to below
    2^51 makes two calls, the first for the nearest integer to two thirds of
    the total MCQs and the second for the remaining subjective questions,
    both on the topic, with the requested difficulty ("medium" by default)
    and "N/A" as the syllabus content; the two replies are returned
    verbatim. *)
Theorem topic_generation n qt t mcqs subjective :
  form_total form = Some n -> form_types form = Some qt ->
  usable_file (syllabus_pdf form) = None ->
  usable_topic (topic form) = Some t ->
  py_in (py "mcq") qt = Ok true -> py_in (py "subjective") qt = Ok true ->
  2 <= n < 2 ^ 51 ->
  let m := (2 * n + 1) / 3 in
  let p1 := McqPrompt (ForTopic t) m (form_difficulty form) (py "N/A") in
  let p2 :=
    SubjectivePrompt (ForTopic t) (n - m) (form_difficulty form) (py "N/A") in
  complete 0%nat p1 = Text mcqs -> complete 1%nat p2 = Text subjective ->
  run (start tmp)
  = (Ok (Response 200
           (<[ "mcqs"%string := mcqs ]>
              {[ "subjective_questions"%string := subjective ]})),
     World [p1; p2] tmp).
Proof.
  intros Hn Hqt Hf Ht Hm Hs Hrange m p1 p2 H1 H2.
  rewrite (topic_run n qt t _ Hn Hqt Hf Ht).
  apply both_types_run; assumption.
Qed.

End Generation.

(** ** The uploaded syllabus *)

Section Files.

Variable complete : nat -> prompt -> reply.
Variable new_tmp_file : result pystr.
Variable save_upload : upload -> pystr -> result unit.
Variable extract_text : pystr -> result pystr.
Variable form : generate_form.
Variable tmp : gset pystr.

(** The text of a document whose pages can all be read: the texts of the
    pages in page order, a page without text giving nothing. *)
Lemma pages_text_readable pages :
  pages_text (map Ok pages) = Ok (concat (map (default []) pages)).
Proof.
  induction pages as [| page pages IH]; cbn; [reflexivity |].
  rewrite IH. reflexivity.
Qed.

Lemma pages_text_unreadable pdf path :
  unreadable pdf ->
  parse_pdf (read_pdf pdf) path = None \/
  parse_pdf (read_pdf pdf) path = Some [].
Proof.
  unfold parse_pdf, read_pdf.
  destruct pdf as [pages | e]; [| left; reflexivity].
  cbn. intros [Hall | Hex].
  - right. induction Hall as [| page pages [-> | ->] _ IH]; cbn;
      [reflexivity | |];
      destruct (pages_text pages); cbn in *; congruence.
  - left. induction Hex as [page pages [e ->] | page pages _ IH]; cbn;
      [reflexivity |].
    destruct page; [| reflexivity].
    destruct (pages_text pages); [discriminate | reflexivity].
Qed.

(** X16: an uploaded syllabus that gives no text (it cannot be opened, a
    page cannot be read, or every page is blank) is answered 500 "Failed to
    parse PDF syllabus.", with no call made and the temporary file
    removed. *)
Theorem unreadable_syllabus pdf f path n qt :
  form_total form = Some n -> form_types form = Some qt ->
  usable_file (syllabus_pdf form) = Some f ->
  new_tmp_file = Ok path -> path ∉ tmp ->
  save_upload f path = Ok tt ->
  unreadable pdf ->
  generate_assessment complete new_tmp_file save_upload (read_pdf pdf) form
    (start tmp)
  = (Ok (error_response 500 "Failed to parse PDF syllabus."), start tmp).
Proof.
  intros Hn Hqt Hf Hp Hfresh Hs Hpdf.
  pose proof (fresh_path_removed path tmp Hfresh) as Hset.
  unfold form_total, form_types in *.
  unfold generate_assessment, named_temporary_file, unlink, start.
  rewrite Hf, Hp.
  destruct (total_questions form); try discriminate;
    destruct (question_types form); try discriminate;
    unfold bind, lift; cbn -[generate_questions parse_pdf]; rewrite Hs;
    cbn -[generate_questions parse_pdf]; rewrite Hset;
    destruct (pages_text_unreadable pdf path Hpdf) as [-> | ->]; reflexivity.
Qed.

(** X15: a request with a syllabus whose pages can all be read and give
    some text, for both types and a total from 2 to below 2^51, makes the
    two calls with the instruction to derive the questions from the syllabus
    and with the text of the pages, in page order, as the syllabus content;
    the replies are returned verbatim and the temporary file is removed. *)
Theorem syllabus_generation pages f path n qt mcqs subjective :
  form_total form = Some n -> form_types form = Some qt ->
  usable_file (syllabus_pdf form) = Some f ->
  new_tmp_file = Ok path -> path ∉ tmp ->
  save_upload f path = Ok tt ->
  py_in (py "mcq") qt = Ok true -> py_in (py "subjective") qt = Ok true ->
  2 <= n < 2 ^ 51 ->
  let text := concat (map (default []) pages) in
  let m := (2 * n + 1) / 3 in
  let p1 := McqPrompt FromSyllabus m (form_difficulty form) text in
  let p2 := SubjectivePrompt FromSyllabus (n - m) (form_difficulty form) text in
  text <> [] ->
  complete 0%nat p1 = Text mcqs -> complete 1%nat p2 = Text subjective ->
  generate_assessment complete new_tmp_file save_upload
    (read_pdf (Ok (map Ok pages))) form (start tmp)
  = (Ok (Response 200
           (<[ "mcqs"%string := mcqs ]>
              {[ "subjective_questions"%string := subjective ]})),
     World [p1; p2] tmp).
Proof.
  intros Hn Hqt Hf Hp Hfresh Hsave Hm Hs Hrange text m p1 p2 Hne H1 H2.
  rewrite (syllabus_run complete new_tmp_file save_upload
             (read_pdf (Ok (map Ok pages))) form tmp n qt f path text
             Hn Hqt Hf Hp Hsave (pages_text_readable pages) Hne).
  rewrite (fresh_path_removed path tmp Hfresh).
  apply both_types_run; assumption.
Qed.

(** X18: when saving the upload cannot fail, every generation request
    leaves the temporary directory as it found it, whatever the form, the
    document and the completion service do. *)
Theorem saved_upload_is_removed :
  match new_tmp_file with
  | Ok path => (path ∉ tmp) /\ forall f, save_upload f path = Ok tt
  | Raise _ => True
  end ->
  tmp_files (snd (generate_assessment complete new_tmp_file save_upload
                    extract_text form (start tmp))) = tmp.
Proof.
  intros Henv.
  destruct (usable_file (syllabus_pdf form)) as [f |] eqn:Hf.
  - destruct new_tmp_file as [path | e] eqn:Hp.
    + destruct Henv as [Hfresh Hsave].
      destruct (generate_assessment _ _ _ _ _ _) as [out w] eqn:Hrun.
      apply (temp_file_removed _ _ _ _ _ _ f path out w Hf eq_refl Hfresh
               (Hsave f) Hrun).
    + unfold generate_assessment, named_temporary_file, start. rewrite Hf.
      destruct (total_questions form), (question_types form); reflexivity.
  - unfold generate_assessment, start. rewrite Hf.
    unfold bind at 1. unfold lift at 1.
    destruct (total_questions form); cbn -[generate_questions];
      try reflexivity.
    all: destruct (question_types form); cbn -[generate_questions];
      try reflexivity.
    all: destruct (usable_topic (topic form)); [| reflexivity].
    all: destruct (generate_questions _ _ _ _ _ _ _) as [out w] eqn:Hrun.
    all: apply generate_questions_tmp in Hrun; exact Hrun.
Qed.

(** X19: with a usable syllabus upload, the [topic] field is ignored:
    changing it changes nothing in the run. *)
Theorem syllabus_overrides_topic f t :
  usable_file (syllabus_pdf form) = Some f ->
  generate_assessment complete new_tmp_file save_upload extract_text
    (with_topic form t)
  = generate_assessment complete new_tmp_file save_upload extract_text form.
Proof.
  intros Hf. unfold generate_assessment, with_topic. cbn. rewrite Hf.
  reflexivity.
Qed.

End Files.

Lemma nonpositive_total_generates_nothing_witness :
  generate_assessment service_na (Ok sample_path) (fun _ _ => Ok tt)
    (fun _ => Ok [])
    (sample_topic_form (Parsed (-3)) (Parsed sample_both_types)) (start ∅)
  = (Ok (Response 200
           (<[ "mcqs"%string := [] ]>
              {[ "subjective_questions"%string := [] ]})),
     start ∅).
Proof.
  exact (nonpositive_total_generates_nothing service_na (Ok sample_path)
           (fun _ _ => Ok tt) (fun _ => Ok [])
           (sample_topic_form (Parsed (-3)) (Parsed sample_both_types)) ∅
           (-3) sample_both_types (py "Recursion") true true
           eq_refl eq_refl eq_refl eq_refl eq_refl eq_refl eq_refl
           ltac:(lia) eq_refl).
Defined.

Lemma unknown_types_rejected_witness :
  generate_assessment service_na (Ok sample_path) (fun _ _ => Ok tt)
    (fun _ => Ok []) (sample_topic_form (Parsed 5) Missing) (start ∅)
  = (Ok (error_response 400 "No valid question type selected."), start ∅).
Proof.
  exact (unknown_types_rejected service_na (Ok sample_path)
           (fun _ _ => Ok tt) (fun _ => Ok [])
           (sample_topic_form (Parsed 5) Missing) ∅ 5 (py "Recursion")
           eq_refl eq_refl eq_refl (or_introl eq_refl)).
Defined.

Lemma scalar_types_raise_witness :
  generate_assessment service_na (Ok sample_path) (fun _ _ => Ok tt)
    (fun _ => Ok []) (sample_topic_form Missing (Parsed (PInt 3))) (start ∅)
  = (Raise TypeError, start ∅).
Proof.
  exact (scalar_types_raise service_na (Ok sample_path) (fun _ _ => Ok tt)
           (fun _ => Ok []) (sample_topic_form Missing (Parsed (PInt 3))) ∅
           10 (PInt 3) (py "Recursion") eq_refl eq_refl eq_refl eq_refl I).
Defined.

Lemma single_type_generation_witness :
  generate_assessment service_na (Ok sample_path) (fun _ _ => Ok tt)
    (fun _ => Ok [])
    (sample_topic_form (Parsed 5) (Parsed (PList [PStr (py "mcq")])))
    (start ∅)
  = (Ok (Response 200
           (<[ "mcqs"%string := py "N/A" ]>
              {[ "subjective_questions"%string := [] ]})),
     World [McqPrompt (ForTopic (py "Recursion")) 5 (py "medium") (py "N/A")]
       ∅).
Proof.
  exact (proj1 (single_type_generation service_na (Ok sample_path)
                  (fun _ _ => Ok tt) (fun _ => Ok [])
                  (sample_topic_form (Parsed 5)
                     (Parsed (PList [PStr (py "mcq")]))) ∅
                  5 (PList [PStr (py "mcq")]) (py "Recursion") (py "N/A")
                  eq_refl eq_refl eq_refl eq_refl ltac:(lia))
           eq_refl eq_refl eq_refl).
Defined.

Lemma generation_all_or_nothing_witness :
  question_counts sample_both_types 10 = Ok (Some (7, 3)) /\
  generate_assessment service_down_after_first (Ok sample_path)
    (fun _ _ => Ok tt) (fun _ => Ok [])
    (sample_topic_form (Parsed 10) (Parsed sample_both_types)) (start ∅)
  = (Ok (error_response 500
           "Failed to generate assessment. Please try again."),
     World [McqPrompt (ForTopic (py "Recursion")) 7 (py "medium") (py "N/A");
            SubjectivePrompt (ForTopic (py "Recursion")) 3 (py "medium")
              (py "N/A")] ∅).
Proof.
  destruct (generation_all_or_nothing service_down_after_first
              (Ok sample_path) (fun _ _ => Ok tt) (fun _ => Ok [])
              (sample_topic_form (Parsed 10) (Parsed sample_both_types)) ∅
              10 sample_both_types (py "Recursion")
              eq_refl eq_refl eq_refl eq_refl eq_refl eq_refl
              ltac:(lia) eq_refl)
    as (m & s & Hcounts & _ & _ & _ & H2).
  assert (question_counts sample_both_types 10 = Ok (Some (7, 3))) as H73
    by reflexivity.
  split; [exact H73 |].
  rewrite H73 in Hcounts. injection Hcounts as <- <-.
  exact (H2 _ _ eq_refl eq_refl).
Defined.

Lemma topic_generation_witness :
  generate_assessment service_na (Ok sample_path) (fun _ _ => Ok tt)
    (fun _ => Ok []) (sample_topic_form Missing (Parsed sample_both_types))
    (start ∅)
  = (Ok (Response 200
           (<[ "mcqs"%string := py "N/A" ]>
              {[ "subjective_questions"%string := py "N/A" ]})),
     World [McqPrompt (ForTopic (py "Recursion")) 7 (py "medium") (py "N/A");
            SubjectivePrompt (ForTopic (py "Recursion")) 3 (py "medium")
              (py "N/A")] ∅).
Proof.
  exact (topic_generation service_na (Ok sample_path) (fun _ _ => Ok tt)
           (fun _ => Ok [])
           (sample_topic_form Missing (Parsed sample_both_types)) ∅
           10 sample_both_types (py "Recursion") (py "N/A") (py "N/A")
           eq_refl eq_refl eq_refl eq_refl eq_refl eq_refl
           ltac:(split; [lia | reflexivity]) eq_refl eq_refl).
Defined.

Lemma syllabus_generation_witness :
  generate_assessment service_na (Ok sample_path) (fun _ _ => Ok tt)
    (read_pdf (Ok (map Ok sample_pages))) sample_syllabus_form (start ∅)
  = (Ok (Response 200
           (<[ "mcqs"%string := py "N/A" ]>
              {[ "subjective_questions"%string := py "N/A" ]})),
     World [McqPrompt FromSyllabus 2 (py "hard")
              (py "Unit 1: Recursion. Unit 2: Sorting.");
            SubjectivePrompt FromSyllabus 1 (py "hard")
              (py "Unit 1: Recursion. Unit 2: Sorting.")] ∅).
Proof.
  exact (syllabus_generation service_na (Ok sample_path) (fun _ _ => Ok tt)
           sample_syllabus_form ∅ sample_pages sample_upload sample_path
           3 sample_both_types (py "N/A") (py "N/A")
           eq_refl eq_refl eq_refl eq_refl (not_elem_of_empty sample_path)
           eq_refl eq_refl eq_refl ltac:(split; [lia | reflexivity])
           ltac:(discriminate) eq_refl eq_refl).
Defined.

Lemma unreadable_syllabus_witness :
  unreadable sample_scanned_pdf /\
  generate_assessment service_na (Ok sample_path) (fun _ _ => Ok tt)
    (read_pdf sample_scanned_pdf) sample_upload_form (start ∅)
  = (Ok (error_response 500 "Failed to parse PDF syllabus."), start ∅).
Proof.
  assert (unreadable sample_scanned_pdf) as Hpdf.
  { left. constructor; [left; reflexivity |].
    constructor; [right; reflexivity | constructor]. }
  split; [exact Hpdf |].
  exact (unreadable_syllabus service_na (Ok sample_path) (fun _ _ => Ok tt)
           sample_upload_form ∅ sample_scanned_pdf sample_upload sample_path
           10 (PList [PStr (py "mcq")]) eq_refl eq_refl eq_refl eq_refl
           (not_elem_of_empty sample_path) eq_refl Hpdf).
Defined.

Lemma saved_upload_is_removed_witness :
  tmp_files (snd (generate_assessment service_down (Ok sample_path)
                    (fun _ _ => Ok tt) (fun _ => Ok (py "Unit 1"))
                    sample_upload_form (start ∅))) = ∅.
Proof.
  exact (saved_upload_is_removed service_down (Ok sample_path)
           (fun _ _ => Ok tt) (fun _ => Ok (py "Unit 1")) sample_upload_form
           ∅ (conj (not_elem_of_empty sample_path) (fun _ => eq_refl))).
Defined.

Lemma syllabus_overrides_topic_witness :
  generate_assessment service_na (Ok sample_path) (fun _ _ => Ok tt)
    (fun _ => Ok (py "Unit 1"))
    (with_topic sample_upload_form (Some (py "Recursion")))
  = generate_assessment service_na (Ok sample_path) (fun _ _ => Ok tt)
      (fun _ => Ok (py "Unit 1")) sample_upload_form.
Proof.
  exact (syllabus_overrides_topic service_na (Ok sample_path)
           (fun _ _ => Ok tt) (fun _ => Ok (py "Unit 1")) sample_upload_form
           sample_upload (Some (py "Recursion")) eq_refl).
Defined.


(** ** Joined lists *)

Lemma all_strs_map strs : all_strs (map PStr strs) = Some strs.
Proof.
  induction strs as [| s strs IH]; cbn; [reflexivity |].
  rewrite IH. reflexivity.
Qed.

Lemma all_strs_not_str l :
  Exists (fun v => is_str v = false) l -> all_strs l = None.
Proof.
  induction 1 as [v l Hv | v l _ IH]; cbn.
  - destruct v; try discriminate; reflexivity.
  - destruct v; try reflexivity. rewrite IH. reflexivity.
Qed.

Section Joins.

Variable complete : nat -> prompt -> reply.
Variable data : gmap string pyval.
Variable tmp : gset pystr.

(** X20: a plagiarism check with an answer and a non-empty corpus of
    strings makes exactly one call, whose comparison text is the corpus
    joined by newlines; the reply is returned verbatim as the report, and a
    failure gives the 500 response. *)
Theorem corpus_is_joined user_answer strs :
  data !! "user_answer"%string = Some user_answer ->
  truthy user_answer = true ->
  data !! "known_corpus"%string = Some (PList (map PStr strs)) ->
  strs <> [] ->
  let p := PlagiarismPrompt user_answer (join_strs [10%N] strs) in
  check_plagiarism complete data (start tmp)
  = (Ok match complete 0%nat p with
        | Text t => jsonify {[ "plagiarism_report"%string := t ]}
        | Failure _ =>
            error_response 500 "Failed to check plagiarism due to AI error."
        end,
     World [p] tmp).
Proof.
  intros Hu Ht Hc Hne p. unfold check_plagiarism, get, get_default.
  assert (truthy (PList (map PStr strs)) = true) as Hl
    by (destruct strs; [contradiction | reflexivity]).
  rewrite Hu, Hc. cbn [default from_option id]. rewrite Ht, Hl.
  cbn [negb py_join]. rewrite all_strs_map.
  unfold_monad. cbn -[join_strs]. fold p.
  destruct (complete 0%nat p); reflexivity.
Qed.

(** X21: a recommendation request with a non-empty list of skill gaps
    makes exactly one call, with the gaps joined by ", " and the user
    profile (an empty object by default); the reply is returned verbatim,
    and a failure gives the 500 response. *)
Theorem gaps_are_joined strs :
  data !! "skill_gaps"%string = Some (PList (map PStr strs)) ->
  strs <> [] ->
  let p :=
    RecommendationPrompt (join_strs (py ", ") strs)
      (get_default data "user_profile" (PDict [])) in
  recommend_tests complete data (start tmp)
  = (Ok match complete 0%nat p with
        | Text t => jsonify {[ "recommendations"%string := t ]}
        | Failure _ =>
            error_response 500
              "Failed to generate recommendations due to AI error."
        end,
     World [p] tmp).
Proof.
  intros Hc Hne p. unfold recommend_tests.
  assert (truthy (PList (map PStr strs)) = true) as Hl
    by (destruct strs; [contradiction | reflexivity]).
  unfold get_default at 1 2. rewrite Hc. cbn [default from_option id].
  rewrite Hl. cbn [negb py_join]. rewrite all_strs_map.
  unfold_monad. cbn -[join_strs py get_default]. fold p.
  destruct (complete 0%nat p); reflexivity.
Qed.

(** X22: a corpus or a list of skill gaps with an element that is not a
    string makes the request end in an uncaught [TypeError] (the [join] is
    outside the [try]), before any call. *)
Theorem element_not_a_string l :
  Exists (fun v => is_str v = false) l ->
  (forall user_answer,
     data !! "user_answer"%string = Some user_answer ->
     truthy user_answer = true ->
     data !! "known_corpus"%string = Some (PList l) ->
     check_plagiarism complete data (start tmp)
     = (Raise TypeError, start tmp)) /\
  (data !! "skill_gaps"%string = Some (PList l) ->
   recommend_tests complete data (start tmp) = (Raise TypeError, start tmp)).
Proof.
  intros Hex. pose proof (all_strs_not_str l Hex) as Hall.
  assert (truthy (PList l) = true) as Hl by (destruct Hex; reflexivity).
  split.
  - intros ua Hu Ht Hc. unfold check_plagiarism, get, get_default.
    rewrite Hu, Hc. cbn [default from_option id]. rewrite Ht, Hl.
    cbn [negb py_join].
    rewrite Hall. reflexivity.
  - intros Hc. unfold recommend_tests. unfold get_default at 1 2.
    rewrite Hc. cbn [default from_option id]. rewrite Hl. cbn [negb py_join].
    rewrite Hall. reflexivity.
Qed.

End Joins.

Lemma corpus_is_joined_witness :
  check_plagiarism service_na sample_two_texts (start ∅)
  = (Ok (jsonify {[ "plagiarism_report"%string := py "N/A" ]}),
     World [PlagiarismPrompt (PStr (py "A function that calls itself."))
              (py "Recursion is self reference." ++ 10%N
               :: py "Loops repeat.")] ∅).
Proof.
  exact (corpus_is_joined service_na sample_two_texts ∅
           (PStr (py "A function that calls itself."))
           [py "Recursion is self reference."; py "Loops repeat."]
           eq_refl eq_refl eq_refl ltac:(discriminate)).
Defined.

Lemma gaps_are_joined_witness :
  recommend_tests service_na sample_gaps (start ∅)
  = (Ok (jsonify {[ "recommendations"%string := py "N/A" ]}),
     World [RecommendationPrompt (py "Base cases, Big-O") (PDict [])] ∅).
Proof.
  exact (gaps_are_joined service_na sample_gaps ∅
           [py "Base cases"; py "Big-O"] eq_refl ltac:(discriminate)).
Defined.

Lemma element_not_a_string_witness :
  check_plagiarism service_na sample_mixed_corpus (start ∅)
  = (Raise TypeError, start ∅) /\
  recommend_tests service_na sample_mixed_gaps (start ∅)
  = (Raise TypeError, start ∅).
Proof.
  assert (Exists (fun v => is_str v = false) sample_mixed_list) as Hex
    by (constructor 2; constructor 1; reflexivity).
  split.
  - exact (proj1 (element_not_a_string service_na sample_mixed_corpus ∅
                    sample_mixed_list Hex)
             (PStr (py "A function that calls itself."))
             eq_refl eq_refl eq_refl).
  - exact (proj2 (element_not_a_string service_na sample_mixed_gaps ∅
                    sample_mixed_list Hex)
             eq_refl).
Defined.
